(** * LifeSync dashboard: a shallow embedding of the frontend's analytics code

  Sources embedded here:
  - [frontend/js/analytics-viz.js]: [getHeatmapLevel], [getCorrelationLevel],
    [renderHeatmapCalendar], [renderProductivityChart],
    [renderHabitStrength], [renderCorrelationMatrix],
    [renderComparisonChart], [exportToCSV];
  - [frontend/js/auth.js]: [AuthPage.init];
  - the API communication layer ([API.request], [Auth], [Toast],
    [DateUtils]);
  - the theme manager ([Theme]) and the command palette
    ([CommandPalette]).

  Numbers are the rationals that binary64 holds, with the infinities and
  NaN; dates are time values in milliseconds; the host's offset from UTC is
  a constant, except where a [zone] is named.

  The analytics aggregators themselves (streaks, Pearson correlation, period
  comparison) run on the server and are not part of the frontend sources; the
  definitions that stand for them say so in their doc comments. *)

From Stdlib Require Import ZArith QArith Qround Reals Lia Lqa Lra Ascii String.
From stdpp Require Import gmap strings list.

Local Open Scope Z_scope.
Set Warnings "-register-all".

(** ** JavaScript numbers

  A JS number is an IEEE-754 binary64 value.  Every finite binary64 value is
  a (dyadic) rational, so finite numbers are carried by [Q]; the three
  non-finite values are constructors of their own.  Only comparisons are used
  on these values by the code below, and IEEE comparisons of finite values
  agree with the order of the rationals ([-0] and [+0] are both [0]). *)

Module JsNumber.

Inductive number : Type :=
| Num (q : Q)
| PosInfinity
| NegInfinity
| NaN.

Definition of_Z (z : Z) : number := Num (inject_Z z).

(** [x === y] on two numbers. *)
Definition strict_eq (x y : number) : bool :=
  match x, y with
  | Num a, Num b => Qeq_bool a b
  | PosInfinity, PosInfinity => true
  | NegInfinity, NegInfinity => true
  | _, _ => false
  end.

(** [x <= y]. *)
Definition num_le (x y : number) : bool :=
  match x, y with
  | NaN, _ | _, NaN => false
  | NegInfinity, _ => true
  | _, PosInfinity => true
  | Num a, Num b => Qle_bool a b
  | _, _ => false
  end.

(** [x < y]. *)
Definition num_lt (x y : number) : bool :=
  match x, y with
  | NaN, _ | _, NaN => false
  | Num a, Num b => negb (Qle_bool b a)
  | PosInfinity, _ => false
  | _, NegInfinity => false
  | _, _ => true
  end.

(** [x >= y] and [x > y]. *)
Definition num_ge (x y : number) : bool := num_le y x.
Definition num_gt (x y : number) : bool := num_lt y x.

(** [Number.isFinite]. *)
Definition isFinite (x : number) : bool :=
  match x with Num _ => true | _ => false end.

(** [Math.abs]. *)
Definition Math_abs (x : number) : number :=
  match x with
  | Num q => Num (Qabs.Qabs q)
  | PosInfinity | NegInfinity => PosInfinity
  | NaN => NaN
  end.

(** [Math.round]: the nearest integer, a half going up. *)
Definition Math_round (x : number) : number :=
  match x with
  | Num q => of_Z (Qfloor (q + (1 # 2)))
  | _ => x
  end.

(** The binary64 number nearest to a rational, a tie going to the even
    significand: the exponent [e] of the rational, the exponent [p] of the
    last bit kept (53 bits, fewer below 2^-1022), the significand [m], and
    infinity from 2^1024 on.  The sign of a zero is not kept. *)
Definition round_binary64 (q : Q) : number :=
  let n := Z.abs (Qnum q) in
  let d := Zpos (Qden q) in
  if n =? 0 then Num 0
  else
    let e0 := Z.log2 n - Z.log2 d in
    let below :=
      if 0 <=? e0 then n <? d * 2 ^ e0 else n * 2 ^ (- e0) <? d in
    let e := if below then e0 - 1 else e0 in
    let p := Z.max (e - 52) (-1074) in
    let num := if 0 <=? p then n else n * 2 ^ (- p) in
    let den := if 0 <=? p then d * 2 ^ p else d in
    let m0 := num / den in
    let r := num mod den in
    let m :=
      if 2 * r <? den then m0
      else if den <? 2 * r then m0 + 1
      else m0 + m0 mod 2 in
    let positive := 0 <? Qnum q in
    if (0 <=? p) && (2 ^ 1024 <=? m * 2 ^ p) then
      if positive then PosInfinity else NegInfinity
    else
      let s := if positive then m else - m in
      if 0 <=? p then Num (inject_Z (s * 2 ^ p))
      else Num (Qmake s (Z.to_pos (2 ^ (- p)))).

(** [x * y]: the product of two finite numbers, rounded to binary64. *)
Definition num_mul (x y : number) : number :=
  match x, y with
  | NaN, _ | _, NaN => NaN
  | Num a, Num b => round_binary64 (a * b)
  | Num a, PosInfinity | PosInfinity, Num a =>
      if Qeq_bool a 0 then NaN
      else if Qle_bool 0 a then PosInfinity else NegInfinity
  | Num a, NegInfinity | NegInfinity, Num a =>
      if Qeq_bool a 0 then NaN
      else if Qle_bool 0 a then NegInfinity else PosInfinity
  | PosInfinity, PosInfinity | NegInfinity, NegInfinity => PosInfinity
  | PosInfinity, NegInfinity | NegInfinity, PosInfinity => NegInfinity
  end.

(** The binary64 values of the literals [0.7], [0.5] and [0.3]: the nearest
    doubles, written as exact fractions. *)
Definition q_0_7 : Q := 3152519739159347 # 4503599627370496.
Definition q_0_3 : Q := 5404319552844595 # 18014398509481984.
Definition lit_0_7 : number := Num q_0_7.
Definition lit_0_5 : number := Num (1 # 2).
Definition lit_0_3 : number := Num q_0_3.

End JsNumber.

Import JsNumber.

(** ** Intensity levels ([analytics-viz.js]) *)

Module Levels.

(** [function getHeatmapLevel(percentage)]. *)
Definition getHeatmapLevel (percentage : number) : Z :=
  if strict_eq percentage (of_Z 0) then 0
  else if num_le percentage (of_Z 25) then 1
  else if num_le percentage (of_Z 50) then 2
  else if num_le percentage (of_Z 75) then 3
  else 4.

(** [function getCorrelationLevel(correlation)]. *)
Definition getCorrelationLevel (correlation : number) : Z :=
  if num_ge correlation lit_0_7 then 4
  else if num_ge correlation lit_0_5 then 3
  else if num_ge correlation lit_0_3 then 2
  else if num_gt correlation (of_Z 0) then 1
  else 0.

End Levels.

Import Levels.


(** ** Dates

    The time arithmetic of ECMAScript's [Date] (ECMA-262, "Date Objects"): a
    date is its time value, a count of milliseconds since the epoch in UTC.
    The host's time zone is a fixed offset [LocalTZA] (milliseconds to add to a
    UTC time to get the local one); time values are taken within the range
    [TimeClip] accepts, so no date is invalid. *)

Module JsDate.

Definition msPerDay : Z := 86400000.
Definition msPerHour : Z := 3600000.
Definition msPerMinute : Z := 60000.
Definition msPerSecond : Z := 1000.

Definition Day (t : Z) : Z := t / msPerDay.
Definition TimeWithinDay (t : Z) : Z := t mod msPerDay.

Definition DaysInYear (y : Z) : Z :=
  if negb (y mod 4 =? 0) then 365
  else if negb (y mod 100 =? 0) then 366
  else if negb (y mod 400 =? 0) then 365
  else 366.

Definition DayFromYear (y : Z) : Z :=
  365 * (y - 1970) + (y - 1969) / 4 - (y - 1901) / 100 + (y - 1601) / 400.

Definition TimeFromYear (y : Z) : Z := msPerDay * DayFromYear y.

(** The largest [y] with [DayFromYear y <= d]: an estimate from the mean
    length of a Gregorian year (146097 days in 400 years), off by one at
    most, and its correction. *)
Definition YearFromDay (d : Z) : Z :=
  let y0 := 1970 + (400 * d) / 146097 in
  if d <? DayFromYear y0 then y0 - 1
  else if DayFromYear (y0 + 1) <=? d then y0 + 1
  else y0.

Definition YearFromTime (t : Z) : Z := YearFromDay (Day t).

Definition InLeapYear (t : Z) : Z :=
  if DaysInYear (YearFromTime t) =? 366 then 1 else 0.

Definition DayWithinYear (t : Z) : Z := Day t - DayFromYear (YearFromTime t).

Definition MonthFromTime (t : Z) : Z :=
  let d := DayWithinYear t in
  let l := InLeapYear t in
  if d <? 31 then 0
  else if d <? 59 + l then 1
  else if d <? 90 + l then 2
  else if d <? 120 + l then 3
  else if d <? 151 + l then 4
  else if d <? 181 + l then 5
  else if d <? 212 + l then 6
  else if d <? 243 + l then 7
  else if d <? 273 + l then 8
  else if d <? 304 + l then 9
  else if d <? 334 + l then 10
  else 11.

(** The day of the year on which month [m] (0 to 11) starts. *)
Definition monthStart (m l : Z) : Z :=
  match m with
  | 0 => 0
  | 1 => 31
  | 2 => 59 + l
  | 3 => 90 + l
  | 4 => 120 + l
  | 5 => 151 + l
  | 6 => 181 + l
  | 7 => 212 + l
  | 8 => 243 + l
  | 9 => 273 + l
  | 10 => 304 + l
  | _ => 334 + l
  end.

Definition DateFromTime (t : Z) : Z :=
  DayWithinYear t - monthStart (MonthFromTime t) (InLeapYear t) + 1.

Definition WeekDay (t : Z) : Z := (Day t + 4) mod 7.

Definition HourFromTime (t : Z) : Z := (t / msPerHour) mod 24.
Definition MinFromTime (t : Z) : Z := (t / msPerMinute) mod 60.
Definition SecFromTime (t : Z) : Z := (t / msPerSecond) mod 60.
Definition msFromTime (t : Z) : Z := t mod msPerSecond.

Definition MakeTime (hour min sec ms : Z) : Z :=
  hour * msPerHour + min * msPerMinute + sec * msPerSecond + ms.

(** [MakeDay(year, month, date)]: the day number of the first of the month,
    plus [date - 1]. *)
Definition MakeDay (year month date : Z) : Z :=
  let ym := year + month / 12 in
  let mn := month mod 12 in
  let l := if DaysInYear ym =? 366 then 1 else 0 in
  DayFromYear ym + monthStart mn l + date - 1.

Definition MakeDate (day time : Z) : Z := day * msPerDay + time.

Section LocalTime.

Variable LocalTZA : Z.

Definition LocalTime (t : Z) : Z := t + LocalTZA.
Definition UTC (t : Z) : Z := t - LocalTZA.

(** [new Date(year, month, date)]: local midnight of that day; a year from 0
    to 99 stands for 1900 + year.  The host's offset is one constant (a
    host without daylight saving), and the time value is the one before
    [TimeClip], which leaves every date of the years -271820 to 275759 as
    it is ([JsTime.TimeClip], [midnight_valid] below). *)
Definition Date_of_ymd (year month date : Z) : Z :=
  let yr := if (0 <=? year) && (year <=? 99) then 1900 + year else year in
  UTC (MakeDate (MakeDay yr month date) (MakeTime 0 0 0 0)).

(** [new Date(other)] copies the time value. *)
Definition Date_copy (t : Z) : Z := t.

Definition getDay (t : Z) : Z := WeekDay (LocalTime t).
Definition getDate (t : Z) : Z := DateFromTime (LocalTime t).
Definition getFullYear (t : Z) : Z := YearFromTime (LocalTime t).

(** [d.setDate(dt)]: the new time value of [d], on a host whose offset is
    the same before and after the move, and before [TimeClip];
    [JsTime.setDate_at] is the general case. *)
Definition setDate (t dt : Z) : Z :=
  let lt := LocalTime t in
  UTC (MakeDate (MakeDay (YearFromTime lt) (MonthFromTime lt) dt)
                (TimeWithinDay lt)).

End LocalTime.

(** Decimal digits, for the fixed-width fields of [toISOString]. *)
Definition digit (n : Z) : ascii :=
  ascii_of_nat (48 + Z.to_nat (n mod 10)).

Definition pad2 (n : Z) : string :=
  String (digit (n / 10)) (String (digit n) EmptyString).

Definition pad3 (n : Z) : string :=
  String (digit (n / 100)) (pad2 n).

Definition pad4 (n : Z) : string :=
  String (digit (n / 1000)) (pad3 n).

Definition pad6 (n : Z) : string :=
  String (digit (n / 100000)) (String (digit (n / 10000)) (pad4 n)).

(** The year field: four digits from 0 to 9999, otherwise a sign and six
    digits. *)
Definition isoYear (y : Z) : string :=
  if (0 <=? y) && (y <=? 9999) then pad4 y
  else if y <? 0 then String "-"%char (pad6 (- y))
  else String "+"%char (pad6 y).

Definition isoDatePart (t : Z) : string :=
  isoYear (YearFromTime t) +:+ "-" +:+ pad2 (MonthFromTime t + 1)
    +:+ "-" +:+ pad2 (DateFromTime t).

Definition isoTimePart (t : Z) : string :=
  pad2 (HourFromTime t) +:+ ":" +:+ pad2 (MinFromTime t) +:+ ":"
    +:+ pad2 (SecFromTime t) +:+ "." +:+ pad3 (msFromTime t) +:+ "Z".

(** [d.toISOString()]: the UTC fields of the time value. *)
Definition toISOString (t : Z) : string :=
  isoDatePart t +:+ "T" +:+ isoTimePart t.

(** [s.split('T')[0]]: the part of [s] before its first ['T']. *)
Fixpoint split_T_0 (s : string) : string :=
  match s with
  | EmptyString => EmptyString
  | String c rest =>
      if Ascii.eqb c "T"%char then EmptyString else String c (split_T_0 rest)
  end.

End JsDate.

Import JsDate.

(** ** Valid time values, and hosts whose offset changes *)

Module JsTime.

(** A time value lies within 8.64e15 ms of the epoch, which is 100,000,000
    days on either side (from -271821-04-20 to +275760-09-13); [TimeClip]
    gives [NaN], here [None], for anything beyond. *)
Definition maxTime : Z := 8640000000000000.

Definition TimeClip (t : Z) : option Z :=
  if Z.abs t <=? maxTime then Some t else None.

(** [LocalTZA(t, isUTC)] of a host: the offset of its local time from UTC
    in effect at the time value [t] when [isUTC] holds, and at the local
    time [t] otherwise.  A host without daylight saving has a constant
    one. *)
Definition zone : Type := Z -> bool -> Z.

Definition fixed_zone (tza : Z) : zone := fun _ _ => tza.

Section Zone.

Variable LocalTZA : zone.

Definition LocalTime_at (t : Z) : Z := t + LocalTZA t true.
Definition UTC_at (t : Z) : Z := t - LocalTZA t false.

Definition getDate_at (t : Z) : Z := DateFromTime (LocalTime_at t).

(** [d.setDate(dt)]: the new time value of [d], [None] for an invalid
    date. *)
Definition setDate_at (t dt : Z) : option Z :=
  let lt := LocalTime_at t in
  TimeClip
    (UTC_at (MakeDate (MakeDay (YearFromTime lt) (MonthFromTime lt) dt)
                      (TimeWithinDay lt))).

End Zone.

End JsTime.

Import JsTime.

(** ** Promises and errors *)

Module Js.

(** Parsed JSON. *)
Inductive json : Type :=
| JNull
| JBool (b : bool)
| JNumber (q : Q)
| JString (s : string)
| JArray (items : list json)
| JObject (fields : list (string * json)).

(** A thrown error.  [new Error(m)] converts [m] to a string: [Error] carries
    a text, [ErrorOf] the JSON value the text is made from. *)
Inductive js_error : Type :=
| Error (message : string)
| ErrorOf (message : json)
| TypeError (message : string)
| SyntaxError (message : string)
| RangeError (message : string).

(** How an awaited promise settles. *)
Inductive settled (A : Type) : Type :=
| Fulfilled (value : A)
| Rejected (reason : js_error).

Arguments Fulfilled {A} value.
Arguments Rejected {A} reason.

(** [value || fallback] for a string that may be [null]. *)
Definition or_else (value : option string) (fallback : string) : string :=
  match value with
  | None => fallback
  | Some s => if String.eqb s "" then fallback else s
  end.

(** Truthiness of a string that may be [null]. *)
Definition truthy_string (value : option string) : bool :=
  match value with
  | None => false
  | Some s => negb (String.eqb s "")
  end.

(** [p.then(f)] for a function that does not throw. *)
#[export] Instance settled_fmap : FMap settled :=
  fun A B f p =>
    match p with
    | Fulfilled a => Fulfilled (f a)
    | Rejected e => Rejected e
    end.

End Js.

Import Js.

(** ** The API communication layer ([API.request]) *)

Module API.

(** The value of a key in a parsed object: [JSON.parse] keeps the last of
    several equal keys. *)
Fixpoint lookup_field (name : string) (fields : list (string * json))
  : option json :=
  match fields with
  | [] => None
  | (k, v) :: rest =>
      match lookup_field name rest with
      | Some w => Some w
      | None => if String.eqb k name then Some v else None
      end
  end.

(** [data.name] for one of the names [success] and [message]: a [TypeError]
    on [null], the field of an object, and [undefined] ([None]) on anything
    else (numbers, strings, booleans and arrays have no such property). *)
Definition get_prop (data : json) (name : string) : settled (option json) :=
  match data with
  | JNull => Rejected (TypeError "Cannot read properties of null")
  | JObject fields => Fulfilled (lookup_field name fields)
  | _ => Fulfilled None
  end.

(** The [success] field a parsed body carries, if any. *)
Definition success_of (data : json) : option json :=
  match data with
  | JObject fields => lookup_field "success" fields
  | _ => None
  end.

(** Truthiness of a value that may be [undefined]. *)
Definition truthy (v : option json) : bool :=
  match v with
  | None => false
  | Some JNull => false
  | Some (JBool b) => b
  | Some (JNumber q) => negb (Qeq_bool q 0)
  | Some (JString s) => negb (String.eqb s "")
  | Some (JArray _) => true
  | Some (JObject _) => true
  end.

(** [s.indexOf(pat)]. *)
Definition indexOf (s pat : string) : Z :=
  match String.index 0 pat s with
  | Some i => Z.of_nat i
  | None => -1
  end.

(** What [request] reads of a [fetch] response: [response.ok],
    [response.headers.get("content-type")] ([None] for [null]), the outcome of
    [response.text()], and the outcome of [response.json()] ([None] when the
    body does not parse, which rejects with a [SyntaxError]). *)
Record response : Type := {
  ok : bool;
  content_type : option string;
  text : string;
  json_body : option json
}.

(** A line written with [console.error]. *)
Inductive console_entry : Type :=
| NonJsonResponse (text : string)
| ApiError (error : js_error).

(** The [try] block of [request], after [fetch] has resolved. *)
Definition request_try (response : response)
  : list console_entry * settled json :=
  let contentType := content_type response in
  let is_json :=
    match contentType with
    | None => false
    | Some ct =>
        negb (String.eqb ct "") && negb (indexOf ct "application/json" =? -1)
    end in
  if is_json then
    match json_body response with
    | None => ([], Rejected (SyntaxError "Unexpected token"))
    | Some data =>
        if negb (ok response) then
          match get_prop data "success" with
          | Rejected e => ([], Rejected e)
          | Fulfilled success =>
              if negb (truthy success) then
                match get_prop data "message" with
                | Rejected e => ([], Rejected e)
                | Fulfilled message =>
                    if truthy message
                    then ([], Rejected (ErrorOf (default JNull message)))
                    else ([], Rejected (Error "API request failed"))
                end
              else ([], Fulfilled data)
          end
        else ([], Fulfilled data)
    end
  else
    ([NonJsonResponse (text response)],
     Rejected (Error "Server error: Received non-JSON response")).

(** [API.request(endpoint, options)], given how [fetch(url, config)] settled:
    the console output and the settlement of the returned promise.  The
    [catch] clause logs the error and throws it again. *)
Definition request (fetched : settled response)
  : list console_entry * settled json :=
  let '(console, outcome) :=
    match fetched with
    | Rejected e => ([], Rejected e)
    | Fulfilled response => request_try response
    end in
  match outcome with
  | Rejected error => (console ++ [ApiError error], Rejected error)
  | Fulfilled data => (console, Fulfilled data)
  end.

(** [API.get], [API.put], ... only choose the method and the body of the
    request. *)
Definition get (fetched : settled response) := request fetched.

End API.

(** ** Theme management ([Theme]) *)

Module Theme.

(** What the theme code reads and writes: the [data-theme] attribute of
    [document.documentElement] ([None] when it is not set), [localStorage],
    the class list of [document.body], the preference updates sent with
    [API.put] (endpoint and theme), and the timers set with [setTimeout]. *)
Inductive timer_action : Type :=
| RemoveBodyClass (name : string).

Record browser : Type := {
  data_theme : option string;
  localStorage : gmap string string;
  body_classList : list string;
  api_puts : list (string * string);
  timers : list (timer_action * Z)
}.

Definition storageKey : string := "lifesync-theme".

(** [classList.add(name)]. *)
Definition classList_add (name : string) (classes : list string)
  : list string :=
  if existsb (String.eqb name) classes then classes else classes ++ [name].

(** [classList.remove(name)]. *)
Definition classList_remove (name : string) (classes : list string)
  : list string :=
  List.filter (fun c => negb (String.eqb name c)) classes.

(** [Theme.apply(theme)]. *)
Definition apply (theme : string) (b : browser) : browser :=
  let localStorage' := <[storageKey := theme]> (localStorage b) in
  let user := localStorage' !! "user" in
  {| data_theme := Some theme;
     localStorage := localStorage';
     body_classList := body_classList b;
     api_puts :=
       if truthy_string user
       then api_puts b ++ [("/api/auth/preferences", theme)]
       else api_puts b;
     timers := timers b |}.

(** [Theme.init()]. *)
Definition init (b : browser) : browser :=
  let saved := localStorage b !! storageKey in
  let theme := or_else saved "dark" in
  apply theme b.

(** [Theme.toggle()]. *)
Definition toggle (b : browser) : browser :=
  let current := or_else (data_theme b) "dark" in
  let newTheme := if String.eqb current "dark" then "light" else "dark" in
  let b1 :=
    {| data_theme := data_theme b;
       localStorage := localStorage b;
       body_classList := classList_add "theme-transitioning" (body_classList b);
       api_puts := api_puts b;
       timers := timers b |} in
  let b2 := apply newTheme b1 in
  {| data_theme := data_theme b2;
     localStorage := localStorage b2;
     body_classList := body_classList b2;
     api_puts := api_puts b2;
     timers := timers b2 ++ [(RemoveBodyClass "theme-transitioning", 300)] |}.

(** [Theme.get()]. *)
Definition get (b : browser) : string :=
  or_else (data_theme b) "dark".

End Theme.

(** ** The heatmap calendar ([renderHeatmapCalendar]) *)

Module Heatmap.

(** One day of [/api/analytics/heatmap]. *)
Record entry : Type := {
  date : string;
  completed : number;
  total : number;
  percentage : number
}.

(** The payload of [/api/analytics/heatmap]. *)
Record result : Type := {
  success : bool;
  data : list entry
}.

(** The [data-tooltip] text of a cell, by its template. *)
Inductive tooltip : Type :=
| TooltipHabits (dateStr : string) (completed total percentage : number)
| TooltipNoData (dateStr : string).

(** [<div class="heatmap-cell level-L" data-date=D data-tooltip=T>]. *)
Record cell : Type := {
  level : Z;
  data_date : string;
  data_tooltip : tooltip
}.

(** What [container.innerHTML] is set to. *)
Inductive content : Type :=
| LoadError
| Grid (year : Z) (cells : list cell).

(** [result.data.forEach(d => { dataMap[d.date] = d; })]. *)
Definition build_dataMap (data : list entry) : gmap string entry :=
  fold_left (fun dataMap d => <[date d := d]> dataMap) data ∅.

Section Render.

Variable LocalTZA : Z.
Variable dataMap : gmap string entry.

(** [while (currentDate.getDay() !== 1) currentDate.setDate(currentDate.getDate() - 1)]. *)
Fixpoint rewind_to_monday (fuel : nat) (currentDate : Z) : option Z :=
  match fuel with
  | O => None
  | S fuel' =>
      if negb (getDay LocalTZA currentDate =? 1) then
        rewind_to_monday fuel'
          (setDate LocalTZA currentDate (getDate LocalTZA currentDate - 1))
      else Some currentDate
  end.

(** The cell appended for [currentDate]. *)
Definition render_cell (currentDate : Z) : cell :=
  let dateStr := split_T_0 (toISOString currentDate) in
  let data := dataMap !! dateStr in
  let level :=
    match data with
    | Some d => getHeatmapLevel (percentage d)
    | None => 0
    end in
  let tooltipText :=
    match data with
    | Some d => TooltipHabits dateStr (completed d) (total d) (percentage d)
    | None => TooltipNoData dateStr
    end in
  {| level := level; data_date := dateStr; data_tooltip := tooltipText |}.

(** [for (let day = 0; day < 7; day++) { ... }], as its remaining
    iterations. *)
Fixpoint week (days : nat) (currentDate : Z) (html : list cell)
  : Z * list cell :=
  match days with
  | O => (currentDate, html)
  | S days' =>
      week days'
        (setDate LocalTZA currentDate (getDate LocalTZA currentDate + 1))
        (html ++ [render_cell currentDate])
  end.

(** [while (currentDate <= endDate || currentDate.getFullYear() === year)
    { ... }], with its [break]. *)
Fixpoint weeks (fuel : nat) (year endDate currentDate : Z)
  (html : list cell) (weekCount : Z) : option (list cell) :=
  match fuel with
  | O => None
  | S fuel' =>
      if (currentDate <=? endDate)
         || (getFullYear LocalTZA currentDate =? year) then
        let '(currentDate', html') := week 7 currentDate html in
        let weekCount' := weekCount + 1 in
        if (getFullYear LocalTZA currentDate' >? year) && (weekCount' >? 52)
        then Some html'
        else weeks fuel' year endDate currentDate' html' weekCount'
      else Some html
  end.

(** The cells of the grid for [year]. *)
Definition grid_cells (fuel : nat) (year : Z) : option (list cell) :=
  let startDate := Date_of_ymd LocalTZA year 0 1 in
  let endDate := Date_of_ymd LocalTZA year 11 31 in
  match rewind_to_monday fuel (Date_copy startDate) with
  | None => None
  | Some currentDate => weeks fuel year endDate currentDate [] 0
  end.

End Render.

(** [renderHeatmapCalendar(year)], given whether the container element
    exists and how [API.get] settled: [None] while the loops have not ended
    within [fuel] iterations, otherwise the settlement of the returned
    promise, with the new [innerHTML] of the container when it is set. *)
Definition renderHeatmapCalendar (fuel : nat) (LocalTZA : Z)
  (container : bool) (year : Z) (fetched : settled result)
  : option (settled (option content)) :=
  if negb container then Some (Fulfilled None)
  else
    match fetched with
    | Rejected e => Some (Rejected e)
    | Fulfilled result =>
        if negb (success result) then Some (Fulfilled (Some LoadError))
        else
          let dataMap := build_dataMap (data result) in
          match grid_cells LocalTZA dataMap fuel year with
          | None => None
          | Some cells => Some (Fulfilled (Some (Grid year cells)))
          end
    end.

End Heatmap.

(** ** The correlation list ([renderCorrelationMatrix]) *)

Module Correlations.

(** One pair of [/api/analytics/correlations]. *)
Record entry : Type := {
  habit1 : string;
  habit2 : string;
  correlation : number
}.

(** The payload of [/api/analytics/correlations]; [message] is [None] when
    the field is absent. *)
Record result : Type := {
  success : bool;
  correlations : list entry;
  message : option string;
  analysis_period : number
}.

(** [<div class="correlation-item">]: the two habit names, the bar with its
    [level-L] class and width, and the text [P%]. *)
Record item : Type := {
  item_habit1 : string;
  item_habit2 : string;
  bar_level : Z;
  bar_width : number;
  value_text : number
}.

(** What [container.innerHTML] is set to: the error paragraph, the muted
    paragraph with its text, or the list of items followed by the paragraph
    [Analysis based on last N days]. *)
Inductive content : Type :=
| LoadError
| Muted (text : string)
| CorrelationList (items : list item) (analysis_days : number).

(** [arr.slice(0, 10)]. *)
Definition slice_0_10 {A : Type} (arr : list A) : list A := firstn 10 arr.

(** The body of [topCorrelations.forEach(corr => { ... })]. *)
Definition render_item (corr : entry) : item :=
  let percentage := Math_round (num_mul (correlation corr) (of_Z 100)) in
  let level := getCorrelationLevel (correlation corr) in
  {| item_habit1 := habit1 corr;
     item_habit2 := habit2 corr;
     bar_level := level;
     bar_width := percentage;
     value_text := percentage |}.

(** [renderCorrelationMatrix()], given whether the container element exists
    and how [API.get] settled: the settlement of the returned promise, with
    the new [innerHTML] of the container when it is set. *)
Definition renderCorrelationMatrix (container : bool)
  (fetched : settled result) : settled (option content) :=
  if negb container then Fulfilled None
  else
    match fetched with
    | Rejected e => Rejected e
    | Fulfilled result =>
        if negb (success result) then Fulfilled (Some LoadError)
        else if (length (correlations result) =? 0)%nat then
          Fulfilled
            (Some (Muted (or_else (message result)
                            "No correlation data available")))
        else
          let topCorrelations := slice_0_10 (correlations result) in
          let html := map render_item topCorrelations in
          Fulfilled (Some (CorrelationList html (analysis_period result)))
    end.

(** The window length a rendered container shows, if it shows one. *)
Definition shown_analysis_days (c : content) : option number :=
  match c with
  | CorrelationList _ days => Some days
  | _ => None
  end.

(** The items a rendered container shows. *)
Definition shown_items (c : content) : list item :=
  match c with
  | CorrelationList items _ => items
  | _ => []
  end.

End Correlations.

(** ** The percentage changes of the comparison view
    ([renderComparisonChart], "Display percentage changes") *)

Module Comparison.

(** [result.period1] and [result.period2] of [/api/analytics/comparison]. *)
Record period : Type := {
  month_name : string;
  year : number;
  habits_completed : number;
  tasks_completed : number
}.

(** [result.comparison]. *)
Record comparison : Type := {
  habits_change : number;
  tasks_change : number
}.

(** The payload of [/api/analytics/comparison]. *)
Record result : Type := {
  success : bool;
  period1 : period;
  period2 : period;
  comparison_of : comparison
}.

Inductive direction : Type := Up | Down.

(** A dataset of the bar chart: its label (month name and year) and its
    two bars. *)
Record dataset : Type := {
  label : string * number;
  bars : list number
}.

(** [<div class="change-item C">]: its class, label, arrow and the number
    printed before the percent sign. *)
Record change_item : Type := {
  item_class : string;
  change_label : string;
  arrow : direction;
  change_value : number
}.

(** The tooltip callback [afterLabel(context)]: for the first dataset the
    arrow and the number printed before [% vs previous month], for the other
    the empty string ([None]). *)
Definition afterLabel (c : comparison) (datasetIndex dataIndex : Z)
  : option (direction * number) :=
  if datasetIndex =? 0 then
    let change := if dataIndex =? 0 then habits_change c else tasks_change c in
    let icon := if num_ge change (of_Z 0) then Up else Down in
    Some (icon, Math_abs change)
  else None.

Definition render_change (label : string) (change : number) : change_item :=
  {| item_class := if num_ge change (of_Z 0) then "positive" else "negative";
     change_label := label;
     arrow := if num_ge change (of_Z 0) then Up else Down;
     change_value := Math_abs change |}.

(** The [innerHTML] of [comparisonChanges]. *)
Definition render_changes (c : comparison) : list change_item :=
  let habitsChange := habits_change c in
  let tasksChange := tasks_change c in
  [render_change "Habits" habitsChange; render_change "Tasks" tasksChange].

(** What a call renders: the chart's datasets when a chart is made, and the
    [innerHTML] of [comparisonChanges] when it is set. *)
Record rendered : Type := {
  chart : option (list dataset);
  changes : option (list change_item)
}.

(** [renderComparisonChart()], given whether the canvas and the
    [comparisonChanges] element exist and how [API.get] settled. *)
Definition renderComparisonChart (canvas changesContainer : bool)
  (fetched : settled result) : settled rendered :=
  if negb canvas then Fulfilled {| chart := None; changes := None |}
  else
    match fetched with
    | Rejected e => Rejected e
    | Fulfilled result =>
        if negb (success result) then
          Fulfilled {| chart := None; changes := None |}
        else
          let period1 := period1 result in
          let period2 := period2 result in
          let datasets :=
            [ {| label := (month_name period1, year period1);
                 bars := [habits_completed period1; tasks_completed period1] |};
              {| label := (month_name period2, year period2);
                 bars := [habits_completed period2; tasks_completed period2] |}
            ] in
          Fulfilled
            {| chart := Some datasets;
               changes :=
                 if changesContainer
                 then Some (render_changes (comparison_of result))
                 else None |}
    end.

(** Modelled from the spec: the Period Comparator runs on the server and is
    not among the frontend sources.  A division by zero is what the spec
    calls "a runtime division fault" and "a computational error": [None]. *)
Definition divide (a b : Q) : option Q :=
  if Qeq_bool b 0 then None else Some (a / b)%Q.

(** Modelled from the spec: "percentage_change = (period2 - period1) /
    period1 x 100", the formula as it stands. *)
Definition change_formula (period1 period2 : Z) : option number :=
  match divide (inject_Z (period2 - period1)) (inject_Z period1) with
  | Some q => Some (Num (q * 100)%Q)
  | None => None
  end.

(** Modelled from the spec: the formula "with period1 = 0 handled as
    undefined mapped to a sentinel (e.g., 0% change reported)": the
    sentinel taken here is 0. *)
Definition percentage_change (period1 period2 : Z) : option number :=
  if period1 =? 0 then Some (of_Z 0) else change_formula period1 period2.

(** Modelled from the spec: the comparator's output, "{period1: {...,counts},
    period2: {...,counts}, comparison: {habits_change, tasks_change}}", from
    the counts of the two periods; a fault in either change is a fault of
    the comparator. *)
Definition compare_periods (name1 name2 : string) (year1 year2 : Z)
  (habits1 tasks1 habits2 tasks2 : Z) : option result :=
  match percentage_change habits1 habits2,
        percentage_change tasks1 tasks2 with
  | Some habits_change, Some tasks_change =>
      Some
        {| success := true;
           period1 :=
             {| month_name := name1; year := of_Z year1;
                habits_completed := of_Z habits1;
                tasks_completed := of_Z tasks1 |};
           period2 :=
             {| month_name := name2; year := of_Z year2;
                habits_completed := of_Z habits2;
                tasks_completed := of_Z tasks2 |};
           comparison_of :=
             {| habits_change := habits_change;
                tasks_change := tasks_change |} |}
  | _, _ => None
  end.

End Comparison.

(** ** The server-side aggregators, as the specification words them *)

Module Streaks.

(** Modelled from the spec: the Streak/Consistency Calculator runs on the
    server and is not among the frontend sources.  A habit's log is the set
    of the day numbers on which it was completed; the lookback window is the
    [window] days that end at [today]. *)
Definition present (dates : gset Z) (d : Z) : bool := bool_decide (d ∈ dates).

(** Modelled from the spec: "scan completion dates in descending order":
    the number of consecutive present dates from [d] backwards, over at most
    [n] days. *)
Fixpoint run_back (dates : gset Z) (n : nat) (d : Z) : Z :=
  match n with
  | O => 0
  | S n' => if present dates d then 1 + run_back dates n' (d - 1) else 0
  end.

(** Modelled from the spec: "current streak = count of consecutive present
    dates starting at today or yesterday (a miss today does not break an
    active streak until end of day)". *)
Definition current_streak (dates : gset Z) (window : nat) (today : Z) : Z :=
  if present dates today then run_back dates window today
  else run_back dates window (today - 1).

(** The days of the window, oldest first. *)
Definition window_days (window : nat) (today : Z) : list Z :=
  map (fun i => today - Z.of_nat window + 1 + Z.of_nat i) (seq 0 window).

(** Modelled from the spec: "best streak = longest run of consecutive
    present dates in the window": a scan that carries the best run and the
    run in progress. *)
Definition best_streak_step (dates : gset Z) (acc : Z * Z) (d : Z) : Z * Z :=
  let '(best, run) := acc in
  if present dates d then (Z.max best (run + 1), run + 1) else (best, 0).

Definition best_streak (dates : gset Z) (window : nat) (today : Z) : Z :=
  fst (fold_left (best_streak_step dates) (window_days window today) (0, 0)).

Definition present_day_count (dates : gset Z) (window : nat) (today : Z) : Z :=
  Z.of_nat (length (List.filter (present dates) (window_days window today))).

(** Modelled from the spec: "Completion rate = present-day-count /
    elapsed-days x 100, rounded to whole percent", and "zero elapsed days ->
    completion rate 0, not a division error". *)
Definition completion_rate (dates : gset Z) (window : nat) (today : Z)
  (elapsed : Z) : Z :=
  if elapsed =? 0 then 0
  else (200 * present_day_count dates window today + elapsed) / (2 * elapsed).

End Streaks.

Module Pearson.

(** Modelled from the spec: the Correlation Engine runs on the server and is
    not among the frontend sources.  A habit's completion vector is a list of
    booleans over the dates of the window; two vectors are paired over their
    common length; "with fewer than a minimum history (e.g., 7 days of
    overlap) correlation is reported as unavailable". *)
Definition min_overlap : nat := 7.

Definition indicator (b : bool) : Z := if b then 1 else 0.

Definition sum_x (pairs : list (bool * bool)) : Z :=
  fold_right (fun p acc => indicator (fst p) + acc) 0 pairs.

Definition sum_y (pairs : list (bool * bool)) : Z :=
  fold_right (fun p acc => indicator (snd p) + acc) 0 pairs.

Definition sum_xy (pairs : list (bool * bool)) : Z :=
  fold_right (fun p acc => indicator (fst p) * indicator (snd p) + acc) 0 pairs.

(** [n] times the covariance sum, and [n] times the sum of squared
    deviations (an indicator is its own square). *)
Definition covariance_n (pairs : list (bool * bool)) : Z :=
  Z.of_nat (length pairs) * sum_xy pairs - sum_x pairs * sum_y pairs.

Definition variance_x_n (pairs : list (bool * bool)) : Z :=
  Z.of_nat (length pairs) * sum_x pairs - sum_x pairs * sum_x pairs.

Definition variance_y_n (pairs : list (bool * bool)) : Z :=
  Z.of_nat (length pairs) * sum_y pairs - sum_y pairs * sum_y pairs.

(** Modelled from the spec: "compute Pearson correlation coefficient over
    the paired vectors", and "if either vector has zero variance,
    correlation is undefined - report as 0": [None] stands for unavailable. *)
Definition correlation (a b : list bool) : option R :=
  let pairs := combine a b in
  if (length pairs <? min_overlap)%nat then None
  else if (variance_x_n pairs =? 0) || (variance_y_n pairs =? 0) then Some 0%R
  else
    Some (IZR (covariance_n pairs)
          / sqrt (IZR (variance_x_n pairs) * IZR (variance_y_n pairs)))%R.


End Pearson.

(** ** Calendar days

    Day numbers (days since the epoch) and their ISO dates, for stating what
    the heatmap grid holds. *)

Module Calendar.

(** The time value of local midnight on day [d]. *)
Definition midnight (LocalTZA d : Z) : Z :=
  UTC LocalTZA (MakeDate d (MakeTime 0 0 0 0)).

(** [YYYY-MM-DD] for day number [d]. *)
Definition isoDate (d : Z) : string := isoDatePart (d * msPerDay).

(** [YYYY-MM-DD] for a year, a month (0 to 11) and a day of the month. *)
Definition isoDate_of_ymd (y m dd : Z) : string :=
  isoYear y +:+ "-" +:+ pad2 (m + 1) +:+ "-" +:+ pad2 dd.

Definition leapDay (y : Z) : Z := if DaysInYear y =? 366 then 1 else 0.

Definition DaysInMonth (y m : Z) : Z :=
  match m with
  | 1 => 28 + leapDay y
  | 3 | 5 | 8 | 10 => 30
  | _ => 31
  end.

(** By how many days the UTC date of a local midnight differs from the local
    date: none at or west of Greenwich, one day back east of it. *)
Definition utc_shift (LocalTZA : Z) : Z := if 0 <? LocalTZA then -1 else 0.

(** The Monday on or before day [d] (day 0, 1970-01-01, was a Thursday). *)
Definition monday_on_or_before (d : Z) : Z := d - (d + 3) mod 7.

(** The [n] days from [s] on. *)
Definition days_from (s : Z) (n : nat) : list Z :=
  map (fun i => s + Z.of_nat i) (seq 0 n).

(** The weeks from the Monday on or before January 1 through the week of
    December 31. *)
Definition weeks_shown (year : Z) : nat :=
  Z.to_nat ((DayFromYear (year + 1) - 1
             - monday_on_or_before (DayFromYear year)) / 7 + 1).

(** Whether a string holds a ['T']. *)
Fixpoint has_T (s : string) : bool :=
  match s with
  | EmptyString => false
  | String c rest => Ascii.eqb c "T"%char || has_T rest
  end.

(** The cell of the day dated [d]: its level from the fetched entry of that
    date, level 0 without one. *)
Definition day_cell (dataMap : gmap string Heatmap.entry) (d : Z)
  : Heatmap.cell :=
  let dateStr := isoDate d in
  match dataMap !! dateStr with
  | Some e =>
      {| Heatmap.level := getHeatmapLevel (Heatmap.percentage e);
         Heatmap.data_date := dateStr;
         Heatmap.data_tooltip :=
           Heatmap.TooltipHabits dateStr (Heatmap.completed e)
             (Heatmap.total e) (Heatmap.percentage e) |}
  | None =>
      {| Heatmap.level := 0;
         Heatmap.data_date := dateStr;
         Heatmap.data_tooltip := Heatmap.TooltipNoData dateStr |}
  end.

End Calendar.

Import Calendar.

(** ** Sample inputs *)

Definition html_error_page : API.response :=
  {| API.ok := false;
     API.content_type := Some "text/html; charset=utf-8";
     API.text := "<h1>500 Internal Server Error</h1>";
     API.json_body := None |}.

Definition json_failure : API.response :=
  {| API.ok := false;
     API.content_type := Some "application/json";
     API.text := "{}";
     API.json_body :=
       Some (JObject [("success", JBool false);
                      ("message", JString "Database unavailable")]) |}.

Definition json_success : API.response :=
  {| API.ok := true;
     API.content_type := Some "application/json";
     API.text := "{}";
     API.json_body := Some (JObject [("success", JBool true)]) |}.

Definition two_pairs : Correlations.result :=
  {| Correlations.success := true;
     Correlations.correlations :=
       [ {| Correlations.habit1 := "Meditation";
            Correlations.habit2 := "Exercise";
            Correlations.correlation := Num (82 # 100) |};
         {| Correlations.habit1 := "Reading";
            Correlations.habit2 := "Journaling";
            Correlations.correlation := Num (-35 # 100) |} ];
     Correlations.message := None;
     Correlations.analysis_period := of_Z 90 |}.

Definition no_pairs : Correlations.result :=
  {| Correlations.success := true;
     Correlations.correlations := [];
     Correlations.message := None;
     Correlations.analysis_period := of_Z 90 |}.

Definition fresh_browser : Theme.browser :=
  {| Theme.data_theme := None;
     Theme.localStorage := ∅;
     Theme.body_classList := [];
     Theme.api_puts := [];
     Theme.timers := [] |}.



Definition no_heatmap_data : Heatmap.result :=
  {| Heatmap.success := true; Heatmap.data := [] |}.

(** The offset of a host at UTC+05:30 (Asia/Kolkata), in milliseconds. *)
Definition utc_plus_0530 : Z := 19800000.

(** ** Number and string helpers of the runtime *)

Module JsString.

(** The decimal digits of a natural number, most significant first; [fuel]
    bounds the number of digits. *)
Fixpoint digits_of (fuel : nat) (n : Z) (acc : string) : string :=
  match fuel with
  | O => acc
  | S fuel' =>
      let acc' := String (digit n) acc in
      if n <? 10 then acc' else digits_of fuel' (n / 10) acc'
  end.

(** [String(n)] for an integer [n]. *)
Definition String_of_int (n : Z) : string :=
  if n <? 0
  then String "-"%char (digits_of (S (Z.to_nat (Z.log2 (- n)))) (- n) "")
  else digits_of (S (Z.to_nat (Z.log2 n))) n "".

(** [fill] repeated up to [n] characters. *)
Fixpoint repeat_fill (fuel n : nat) (fill : string) : string :=
  match fuel with
  | O => ""
  | S fuel' =>
      if (n <=? String.length fill)%nat then substring 0 n fill
      else fill +:+ repeat_fill fuel' (n - String.length fill) fill
  end.

(** [s.padStart(targetLength, fill)]. *)
Definition padStart (targetLength : nat) (fill : string) (s : string)
  : string :=
  if (targetLength <=? String.length s)%nat || String.eqb fill "" then s
  else
    let n := (targetLength - String.length s)%nat in
    repeat_fill n n fill +:+ s.

(** [c] in lower case, for the letters of ASCII. *)
Definition lower_ascii (c : ascii) : ascii :=
  let n := nat_of_ascii c in
  if (65 <=? n)%nat && (n <=? 90)%nat then ascii_of_nat (n + 32) else c.

(** Whether every character of [s] is one of ASCII. *)
Fixpoint is_ascii (s : string) : bool :=
  match s with
  | EmptyString => true
  | String c rest => (nat_of_ascii c <? 128)%nat && is_ascii rest
  end.

(** [s.toLowerCase()], on strings of ASCII characters ([is_ascii]): the
    letters A to Z become a to z.  Any other character is left as it is,
    where the source also lower-cases the letters beyond ASCII (the Kelvin
    sign U+212A becomes [k]); what is stated of a query is stated of ASCII
    queries. *)
Fixpoint toLowerCase (s : string) : string :=
  match s with
  | EmptyString => EmptyString
  | String c rest => String (lower_ascii c) (toLowerCase rest)
  end.

(** [s.includes(part)]. *)
Definition includes (s part : string) : bool :=
  match String.index 0 part s with
  | Some _ => true
  | None => false
  end.

(** The double-quote character and the line feed. *)
Definition dquote : string := String (ascii_of_nat 34) "".
Definition newline : string := String (ascii_of_nat 10) "".

(** How many times the character [c] occurs in [s]. *)
Fixpoint count_char (c : ascii) (s : string) : nat :=
  match s with
  | EmptyString => O
  | String c' rest =>
      ((if Ascii.eqb c c' then 1 else 0) + count_char c rest)%nat
  end.

(** The number of line feeds of a text, and whether it has none. *)
Definition count_lines (s : string) : nat := count_char (ascii_of_nat 10) s.
Definition one_line (s : string) : Prop := count_lines s = O.

End JsString.

Import JsString.

(** ** Date utilities ([DateUtils]) *)

Module DateUtils.

Section Host.

Variable LocalTZA : Z.

(** [d.toLocaleDateString('en-US', { weekday: 'long', year: 'numeric',
    month: 'long', day: 'numeric' })], the host's formatting of a time
    value. *)
Variable toLocaleDateString_long : Z -> string.

(** [d.getMonth()]. *)
Definition getMonth (t : Z) : Z := MonthFromTime (LocalTime LocalTZA t).

(** [DateUtils.format(date, format)] for a [Date]: [new Date(date)] copies
    its time value. *)
Definition format (date : Z) (format : string) : string :=
  let d := Date_copy date in
  let year := getFullYear LocalTZA d in
  let month := padStart 2 "0" (String_of_int (getMonth d + 1)) in
  let day := padStart 2 "0" (String_of_int (getDate LocalTZA d)) in
  if String.eqb format "YYYY-MM-DD"
  then String_of_int year +:+ "-" +:+ month +:+ "-" +:+ day
  else if String.eqb format "display" then toLocaleDateString_long d
  else String_of_int year +:+ "-" +:+ month +:+ "-" +:+ day.

(** [DateUtils.today()], given the time value of [new Date()]. *)
Definition today (now : Z) : string := format now "YYYY-MM-DD".

(** [DateUtils.getDaysInMonth(year, month)]. *)
Definition getDaysInMonth (year month : Z) : Z :=
  getDate LocalTZA (Date_of_ymd LocalTZA year (month + 1) 0).

End Host.

End DateUtils.

(** ** The CSV export ([exportToCSV]) *)

Module CsvExport.

(** A row of [result.habit_logs] and of [result.tasks] of
    [/api/analytics/export-data]; every field is printed into the file as
    text. *)
Record habit_log : Type := {
  log_date : string;
  habit_name : string;
  log_status : string
}.

Record task : Type := {
  task_date : string;
  title : string;
  task_status : string;
  priority : string
}.

Record result : Type := {
  success : bool;
  habit_logs : list habit_log;
  tasks : list task
}.

(** A call of [Toast.error] or [Toast.success]; the text of the [catch]
    clause is ['Export failed: ' + error.message]. *)
Inductive toast : Type :=
| ToastError (message : string)
| ToastExportFailed (error : js_error)
| ToastSuccess (message : string).

(** What a call leaves behind: the [disabled] flag of the button ([None]
    without a button), the URL requested, the toasts shown, and the file
    handed to the browser (its name and content). *)
Record outcome : Type := {
  button_disabled : option bool;
  requested : string;
  toasts : list toast;
  download : option (string * string)
}.

Definition csv_header : string := "Date,Type,Name,Status,Priority" +:+ newline.

(** The line appended for a habit log. *)
Definition habit_line (log : habit_log) : string :=
  log_date log +:+ ",Habit," +:+ dquote +:+ habit_name log +:+ dquote
    +:+ "," +:+ log_status log +:+ ",N/A" +:+ newline.

(** The line appended for a task. *)
Definition task_line (t : task) : string :=
  task_date t +:+ ",Task," +:+ dquote +:+ title t +:+ dquote
    +:+ "," +:+ task_status t +:+ "," +:+ priority t +:+ newline.

(** The content of the file: the header, then [habit_logs.forEach] and
    [tasks.forEach], each appending a line. *)
Definition build_csv (result : result) : string :=
  let csv := csv_header in
  let csv := fold_left (fun csv log => csv +:+ habit_line log)
               (habit_logs result) csv in
  fold_left (fun csv t => csv +:+ task_line t) (tasks result) csv.

(** What the [try] block does: the URL it requests, and then either the
    error it throws or the toasts and the download it makes. *)
Definition export_try (LocalTZA endNow startNow : Z)
  (fetched : settled result)
  : string * settled (list toast * option (string * string)) :=
  let endDate := endNow in
  let startDate := startNow in
  let startDate := setDate LocalTZA startDate
                     (getDate LocalTZA startDate - 30) in
  let url := "/api/analytics/export-data?start_date="
               +:+ split_T_0 (toISOString startDate)
               +:+ "&end_date=" +:+ split_T_0 (toISOString endDate) in
  match fetched with
  | Rejected e => (url, Rejected e)
  | Fulfilled result =>
      if negb (success result) then
        (url, Fulfilled ([ToastError "Failed to export data"], None))
      else
        let csv := build_csv result in
        let name := "lifesync-export-"
                      +:+ split_T_0 (toISOString endDate) +:+ ".csv" in
        (url, Fulfilled ([ToastSuccess "CSV exported successfully!"],
                         Some (name, csv)))
  end.

(** [exportToCSV()], given whether the button exists, the time values of the
    two [new Date()] and how [API.get] settled.  The [catch] clause turns
    an error into a toast, the [finally] clause enables the button again;
    the returned promise is fulfilled in every case. *)
Definition exportToCSV (LocalTZA : Z) (exportBtn : bool)
  (endNow startNow : Z) (fetched : settled result) : outcome :=
  let disabled := if exportBtn then Some true else None in
  let '(url, tried) := export_try LocalTZA endNow startNow fetched in
  let '(toasts, download) :=
    match tried with
    | Fulfilled done => done
    | Rejected error => ([ToastExportFailed error], None)
    end in
  let disabled := if exportBtn then Some false else disabled in
  {| button_disabled := disabled;
     requested := url;
     toasts := toasts;
     download := download |}.

(** The same call on a host whose offset may change between the dates
    ([LocalTZA] a [zone]) and with [TimeClip]: of an invalid start date
    [toISOString] throws a [RangeError] before any request is made, and the
    URL requested is [None]. *)
Record outcome_on : Type := {
  button_disabled_on : option bool;
  requested_on : option string;
  toasts_on : list toast;
  download_on : option (string * string)
}.

Definition export_try_on (LocalTZA : zone) (endNow startNow : Z)
  (fetched : settled result)
  : option string * settled (list toast * option (string * string)) :=
  let endDate := endNow in
  let startDate := startNow in
  match setDate_at LocalTZA startDate
          (getDate_at LocalTZA startDate - 30) with
  | None => (None, Rejected (RangeError "Invalid time value"))
  | Some startDate =>
      let url := "/api/analytics/export-data?start_date="
                   +:+ split_T_0 (toISOString startDate)
                   +:+ "&end_date=" +:+ split_T_0 (toISOString endDate) in
      match fetched with
      | Rejected e => (Some url, Rejected e)
      | Fulfilled result =>
          if negb (success result) then
            (Some url, Fulfilled ([ToastError "Failed to export data"], None))
          else
            let csv := build_csv result in
            let name := "lifesync-export-"
                          +:+ split_T_0 (toISOString endDate) +:+ ".csv" in
            (Some url,
             Fulfilled ([ToastSuccess "CSV exported successfully!"],
                        Some (name, csv)))
      end
  end.

Definition exportToCSV_on (LocalTZA : zone) (exportBtn : bool)
  (endNow startNow : Z) (fetched : settled result) : outcome_on :=
  let disabled := if exportBtn then Some true else None in
  let '(url, tried) := export_try_on LocalTZA endNow startNow fetched in
  let '(toasts, download) :=
    match tried with
    | Fulfilled done => done
    | Rejected error => ([ToastExportFailed error], None)
    end in
  let disabled := if exportBtn then Some false else disabled in
  {| button_disabled_on := disabled;
     requested_on := url;
     toasts_on := toasts;
     download_on := download |}.

End CsvExport.

(** ** The habit strength list ([renderHabitStrength]) *)

Module HabitStrength.

(** One habit of [/api/analytics/habit-strength]. *)
Record habit : Type := {
  habit_name : string;
  consistency_score : number;
  completion_rate : number;
  current_streak : number;
  best_streak : number
}.

Record result : Type := {
  success : bool;
  habits : list habit
}.

(** [<div class="habit-strength-item">]: the name, the badge with its class
    [badge-C] and its score, the completion bar with its width and text, and
    the two streaks. *)
Record item : Type := {
  item_name : string;
  badge : string;
  badge_score : number;
  bar_width : number;
  rate_text : number;
  current_value : number;
  best_value : number
}.

(** What [container.innerHTML] is set to. *)
Inductive content : Type :=
| LoadError
| NoHabits
| StrengthList (items : list item).

Definition scoreColor (consistency_score : number) : string :=
  if num_ge consistency_score (of_Z 70) then "success"
  else if num_ge consistency_score (of_Z 40) then "warning"
  else "error".

(** The body of [result.habits.forEach(habit => { ... })]. *)
Definition render_item (habit : habit) : item :=
  {| item_name := habit_name habit;
     badge := scoreColor (consistency_score habit);
     badge_score := consistency_score habit;
     bar_width := completion_rate habit;
     rate_text := completion_rate habit;
     current_value := current_streak habit;
     best_value := best_streak habit |}.

(** [renderHabitStrength()], given whether the container element exists and
    how [API.get] settled. *)
Definition renderHabitStrength (container : bool) (fetched : settled result)
  : settled (option content) :=
  if negb container then Fulfilled None
  else
    match fetched with
    | Rejected e => Rejected e
    | Fulfilled result =>
        if negb (success result) then Fulfilled (Some LoadError)
        else if (length (habits result) =? 0)%nat then
          Fulfilled (Some NoHabits)
        else
          let html :=
            fold_left (fun html habit => html ++ [render_item habit])
              (habits result) [] in
          Fulfilled (Some (StrengthList html))
    end.

End HabitStrength.

(** ** Authentication helpers ([Auth], [AuthPage]) *)

Module Auth.

(** What the helpers read and write of the window: [location.href] and
    [location.pathname], [localStorage] and [sessionStorage]. *)
Record window : Type := {
  location_href : string;
  location_pathname : string;
  localStorage : gmap string string;
  sessionStorage : gmap string string
}.

(** [window.location.href = url]; the path of the same-origin URLs assigned
    here is the URL itself. *)
Definition navigate (url : string) (w : window) : window :=
  {| location_href := url;
     location_pathname := url;
     localStorage := localStorage w;
     sessionStorage := sessionStorage w |}.

(** [Auth.check()], given how [fetch] settled: [result.authenticated] of the
    body [API.get] resolves to. *)
Definition check (fetched : settled API.response) : settled (option json) :=
  match snd (API.get fetched) with
  | Rejected e => Rejected e
  | Fulfilled result => API.get_prop result "authenticated"
  end.

(** [Auth.requireAuth()]. *)
Definition requireAuth (fetched : settled API.response) (w : window)
  : window * settled bool :=
  match check fetched with
  | Rejected e => (w, Rejected e)
  | Fulfilled isAuth =>
      if negb (API.truthy isAuth) then (navigate "/" w, Fulfilled false)
      else (w, Fulfilled true)
  end.

(** [Auth.getUser()], given what [JSON.parse] makes of a text ([None] when
    it throws a [SyntaxError]): [null] is [Fulfilled None]. *)
Definition getUser (JSON_parse : string -> option json) (w : window)
  : settled (option json) :=
  let user := localStorage w !! "user" in
  if truthy_string user then
    match JSON_parse (default "" user) with
    | Some v => Fulfilled (Some v)
    | None => Rejected (SyntaxError "Unexpected token")
    end
  else Fulfilled None.

(** [Auth.logout()], given how the [fetch] of the logout request settled. *)
Definition logout (fetched : settled API.response) (w : window)
  : window * settled unit :=
  match snd (API.request fetched) with
  | Rejected e => (w, Rejected e)
  | Fulfilled _ =>
      let w1 :=
        {| location_href := location_href w;
           location_pathname := location_pathname w;
           localStorage := delete "user" (localStorage w);
           sessionStorage := delete "introShown" (sessionStorage w) |} in
      (navigate "/" w1, Fulfilled tt)
  end.

(** [AuthPage.init()]. *)
Definition AuthPage_init (fetched : settled API.response) (w : window)
  : window * settled unit :=
  match check fetched with
  | Rejected e => (w, Rejected e)
  | Fulfilled isAuth =>
      if API.truthy isAuth && negb (includes (location_pathname w) "dashboard")
      then (navigate "/dashboard" w, Fulfilled tt)
      else (w, Fulfilled tt)
  end.

End Auth.

(** ** The timers of [Theme.toggle] *)

Module ThemeTimers.

(** The callback of a timer set by [Theme.toggle]:
    [document.body.classList.remove(name)]. *)
Definition fire (a : Theme.timer_action) (b : Theme.browser)
  : Theme.browser :=
  match a with
  | Theme.RemoveBodyClass name =>
      {| Theme.data_theme := Theme.data_theme b;
         Theme.localStorage := Theme.localStorage b;
         Theme.body_classList :=
           Theme.classList_remove name (Theme.body_classList b);
         Theme.api_puts := Theme.api_puts b;
         Theme.timers := Theme.timers b |}
  end.

(** The pending timers run, in the order they were set (they all wait the
    same 300 ms), and none is left. *)
Definition run_timers (b : Theme.browser) : Theme.browser :=
  let b' := fold_left (fun b t => fire (fst t) b) (Theme.timers b) b in
  {| Theme.data_theme := Theme.data_theme b';
     Theme.localStorage := Theme.localStorage b';
     Theme.body_classList := Theme.body_classList b';
     Theme.api_puts := Theme.api_puts b';
     Theme.timers := [] |}.

End ThemeTimers.

(** ** The command palette ([CommandPalette]) *)

Module CommandPalette.

(** What a command does when it runs: [window.location.href = url],
    [Theme.toggle()] or [Auth.logout()]. *)
Inductive action : Type :=
| GoTo (href : string)
| ToggleTheme
| Logout.

Record command : Type := {
  id : string;
  title : string;
  icon : string;
  run : action
}.

Definition commands : list command :=
  [ {| id := "home"; title := "Go to Home"; icon := "🏠";
       run := GoTo "/home" |};
    {| id := "dashboard"; title := "Go to Dashboard"; icon := "📊";
       run := GoTo "/dashboard" |};
    {| id := "tasks"; title := "Go to Tasks"; icon := "📝";
       run := GoTo "/tasks" |};
    {| id := "habits"; title := "Go to Habits"; icon := "✅";
       run := GoTo "/habits" |};
    {| id := "calendar"; title := "Go to Calendar"; icon := "📅";
       run := GoTo "/calendar" |};
    {| id := "analytics"; title := "Go to Analytics"; icon := "📈";
       run := GoTo "/analytics" |};
    {| id := "theme"; title := "Toggle Theme"; icon := "🌓";
       run := ToggleTheme |};
    {| id := "logout"; title := "Logout"; icon := "🚪";
       run := Logout |} ].

(** [<div class="cmd-item">] of the list: its command, whether it has the
    class [active], its [data-index], and whether it shows the shortcut. *)
Record cmd_item : Type := {
  item_command : command;
  active : bool;
  data_index : nat;
  shortcut : bool
}.

(** The content of [cmdList]: empty as the page is built, the text [No
    commands found], or the items. *)
Inductive list_content : Type :=
| Empty
| NoCommandsFound
| CmdItems (items : list cmd_item).

(** The palette: its fields [isOpen], [activeIndex] and [currentItems]
    ([None] while the property is not set), the class [open] of the overlay,
    the value of the input, the list, and the actions run so far. *)
Record palette : Type := {
  isOpen : bool;
  activeIndex : Z;
  currentItems : option (list command);
  overlay_open : bool;
  input_value : string;
  cmdList : list_content;
  ran : list action
}.

Definition initial : palette :=
  {| isOpen := false;
     activeIndex := 0;
     currentItems := None;
     overlay_open := false;
     input_value := "";
     cmdList := Empty;
     ran := [] |}.

(** [arr[i]] for a number [i]: [undefined] ([None]) outside the array. *)
Definition at_index {A : Type} (arr : list A) (i : Z) : option A :=
  if i <? 0 then None else arr !! Z.to_nat i.

(** The items of [renderList]: [items.map((cmd, index) => ...)]. *)
Definition render_items (items : list command) : list cmd_item :=
  imap (fun index cmd =>
          {| item_command := cmd;
             active := (index =? 0)%nat;
             data_index := index;
             shortcut := (index <? 9)%nat |}) items.

(** [renderList(items)]. *)
Definition renderList (items : list command) (p : palette) : palette :=
  if (length items =? 0)%nat then
    {| isOpen := isOpen p; activeIndex := activeIndex p;
       currentItems := currentItems p; overlay_open := overlay_open p;
       input_value := input_value p; cmdList := NoCommandsFound;
       ran := ran p |}
  else
    {| isOpen := isOpen p; activeIndex := 0;
       currentItems := Some items; overlay_open := overlay_open p;
       input_value := input_value p; cmdList := CmdItems (render_items items);
       ran := ran p |}.

(** [filter(query)]. *)
Definition filter (query : string) (p : palette) : palette :=
  let filtered :=
    List.filter
      (fun cmd => includes (toLowerCase (title cmd)) (toLowerCase query))
      commands in
  renderList filtered p.

(** [open()]. *)
Definition open (p : palette) : palette :=
  let p1 :=
    {| isOpen := true; activeIndex := activeIndex p;
       currentItems := currentItems p; overlay_open := true;
       input_value := ""; cmdList := cmdList p; ran := ran p |} in
  filter "" p1.

(** [close()]. *)
Definition close (p : palette) : palette :=
  {| isOpen := false; activeIndex := activeIndex p;
     currentItems := currentItems p; overlay_open := false;
     input_value := input_value p; cmdList := cmdList p; ran := ran p |}.

(** [toggle()]. *)
Definition toggle (p : palette) : palette :=
  if isOpen p then close p else open p.

(** [document.querySelectorAll('.cmd-item')]. *)
Definition query_items (p : palette) : list cmd_item :=
  match cmdList p with
  | CmdItems items => items
  | _ => []
  end.

(** [items[i].classList.add('active')] or [remove], on the list. *)
Definition set_active (i : nat) (value : bool) (items : list cmd_item)
  : list cmd_item :=
  alter (fun it =>
           {| item_command := item_command it; active := value;
              data_index := data_index it; shortcut := shortcut it |})
        i items.

Definition with_items (items : list cmd_item) (index : Z) (p : palette)
  : palette :=
  {| isOpen := isOpen p; activeIndex := index;
     currentItems := currentItems p; overlay_open := overlay_open p;
     input_value := input_value p; cmdList := CmdItems items; ran := ran p |}.

(** [navigate(dir)]: the palette it leaves and whether it returned or
    threw.  Reading [classList] of an item that is not there throws a
    [TypeError]; [%] is the remainder of the truncated division. *)
Definition navigate (dir : Z) (p : palette) : palette * settled unit :=
  let items := query_items p in
  if (length items =? 0)%nat then (p, Fulfilled tt)
  else
    match at_index items (activeIndex p) with
    | None =>
        (p, Rejected (TypeError "Cannot read properties of undefined"))
    | Some _ =>
        let items1 := set_active (Z.to_nat (activeIndex p)) false items in
        let index :=
          Z.rem (activeIndex p + dir + Z.of_nat (length items))
                (Z.of_nat (length items)) in
        let p1 := with_items items1 index p in
        match at_index items1 index with
        | None =>
            (p1, Rejected (TypeError "Cannot read properties of undefined"))
        | Some _ =>
            (with_items (set_active (Z.to_nat index) true items1) index p,
             Fulfilled tt)
        end
    end.

(** [execute()]. *)
Definition execute (p : palette) : palette :=
  match currentItems p with
  | None => p
  | Some items =>
      match at_index items (activeIndex p) with
      | None => p
      | Some cmd =>
          close
            {| isOpen := isOpen p; activeIndex := activeIndex p;
               currentItems := currentItems p;
               overlay_open := overlay_open p;
               input_value := input_value p; cmdList := cmdList p;
               ran := ran p ++ [run cmd] |}
      end
  end.

(** [executeIndex(index)]. *)
Definition executeIndex (index : Z) (p : palette) : palette :=
  execute
    {| isOpen := isOpen p; activeIndex := index;
       currentItems := currentItems p; overlay_open := overlay_open p;
       input_value := input_value p; cmdList := cmdList p; ran := ran p |}.

(** The [keydown] listener of [bindEvents], for an event with its
    [ctrlKey || metaKey] and its [key]. *)
Definition on_keydown (ctrl_or_meta : bool) (key : string) (p : palette)
  : palette * settled unit :=
  let p := if ctrl_or_meta && String.eqb key "k" then toggle p else p in
  if negb (isOpen p) then (p, Fulfilled tt)
  else
    let p := if String.eqb key "Escape" then close p else p in
    let '(p, r) :=
      if String.eqb key "ArrowDown" then navigate 1 p
      else (p, Fulfilled tt) in
    match r with
    | Rejected e => (p, Rejected e)
    | Fulfilled _ =>
        let '(p, r) :=
          if String.eqb key "ArrowUp" then navigate (-1) p
          else (p, Fulfilled tt) in
        match r with
        | Rejected e => (p, Rejected e)
        | Fulfilled _ =>
            let p := if String.eqb key "Enter" then execute p else p in
            (p, Fulfilled tt)
        end
    end.

(** The [input] listener of [cmdInput], for the new value of the input. *)
Definition on_input (value : string) (p : palette) : palette :=
  filter value
    {| isOpen := isOpen p; activeIndex := activeIndex p;
       currentItems := currentItems p; overlay_open := overlay_open p;
       input_value := value; cmdList := cmdList p; ran := ran p |}.

(** The [click] listener of the overlay, for a click on the overlay
    itself. *)
Definition on_overlay_click (p : palette) : palette := close p.

(** What the user does: a key, a new input value, a click on the overlay,
    a click on the item of the list with a given [data-index]. *)
Inductive event : Type :=
| KeyDown (ctrl_or_meta : bool) (key : string)
| Input (value : string)
| ClickOverlay
| ClickItem (index : nat).

(** An item can be clicked when the list shows it. *)
Definition possible (e : event) (p : palette) : Prop :=
  match e with
  | ClickItem index => (index < length (query_items p))%nat
  | _ => True
  end.

Definition step (e : event) (p : palette) : palette * settled unit :=
  match e with
  | KeyDown ctrl_or_meta key => on_keydown ctrl_or_meta key p
  | Input value => (on_input value p, Fulfilled tt)
  | ClickOverlay => (on_overlay_click p, Fulfilled tt)
  | ClickItem index => (executeIndex (Z.of_nat index) p, Fulfilled tt)
  end.

(** The palettes the user can reach from the initial one. *)
Inductive reachable : palette -> Prop :=
| reachable_initial : reachable initial
| reachable_step (e : event) (p : palette) :
    reachable p -> possible e p -> reachable (fst (step e p)).

(** What holds while the list shows items: they are the rendered
    [currentItems], [activeIndex] points at one of them, and while the
    palette is open that one, and no other, has the class [active]. *)
Definition consistent (p : palette) : Prop :=
  forall items,
    cmdList p = CmdItems items ->
    exists cmds,
      currentItems p = Some cmds /\
      length items = length cmds /\
      (forall i it, items !! i = Some it ->
         cmds !! i = Some (item_command it)) /\
      0 <= activeIndex p < Z.of_nat (length items) /\
      (isOpen p = true ->
       forall i it, items !! i = Some it ->
         active it = (Z.of_nat i =? activeIndex p)).

End CommandPalette.

(** ** The productivity chart ([renderProductivityChart]) *)

Module ProductivityChart.

(** One point of [/api/analytics/productivity-score]. *)
Record point : Type := {
  date : string;
  score : number;
  habits_score : number;
  tasks_score : number
}.

Record result : Type := {
  success : bool;
  scores : list point
}.

(** A dataset of the line chart, and the data given to [new Chart]. *)
Record dataset : Type := {
  label : string;
  data : list number
}.

Record chart_data : Type := {
  labels : list string;
  datasets : list dataset
}.

(** A [Chart] instance: what it draws, and whether [destroy()] was called
    on it. *)
Record instance : Type := {
  drawn : chart_data;
  destroyed : bool
}.

(** The global [productivityChart] ([None] for [null], otherwise the
    instance, named by its rank of creation) and the instances created on
    the canvas so far. *)
Record page : Type := {
  productivityChart : option nat;
  instances : list instance
}.

Definition initial : page := {| productivityChart := None; instances := [] |}.

(** [toLocaleDateString('en-US', { weekday: 'short' })] and
    [toLocaleDateString('en-US', { month: 'short', day: 'numeric' })] print
    these names. *)
Definition weekday_short (w : Z) : string :=
  match w with
  | 0 => "Sun" | 1 => "Mon" | 2 => "Tue" | 3 => "Wed"
  | 4 => "Thu" | 5 => "Fri" | _ => "Sat"
  end.

Definition month_short (m : Z) : string :=
  match m with
  | 0 => "Jan" | 1 => "Feb" | 2 => "Mar" | 3 => "Apr" | 4 => "May"
  | 5 => "Jun" | 6 => "Jul" | 7 => "Aug" | 8 => "Sep" | 9 => "Oct"
  | 10 => "Nov" | _ => "Dec"
  end.

Section Host.

Variable LocalTZA : Z.

(** [Date.parse] of the runtime: the time value [new Date(s.date)] gets
    (dates are taken valid). *)
Variable Date_parse : string -> Z.

(** The label of a point: [new Date(s.date)] printed by weekday for the
    period ['week'], by month and day otherwise. *)
Definition label_of (period : string) (s : point) : string :=
  let date := Date_parse (date s) in
  if String.eqb period "week"
  then weekday_short (getDay LocalTZA date)
  else month_short (MonthFromTime (LocalTime LocalTZA date))
         +:+ " " +:+ String_of_int (getDate LocalTZA date).

Definition chart_of (period : string) (scores : list point) : chart_data :=
  let labels := map (label_of period) scores in
  {| labels := labels;
     datasets :=
       [ {| label := "Productivity Score"; data := map score scores |};
         {| label := "Habit Score"; data := map habits_score scores |};
         {| label := "Task Score"; data := map tasks_score scores |} ] |}.

(** [chart.destroy()] on the instance of rank [i]. *)
Definition destroy (i : nat) (instances : list instance) : list instance :=
  alter (fun c => {| drawn := drawn c; destroyed := true |}) i instances.

(** [renderProductivityChart(period)], given whether the canvas exists and
    how [API.get] settled: the page it leaves and the settlement of the
    returned promise. *)
Definition renderProductivityChart (canvas : bool) (period : string)
  (fetched : settled result) (p : page) : page * settled unit :=
  if negb canvas then (p, Fulfilled tt)
  else
    match fetched with
    | Rejected e => (p, Rejected e)
    | Fulfilled result =>
        if negb (success result) then (p, Fulfilled tt)
        else
          let instances1 :=
            match productivityChart p with
            | Some i => destroy i (instances p)
            | None => instances p
            end in
          let created :=
            {| drawn := chart_of period (scores result);
               destroyed := false |} in
          ({| productivityChart := Some (length instances1);
              instances := instances1 ++ [created] |},
           Fulfilled tt)
    end.

(** A call of [renderProductivityChart], and a run of calls in the order in
    which their requests settle. *)
Record call : Type := {
  canvas : bool;
  period : string;
  fetched : settled result
}.

Definition run_calls (calls : list call) (p : page) : page :=
  fold_left
    (fun p c => fst (renderProductivityChart (canvas c) (period c)
                       (fetched c) p))
    calls p.

End Host.

(** What the calls keep: the global names an instance that exists, and an
    instance is live exactly when the global names it. *)
Definition one_live (p : page) : Prop :=
  (forall i, productivityChart p = Some i -> (i < length (instances p))%nat) /\
  (forall i c, instances p !! i = Some c ->
     (destroyed c = false <-> productivityChart p = Some i)).

End ProductivityChart.

(** ** Toast notifications ([Toast]) *)

Module Toast.

(** The callbacks given to [setTimeout]: the outer one starts the fade-out
    animation of a toast and sets the inner one, which removes the toast. *)
Inductive callback : Type :=
| StartFadeOut (id : nat)
| RemoveToast (id : nat).

Definition callback_id (cb : callback) : nat :=
  match cb with StartFadeOut id | RemoveToast id => id end.

(** What [icons[type]] gives: one of the four glyphs, the value that the
    object literal inherits from [Object.prototype] under that name, or
    [undefined]. *)
Inductive icon_value : Type :=
| Glyph (text : string)
| Inherited (name : string)
| Undefined.

(** The names of the properties of [Object.prototype]. *)
Definition object_prototype_names : list string :=
  [ "constructor"; "__defineGetter__"; "__defineSetter__"; "hasOwnProperty";
    "__lookupGetter__"; "__lookupSetter__"; "isPrototypeOf";
    "propertyIsEnumerable"; "toString"; "valueOf"; "__proto__";
    "toLocaleString" ].

(** A [div.toast]: the element (named by its rank of creation), the icon
    [icons[type]], the type that colours it, the message, and whether its
    fade-out animation is set. *)
Record toast_el : Type := {
  toast_id : nat;
  icon : icon_value;
  color : string;
  message : string;
  fading : bool
}.

(** [Toast.container] with its children ([None] for [null]), the number of
    [div.toast-container] in the body, the number of toasts created, the
    pending timers with the time at which each is due, and the clock. *)
Record page : Type := {
  container : option (list toast_el);
  containers_in_body : nat;
  created : nat;
  timers : list (Z * callback);
  now : Z
}.

Definition initial : page :=
  {| container := None; containers_in_body := 0; created := 0;
     timers := []; now := 0 |}.

(** [icons[type]]. *)
Definition icons (type : string) : icon_value :=
  if String.eqb type "success" then Glyph "✓"
  else if String.eqb type "error" then Glyph "✕"
  else if String.eqb type "warning" then Glyph "⚠"
  else if String.eqb type "info" then Glyph "ℹ"
  else if existsb (String.eqb type) object_prototype_names
  then Inherited type
  else Undefined.

(** [Toast.init()]. *)
Definition init (p : page) : page :=
  match container p with
  | Some _ => p
  | None =>
      {| container := Some [];
         containers_in_body := S (containers_in_body p);
         created := created p; timers := timers p; now := now p |}
  end.

(** [Toast.show(message, type, duration)]; [setTimeout] takes a negative
    delay for zero. *)
Definition show (message type : string) (duration : Z) (p : page) : page :=
  let p := init p in
  let toast :=
    {| toast_id := created p; icon := icons type; color := type;
       message := message; fading := false |} in
  {| container := Some (default [] (container p) ++ [toast]);
     containers_in_body := containers_in_body p;
     created := S (created p);
     timers :=
       timers p ++ [(now p + Z.max 0 duration, StartFadeOut (created p))];
     now := now p |}.

(** [Toast.success(message)] and its three siblings. *)
Definition success (message : string) := show message "success" 3000.
Definition error (message : string) := show message "error" 3000.
Definition warning (message : string) := show message "warning" 3000.
Definition info (message : string) := show message "info" 3000.

(** What a callback does when it runs at the time [now p]. *)
Definition run_callback (cb : callback) (p : page) : page :=
  match cb with
  | StartFadeOut id =>
      {| container :=
           option_map
             (map (fun t =>
                     if (toast_id t =? id)%nat
                     then {| toast_id := toast_id t; icon := icon t;
                             color := color t; message := message t;
                             fading := true |}
                     else t))
             (container p);
         containers_in_body := containers_in_body p;
         created := created p;
         timers := timers p ++ [(now p + 300, RemoveToast id)];
         now := now p |}
  | RemoveToast id =>
      {| container :=
           option_map
             (List.filter (fun t => negb (toast_id t =? id)%nat))
             (container p);
         containers_in_body := containers_in_body p;
         created := created p; timers := timers p; now := now p |}
  end.

(** The pending timer that is due first, the one set first among equals,
    and the others. *)
Fixpoint pick_earliest (timers : list (Z * callback))
  : option ((Z * callback) * list (Z * callback)) :=
  match timers with
  | [] => None
  | t :: rest =>
      match pick_earliest rest with
      | None => Some (t, [])
      | Some (t', rest') =>
          if fst t <=? fst t' then Some (t, rest) else Some (t', t :: rest')
      end
  end.

(** The next timer fires: the clock reaches the time it is due, and its
    callback runs. *)
Definition fire_next (p : page) : page :=
  match pick_earliest (timers p) with
  | None => p
  | Some ((due, cb), rest) =>
      run_callback cb
        {| container := container p;
           containers_in_body := containers_in_body p;
           created := created p; timers := rest;
           now := Z.max (now p) due |}
  end.

(** Time passes with no timer firing. *)
Definition elapse (d : Z) (p : page) : page :=
  {| container := container p;
     containers_in_body := containers_in_body p;
     created := created p; timers := timers p;
     now := now p + Z.max 0 d |}.

(** The timers fire, one after the other, at most [n] of them. *)
Fixpoint run_timers (n : nat) (p : page) : page :=
  match n with
  | O => p
  | S n' => match timers p with [] => p | _ => run_timers n' (fire_next p) end
  end.

(** The pages reached from the initial one by showing toasts, letting time
    pass and letting timers fire. *)
Inductive reachable : page -> Prop :=
| reachable_initial : reachable initial
| reachable_show (message type : string) (duration : Z) (p : page) :
    reachable p -> reachable (show message type duration p)
| reachable_elapse (d : Z) (p : page) :
    reachable p -> reachable (elapse d p)
| reachable_fire (p : page) : reachable p -> reachable (fire_next p).

(** The toasts the pending timers are about. *)
Definition timer_ids (timers : list (Z * callback)) : list nat :=
  map (fun t => callback_id (snd t)) timers.

(** Every toast of the container has one pending timer and every pending
    timer has its toast; no toast exists without the container. *)
Definition timed (p : page) : Prop :=
  let toasts := default [] (container p) in
  List.NoDup (map toast_id toasts) /\
  List.NoDup (timer_ids (timers p)) /\
  (forall id, In id (map toast_id toasts) <-> In id (timer_ids (timers p))) /\
  (forall id, In id (map toast_id toasts) -> (id < created p)%nat) /\
  match container p with
  | None => containers_in_body p = O
  | Some _ => containers_in_body p = 1%nat
  end.

(** A timer that starts a fade-out is followed by one more timer. *)
Definition weight (timers : list (Z * callback)) : nat :=
  fold_right
    (fun t acc =>
       (match snd t with StartFadeOut _ => 2 | RemoveToast _ => 1 end + acc)%nat)
    O timers.

End Toast.

(** ** More sample inputs *)

Definition sample_export : CsvExport.result :=
  {| CsvExport.success := true;
     CsvExport.habit_logs :=
       [ {| CsvExport.log_date := "2025-06-01";
            CsvExport.habit_name := "Meditation";
            CsvExport.log_status := "completed" |};
         {| CsvExport.log_date := "2025-06-02";
            CsvExport.habit_name := "Exercise";
            CsvExport.log_status := "completed" |} ];
     CsvExport.tasks :=
       [ {| CsvExport.task_date := "2025-06-02";
            CsvExport.title := "Pay rent";
            CsvExport.task_status := "pending";
            CsvExport.priority := "high" |} ] |}.

Definition sample_habits : HabitStrength.result :=
  {| HabitStrength.success := true;
     HabitStrength.habits :=
       [ {| HabitStrength.habit_name := "Meditation";
            HabitStrength.consistency_score := of_Z 82;
            HabitStrength.completion_rate := of_Z 90;
            HabitStrength.current_streak := of_Z 7;
            HabitStrength.best_streak := of_Z 21 |};
         {| HabitStrength.habit_name := "Reading";
            HabitStrength.consistency_score := of_Z 35;
            HabitStrength.completion_rate := of_Z 30;
            HabitStrength.current_streak := of_Z 0;
            HabitStrength.best_streak := of_Z 4 |} ] |}.

Definition signed_in_window : Auth.window :=
  {| Auth.location_href := "/dashboard";
     Auth.location_pathname := "/dashboard";
     Auth.localStorage :=
       {[ "user" := "{}"; "lifesync-theme" := "light" ]};
     Auth.sessionStorage := {[ "introShown" := "true" ]} |}.

Definition json_response (ok : bool) (body : json) : API.response :=
  {| API.ok := ok;
     API.content_type := Some "application/json";
     API.text := "";
     API.json_body := Some body |}.

Definition palette_opened : CommandPalette.palette :=
  fst (CommandPalette.step (CommandPalette.KeyDown true "k")
         CommandPalette.initial).

Definition june_first : ProductivityChart.point :=
  {| ProductivityChart.date := "2025-06-01";
     ProductivityChart.score := of_Z 75;
     ProductivityChart.habits_score := of_Z 80;
     ProductivityChart.tasks_score := of_Z 70 |}.

(** [Date.parse] on the date of the sample point: midnight UTC of that
    day. *)
Definition parse_june_first (s : string) : Z := MakeDay 2025 5 1 * msPerDay.

(** A host in New York in 2025: four hours behind UTC from March 9, 07:00
    UTC (03:00 local) to November 2, 06:00 UTC (02:00 local), five hours
    behind otherwise; a local time that the clocks skip or repeat is read
    with the offset before the change. *)
Definition new_york_2025 : zone := fun t isUTC =>
  let spring := MakeDay 2025 2 9 * msPerDay in
  let autumn := MakeDay 2025 10 2 * msPerDay in
  let summer :=
    if isUTC
    then (spring + 7 * msPerHour <=? t) && (t <? autumn + 6 * msPerHour)
    else (spring + 3 * msPerHour <=? t) && (t <? autumn + 2 * msPerHour) in
  if summer then -4 * msPerHour else -5 * msPerHour.

(** 2025-03-20T23:30:00Z. *)
Definition march_20_2025_2330 : Z :=
  MakeDay 2025 2 20 * msPerDay + MakeTime 23 30 0 0.

(** * Properties *)

(** ** Comparisons of finite numbers *)

Lemma num_le_Num a b : num_le (Num a) (Num b) = true <-> (a <= b)%Q.
Proof. simpl. apply Qle_bool_iff. Qed.

Lemma num_lt_Num a b : num_lt (Num a) (Num b) = true <-> (a < b)%Q.
Proof.
  simpl. rewrite negb_true_iff. split.
  - intros H. apply Qnot_le_lt. intros Hle.
    apply Qle_bool_iff in Hle. congruence.
  - intros H. destruct (Qle_bool b a) eqn:E; [|reflexivity].
    apply Qle_bool_iff in E. exfalso. apply (Qlt_not_le _ _ H E).
Qed.

Lemma strict_eq_Num a b : strict_eq (Num a) (Num b) = true <-> (a == b)%Q.
Proof. simpl. apply Qeq_bool_iff. Qed.

Lemma num_le_Num_cases a b :
  (num_le (Num a) (Num b) = true /\ (a <= b)%Q) \/
  (num_le (Num a) (Num b) = false /\ (b < a)%Q).
Proof.
  destruct (num_le (Num a) (Num b)) eqn:E.
  - left. split; [reflexivity|]. now apply num_le_Num.
  - right. split; [reflexivity|]. apply Qnot_le_lt. intros H.
    apply num_le_Num in H. congruence.
Qed.

Lemma num_lt_Num_cases a b :
  (num_lt (Num a) (Num b) = true /\ (a < b)%Q) \/
  (num_lt (Num a) (Num b) = false /\ (b <= a)%Q).
Proof.
  destruct (num_lt (Num a) (Num b)) eqn:E.
  - left. split; [reflexivity|]. now apply num_lt_Num.
  - right. split; [reflexivity|]. apply Qnot_lt_le. intros H.
    apply num_lt_Num in H. congruence.
Qed.

Lemma strict_eq_Num_cases a b :
  (strict_eq (Num a) (Num b) = true /\ (a == b)%Q) \/
  (strict_eq (Num a) (Num b) = false /\ ~ (a == b)%Q).
Proof.
  destruct (strict_eq (Num a) (Num b)) eqn:E.
  - left. split; [reflexivity|]. now apply strict_eq_Num.
  - right. split; [reflexivity|]. intros H.
    apply strict_eq_Num in H. congruence.
Qed.

(** ** The heatmap level *)

(** The level of a finite percentage, with the interval it lies in. *)
Lemma getHeatmapLevel_finite (p : Q) :
  ((p == 0)%Q /\ getHeatmapLevel (Num p) = 0) \/
  (~ (p == 0)%Q /\ (p <= 25)%Q /\ getHeatmapLevel (Num p) = 1) \/
  ((25 < p)%Q /\ (p <= 50)%Q /\ getHeatmapLevel (Num p) = 2) \/
  ((50 < p)%Q /\ (p <= 75)%Q /\ getHeatmapLevel (Num p) = 3) \/
  ((75 < p)%Q /\ getHeatmapLevel (Num p) = 4).
Proof.
  unfold getHeatmapLevel, of_Z.
  destruct (strict_eq_Num_cases p (inject_Z 0)) as [[-> H0]|[-> H0]];
    [left; split; [exact H0|reflexivity]|].
  destruct (num_le_Num_cases p (inject_Z 25)) as [[-> H1]|[-> H1]];
    [right; left; repeat split; assumption|].
  destruct (num_le_Num_cases p (inject_Z 50)) as [[-> H2]|[-> H2]];
    [right; right; left; repeat split; assumption|].
  destruct (num_le_Num_cases p (inject_Z 75)) as [[-> H3]|[-> H3]];
    [right; right; right; left; repeat split; assumption|].
  right; right; right; right. split; [assumption|reflexivity].
Qed.

Ltac level_cases p :=
  let H := fresh "H" in
  destruct (getHeatmapLevel_finite p)
    as [[? H]|[[? [? H]]|[[? [? H]]|[[? [? H]]|[? H]]]]];
  rewrite H; clear H.

Ltac qlra := Lqa.lra.

Lemma getHeatmapLevel_range (x : number) : 0 <= getHeatmapLevel x <= 4.
Proof.
  destruct x as [p| | |]; try (vm_compute; split; congruence).
  level_cases p; lia.
Qed.

Lemma getHeatmapLevel_monotone (p q : Q) :
  (p <= q)%Q -> (0 <= p)%Q ->
  getHeatmapLevel (Num p) <= getHeatmapLevel (Num q).
Proof.
  intros Hpq Hp. level_cases p; level_cases q; try lia; exfalso; qlra.
Qed.

(** C1. The heatmap level follows the fixed thresholds: 0% gives level 0,
    1-25% level 1, 26-50% level 2, 51-75% level 3 and 76-100% level 4; in
    particular 25% gives 1, 50% gives 2, 75% gives 3, 76% and 100% give 4;
    and over [0,100] the level never decreases as the percentage grows. *)
Theorem heatmap_level_thresholds :
  (forall p : Q,
      ((p == 0)%Q -> getHeatmapLevel (Num p) = 0) /\
      ((1 <= p)%Q /\ (p <= 25)%Q -> getHeatmapLevel (Num p) = 1) /\
      ((26 <= p)%Q /\ (p <= 50)%Q -> getHeatmapLevel (Num p) = 2) /\
      ((51 <= p)%Q /\ (p <= 75)%Q -> getHeatmapLevel (Num p) = 3) /\
      ((76 <= p)%Q /\ (p <= 100)%Q -> getHeatmapLevel (Num p) = 4)) /\
  (getHeatmapLevel (of_Z 0) = 0 /\ getHeatmapLevel (of_Z 25) = 1 /\
   getHeatmapLevel (of_Z 50) = 2 /\ getHeatmapLevel (of_Z 75) = 3 /\
   getHeatmapLevel (of_Z 76) = 4 /\ getHeatmapLevel (of_Z 100) = 4) /\
  (forall p q : Q,
      (0 <= p)%Q /\ (p <= q)%Q /\ (q <= 100)%Q ->
      getHeatmapLevel (Num p) <= getHeatmapLevel (Num q)).
Proof.
  split; [|split].
  - intros p. repeat split; intros Hp; level_cases p;
      try reflexivity; exfalso; qlra.
  - repeat split; reflexivity.
  - intros p q (Hp & Hpq & _). now apply getHeatmapLevel_monotone.
Qed.

Lemma heatmap_level_thresholds_witness :
  getHeatmapLevel (Num 40) = 2 /\
  getHeatmapLevel (Num 10) <= getHeatmapLevel (Num (151 # 2)).
Proof.
  destruct heatmap_level_thresholds as (Hlevels & _ & Hmono).
  split.
  - apply (Hlevels 40%Q). split; [discriminate | discriminate].
  - apply (Hmono 10%Q (151 # 2)%Q).
    split; [discriminate | split; discriminate].
Defined.

(** C8. The heatmap level is defined on every number and is one of 0 to 4;
    every nonzero finite input up to 25, negative ones included, gives level
    1, and every finite input above 75, also above 100, gives level 4. *)
Theorem heatmap_level_total :
  (forall x : number, 0 <= getHeatmapLevel x <= 4) /\
  (forall p : Q,
      ~ (p == 0)%Q /\ (p <= 25)%Q -> getHeatmapLevel (Num p) = 1) /\
  (forall p : Q, (75 < p)%Q -> getHeatmapLevel (Num p) = 4).
Proof.
  split; [exact getHeatmapLevel_range|split].
  - intros p [Hne Hle]. level_cases p; try reflexivity; exfalso;
      solve [qlra | apply Hne; qlra].
  - intros p Hp. level_cases p; try reflexivity; exfalso; qlra.
Qed.

Lemma heatmap_level_total_witness :
  getHeatmapLevel (Num (-5)) = 1 /\ getHeatmapLevel (Num 250) = 4.
Proof.
  destruct heatmap_level_total as (_ & Hlow & Hhigh).
  split.
  - apply (Hlow (-5)%Q). split; discriminate || reflexivity.
  - apply (Hhigh 250%Q). reflexivity.
Defined.

(** ** The correlation level *)

Lemma getCorrelationLevel_finite (c : Q) :
  ((q_0_7 <= c)%Q /\ getCorrelationLevel (Num c) = 4) \/
  ((c < q_0_7)%Q /\ ((1 # 2) <= c)%Q /\ getCorrelationLevel (Num c) = 3) \/
  ((c < (1 # 2))%Q /\ (q_0_3 <= c)%Q /\ getCorrelationLevel (Num c) = 2) \/
  ((c < q_0_3)%Q /\ (0 < c)%Q /\ getCorrelationLevel (Num c) = 1) \/
  ((c <= 0)%Q /\ getCorrelationLevel (Num c) = 0).
Proof.
  unfold getCorrelationLevel, num_ge, num_gt, lit_0_7, lit_0_5, lit_0_3, of_Z.
  destruct (num_le_Num_cases q_0_7 c) as [[-> H1]|[-> H1]];
    [left; split; [assumption|reflexivity]|].
  destruct (num_le_Num_cases (1 # 2) c) as [[-> H2]|[-> H2]];
    [right; left; repeat split; assumption|].
  destruct (num_le_Num_cases q_0_3 c) as [[-> H3]|[-> H3]];
    [right; right; left; repeat split; assumption|].
  destruct (num_lt_Num_cases (inject_Z 0) c) as [[-> H4]|[-> H4]];
    [right; right; right; left; repeat split; assumption|].
  right; right; right; right. split; [assumption|reflexivity].
Qed.

Ltac corr_cases c :=
  let H := fresh "H" in
  destruct (getCorrelationLevel_finite c)
    as [[? H]|[[? [? H]]|[[? [? H]]|[[? [? H]]|[? H]]]]];
  rewrite H; clear H.

Lemma getCorrelationLevel_range (x : number) :
  0 <= getCorrelationLevel x <= 4.
Proof.
  destruct x as [c| | |]; try (vm_compute; split; congruence).
  corr_cases c; lia.
Qed.

Lemma getCorrelationLevel_monotone (x y : number) :
  num_le x y = true -> getCorrelationLevel x <= getCorrelationLevel y.
Proof.
  destruct x as [a| | |], y as [b| | |]; intros H;
    try (simpl in H; discriminate H);
    try (vm_compute; discriminate).
  - apply num_le_Num in H.
    corr_cases a; corr_cases b; try lia; exfalso;
      unfold q_0_7, q_0_3 in *; qlra.
  - change (getCorrelationLevel PosInfinity) with 4.
    apply getCorrelationLevel_range.
  - change (getCorrelationLevel NegInfinity) with 0.
    apply getCorrelationLevel_range.
Qed.

(** C9. The correlation level never decreases as its argument grows, is one
    of 0 to 4 on every input, and is 0 on every coefficient that is not
    positive. *)
Theorem correlation_level_monotone :
  (forall x y : number,
      num_le x y = true -> getCorrelationLevel x <= getCorrelationLevel y) /\
  (forall x : number, 0 <= getCorrelationLevel x <= 4) /\
  (forall x : number,
      num_le x (of_Z 0) = true -> getCorrelationLevel x = 0).
Proof.
  split; [exact getCorrelationLevel_monotone|].
  split; [exact getCorrelationLevel_range|].
  intros [c| | |]; try discriminate; [|reflexivity].
  intros H. apply num_le_Num in H. unfold inject_Z in H.
  corr_cases c; try reflexivity; exfalso; unfold q_0_7, q_0_3 in *; qlra.
Qed.

Lemma correlation_level_monotone_witness :
  getCorrelationLevel (Num (-1 # 2)) <= getCorrelationLevel (Num (6 # 10)) /\
  getCorrelationLevel (Num (-1 # 2)) = 0.
Proof.
  destruct correlation_level_monotone as (Hmono & _ & Hzero).
  split.
  - apply (Hmono (Num (-1 # 2)) (Num (6 # 10))). reflexivity.
  - apply (Hzero (Num (-1 # 2))). reflexivity.
Defined.

(** ** The API layer *)

Lemma request_try_not_json (r : API.response) :
  API.content_type r = None \/
  (exists ct, API.content_type r = Some ct /\
              API.indexOf ct "application/json" = -1) ->
  snd (API.request_try r) =
    Rejected (Error "Server error: Received non-JSON response").
Proof.
  unfold API.request_try. intros [H|(ct & H & Hidx)]; rewrite H.
  - reflexivity.
  - rewrite Hidx. simpl. rewrite andb_false_r. reflexivity.
Qed.

Lemma request_try_json_failure (r : API.response) :
  API.ok r = false ->
  (forall data, API.json_body r = Some data ->
                API.truthy (API.success_of data) = false) ->
  exists e, snd (API.request_try r) = Rejected e.
Proof.
  intros Hok Hsucc. unfold API.request_try. rewrite Hok.
  destruct (match API.content_type r with
            | Some ct => _ | None => false end); [|eauto].
  destruct (API.json_body r) as [data|] eqn:Hbody; [|eauto].
  specialize (Hsucc data eq_refl). simpl.
  destruct data; simpl in *; try rewrite Hsucc; simpl; eauto.
  destruct (API.truthy (API.lookup_field "message" fields)); eauto.
Qed.

Lemma request_rethrows (fetched : settled API.response) (e : js_error) :
  (match fetched with
   | Rejected e' => e' = e
   | Fulfilled r => snd (API.request_try r) = Rejected e
   end) ->
  snd (API.request fetched) = Rejected e.
Proof.
  unfold API.request. destruct fetched as [r|e'].
  - destruct (API.request_try r) as [console outcome]. simpl.
    intros ->. reflexivity.
  - intros ->. reflexivity.
Qed.

(** C6. When the response is not JSON (no content type, or one without
    [application/json]), or is not ok with a body that carries no truthy
    [success], the promise returned by [API.request] rejects with an error;
    so does it when [fetch] itself fails.  It never resolves to a value. *)
Theorem api_request_surfaces_failure :
  (forall r : API.response,
      (API.content_type r = None \/
       (exists ct, API.content_type r = Some ct /\
                   API.indexOf ct "application/json" = -1)) \/
      (API.ok r = false /\
       (forall data, API.json_body r = Some data ->
                     API.truthy (API.success_of data) = false)) ->
      exists e, snd (API.request (Fulfilled r)) = Rejected e) /\
  (forall e : js_error, snd (API.request (Rejected e)) = Rejected e).
Proof.
  split.
  - intros r [Hct|[Hok Hsucc]].
    + exists (Error "Server error: Received non-JSON response").
      apply request_rethrows. now apply request_try_not_json.
    + destruct (request_try_json_failure r Hok Hsucc) as [e He].
      exists e. now apply request_rethrows.
  - intros e. reflexivity.
Qed.

Lemma api_request_surfaces_failure_witness :
  (exists e, snd (API.request (Fulfilled html_error_page)) = Rejected e) /\
  (exists e, snd (API.request (Fulfilled json_failure)) = Rejected e).
Proof.
  destruct api_request_surfaces_failure as [Hreject _].
  split.
  - apply (Hreject html_error_page). left. right.
    exists "text/html; charset=utf-8". split; reflexivity.
  - apply (Hreject json_failure). right. split; [reflexivity|].
    intros data Hdata. injection Hdata as <-. reflexivity.
Defined.

Example api_request_json_failure_message :
  API.request (Fulfilled json_failure) =
    ([API.ApiError (ErrorOf (JString "Database unavailable"))],
     Rejected (ErrorOf (JString "Database unavailable"))).
Proof. reflexivity. Qed.

(** X3. A JSON response that is ok, or that carries a truthy [success],
    resolves to its parsed body, and nothing is logged. *)
Lemma api_request_resolves (r : API.response) (ct : string) (data : json) :
  API.content_type r = Some ct ->
  ct <> "" ->
  API.indexOf ct "application/json" <> -1 ->
  API.json_body r = Some data ->
  API.ok r = true \/ API.truthy (API.success_of data) = true ->
  API.request (Fulfilled r) = ([], Fulfilled data).
Proof.
  intros Hct Hne Hidx Hbody Hgood.
  unfold API.request, API.request_try. rewrite Hct, Hbody.
  apply String.eqb_neq in Hne. rewrite Hne.
  apply Z.eqb_neq in Hidx. rewrite Hidx. simpl.
  destruct (API.ok r); simpl; [reflexivity|].
  destruct Hgood as [Hgood|Hgood]; [discriminate|].
  destruct data; simpl in *; try discriminate.
  rewrite Hgood. reflexivity.
Qed.

Lemma api_request_resolves_witness :
  API.request (Fulfilled json_success) =
    ([], Fulfilled (JObject [("success", JBool true)])).
Proof.
  apply (api_request_resolves json_success "application/json").
  - reflexivity.
  - discriminate.
  - discriminate.
  - reflexivity.
  - left. reflexivity.
Defined.

(** ** The correlation list *)

Lemma slice_0_10_length {A : Type} (arr : list A) :
  (length (Correlations.slice_0_10 arr) <= 10)%nat.
Proof. unfold Correlations.slice_0_10. rewrite length_firstn. lia. Qed.

Lemma slice_0_10_lookup {A : Type} (arr : list A) (i : nat) :
  (i < 10)%nat -> Correlations.slice_0_10 arr !! i = arr !! i.
Proof.
  intros Hi. unfold Correlations.slice_0_10.
  change (firstn 10 arr) with (take 10 arr). now apply lookup_take_lt.
Qed.

Lemma slice_0_10_prefix {A : Type} (arr : list A) :
  exists rest, arr = Correlations.slice_0_10 arr ++ rest.
Proof.
  exists (skipn 10 arr). unfold Correlations.slice_0_10.
  symmetry. apply firstn_skipn.
Qed.

(** What the container shows for an empty list: the result's message, or
    the default text. *)
Lemma correlation_empty_list (res : Correlations.result) :
  Correlations.success res = true ->
  Correlations.correlations res = [] ->
  Correlations.renderCorrelationMatrix true (Fulfilled res) =
    Fulfilled (Some (Correlations.Muted
      (or_else (Correlations.message res)
         "No correlation data available"))).
Proof.
  intros Hs Hc. unfold Correlations.renderCorrelationMatrix.
  rewrite Hs, Hc. reflexivity.
Qed.

(** C7, as the code has it.  For a successful result whose list is not
    empty, the container shows the items of the first 10 entries at most, in
    the order of the list, followed by the window length of the result; for
    an empty list it shows the result's message, or a default text, and no
    window length. *)
Theorem correlation_list_top10 (res : Correlations.result) :
  Correlations.success res = true ->
  (Correlations.correlations res <> [] ->
   exists items,
     Correlations.renderCorrelationMatrix true (Fulfilled res) =
       Fulfilled (Some (Correlations.CorrelationList items
                          (Correlations.analysis_period res))) /\
     items = map Correlations.render_item
               (firstn 10 (Correlations.correlations res)) /\
     (length items <= 10)%nat /\
     (forall i, (i < length items)%nat ->
        items !! i =
          Correlations.render_item <$> (Correlations.correlations res !! i)))
  /\
  (Correlations.correlations res = [] ->
   exists text,
     Correlations.renderCorrelationMatrix true (Fulfilled res) =
       Fulfilled (Some (Correlations.Muted text)) /\
     text = or_else (Correlations.message res)
              "No correlation data available" /\
     Correlations.shown_analysis_days (Correlations.Muted text) = None).
Proof.
  intros Hsucc. split.
  - intros Hne.
    exists (map Correlations.render_item
              (Correlations.slice_0_10 (Correlations.correlations res))).
    unfold Correlations.renderCorrelationMatrix. rewrite Hsucc. simpl.
    destruct (Correlations.correlations res) as [|c rest] eqn:Hc;
      [contradiction|].
    split; [reflexivity|]. split; [reflexivity|]. split.
    + rewrite length_map. apply slice_0_10_length.
    + intros i Hi. rewrite length_map in Hi.
      pose proof (slice_0_10_length (c :: rest)) as Hlen.
      rewrite list_lookup_fmap. rewrite slice_0_10_lookup by lia.
      reflexivity.
  - intros Hempty. eexists. split; [|split; reflexivity].
    now apply correlation_empty_list.
Qed.

Lemma correlation_list_top10_witness :
  exists items,
    Correlations.renderCorrelationMatrix true (Fulfilled two_pairs) =
      Fulfilled (Some (Correlations.CorrelationList items (of_Z 90))) /\
    length items = 2%nat.
Proof.
  destruct (correlation_list_top10 two_pairs) as [Hlist _].
  - reflexivity.
  - destruct Hlist as (items & Hr & Hi & _).
    + discriminate.
    + exists items. split; [exact Hr|]. rewrite Hi. reflexivity.
Defined.

(** A successful result with an empty list and a window of 90 days: the
    container shows the muted text, and no window length. *)
Lemma correlation_empty_list_hides_window :
  Correlations.success no_pairs = true /\
  Correlations.analysis_period no_pairs = of_Z 90 /\
  Correlations.renderCorrelationMatrix true (Fulfilled no_pairs) =
    Fulfilled (Some (Correlations.Muted "No correlation data available")) /\
  Correlations.shown_analysis_days
    (Correlations.Muted "No correlation data available") = None.
Proof. repeat split. Qed.

(** The percentage printed for the double nearest to 0.015: the product
    with 100 rounds to 1.5, and [Math.round] gives 2. *)
Example percentage_of_0_015 :
  num_mul (Num (1080863910568919 # 72057594037927936)) (of_Z 100)
    = Num (6755399441055744 # 4503599627370496) /\
  Math_round
    (num_mul (Num (1080863910568919 # 72057594037927936)) (of_Z 100))
    = of_Z 2.
Proof. split; vm_compute; reflexivity. Qed.

(** ** The theme *)

Lemma or_else_nonempty (t fallback : string) :
  t <> "" -> or_else (Some t) fallback = t.
Proof.
  intros H. unfold or_else. apply String.eqb_neq in H. now rewrite H.
Qed.

Lemma get_apply (t : string) (b : Theme.browser) :
  t <> "" -> Theme.get (Theme.apply t b) = t.
Proof. intros H. unfold Theme.get. simpl. now apply or_else_nonempty. Qed.

Lemma get_toggle (b : Theme.browser) :
  Theme.get (Theme.toggle b) =
    if String.eqb (Theme.get b) "dark" then "light" else "dark".
Proof.
  unfold Theme.get, Theme.toggle. simpl.
  destruct (String.eqb (or_else (Theme.data_theme b) "dark") "dark");
    reflexivity.
Qed.

Lemma storage_toggle (b : Theme.browser) :
  Theme.localStorage (Theme.toggle b) !! Theme.storageKey =
    Some (Theme.get (Theme.toggle b)).
Proof.
  rewrite get_toggle. unfold Theme.toggle, Theme.get. simpl.
  rewrite lookup_insert_eq. reflexivity.
Qed.

(** C10. After [Theme.apply(t)] with a non-empty [t], the [data-theme]
    attribute and the stored entry are [t], and [Theme.get()] returns [t].
    [Theme.toggle] turns the current theme ['dark'] into ['light'] and any
    other into ['dark']; two toggles from ['dark'] or ['light'] give the
    theme back, in the attribute and in the storage. *)
Theorem theme_apply_get_toggle :
  (forall (t : string) (b : Theme.browser),
      t <> "" ->
      Theme.data_theme (Theme.apply t b) = Some t /\
      Theme.localStorage (Theme.apply t b) !! Theme.storageKey = Some t /\
      Theme.get (Theme.apply t b) = t) /\
  (forall b : Theme.browser,
      Theme.get (Theme.toggle b) =
        if String.eqb (Theme.get b) "dark" then "light" else "dark") /\
  (forall b : Theme.browser,
      Theme.get b = "dark" \/ Theme.get b = "light" ->
      Theme.get (Theme.toggle (Theme.toggle b)) = Theme.get b /\
      Theme.localStorage (Theme.toggle (Theme.toggle b)) !! Theme.storageKey
        = Some (Theme.get b)).
Proof.
  split; [|split].
  - intros t b Ht. split; [reflexivity|]. split.
    + unfold Theme.apply. simpl. apply lookup_insert_eq.
    + now apply get_apply.
  - exact get_toggle.
  - intros b Hb. rewrite storage_toggle. rewrite !get_toggle.
    destruct Hb as [-> | ->]; split; reflexivity.
Qed.

Lemma theme_apply_get_toggle_witness :
  Theme.get (Theme.apply "light" fresh_browser) = "light" /\
  Theme.get (Theme.toggle (Theme.toggle fresh_browser)) = "dark".
Proof.
  destruct theme_apply_get_toggle as (Happly & _ & Htwice).
  split.
  - apply (Happly "light" fresh_browser). discriminate.
  - apply (Htwice fresh_browser). left. reflexivity.
Defined.

(** ** The percentage changes *)

Lemma percentage_change_defined (p1 p2 : Z) :
  exists q : Q,
    Comparison.percentage_change p1 p2 = Some (Num q) /\
    (p1 <> 0 -> (q * inject_Z p1 == inject_Z (p2 - p1) * 100)%Q) /\
    (p1 = 0 -> q = 0%Q).
Proof.
  unfold Comparison.percentage_change.
  destruct (Z.eqb_spec p1 0) as [E|E].
  - exists 0%Q. split; [reflexivity|]. split; [contradiction|reflexivity].
  - unfold Comparison.change_formula, Comparison.divide.
    assert (Hne : ~ (inject_Z p1 == 0)%Q).
    { intros H. apply E. unfold Qeq in H. cbn in H. lia. }
    destruct (Qeq_bool (inject_Z p1) 0) eqn:Hb;
      [apply Qeq_bool_iff in Hb; contradiction|].
    eexists. split; [reflexivity|]. split; [|contradiction].
    intros _. field. exact Hne.
Qed.

Lemma render_change_Num (label : string) (q : Q) :
  Comparison.render_change label (Num q) =
    {| Comparison.item_class :=
         if Qle_bool 0 q then "positive" else "negative";
       Comparison.change_label := label;
       Comparison.arrow :=
         if Qle_bool 0 q then Comparison.Up else Comparison.Down;
       Comparison.change_value := Num (Qabs.Qabs q) |}.
Proof. reflexivity. Qed.

(** C5. The comparator never faults and the view shows what it reports.
    With a first count of 0 the formula alone is a division fault, and the
    comparator reports the sentinel 0 in its place; for all counts the
    comparator reports a change, a rational number, which is the formula's
    value when the first count is not 0.  For every output of the
    comparator the comparison view is rendered (nothing is thrown): the
    chart holds the counts of the two periods, the panel of changes holds
    one item for the habits and one for the tasks, each with the absolute
    value of its change, an arrow up and the class [positive] exactly when
    the change is not negative, the tooltips of the first dataset show the
    same arrows and values, and every value shown is a finite number: no
    NaN reaches the output. *)
Theorem comparison_change_defined :
  (forall period2 : Z,
      period2 <> 0 ->
      Comparison.change_formula 0 period2 = None /\
      Comparison.percentage_change 0 period2 = Some (of_Z 0)) /\
  (forall period1 period2 : Z,
      exists q : Q,
        Comparison.percentage_change period1 period2 = Some (Num q) /\
        (period1 <> 0 ->
         (q * inject_Z period1 == inject_Z (period2 - period1) * 100)%Q) /\
        (period1 = 0 -> q = 0%Q)) /\
  (forall (name1 name2 : string) (year1 year2 h1 t1 h2 t2 : Z),
      exists (res : Comparison.result) (hc tc : Q),
        Comparison.compare_periods name1 name2 year1 year2 h1 t1 h2 t2
          = Some res /\
        Comparison.percentage_change h1 h2 = Some (Num hc) /\
        Comparison.percentage_change t1 t2 = Some (Num tc) /\
        Comparison.renderComparisonChart true true (Fulfilled res) =
          Fulfilled
            {| Comparison.chart :=
                 Some
                   [ {| Comparison.label := (name1, of_Z year1);
                        Comparison.bars := [of_Z h1; of_Z t1] |};
                     {| Comparison.label := (name2, of_Z year2);
                        Comparison.bars := [of_Z h2; of_Z t2] |} ];
               Comparison.changes :=
                 Some
                   [ {| Comparison.item_class :=
                          if Qle_bool 0 hc then "positive" else "negative";
                        Comparison.change_label := "Habits";
                        Comparison.arrow :=
                          if Qle_bool 0 hc
                          then Comparison.Up else Comparison.Down;
                        Comparison.change_value := Num (Qabs.Qabs hc) |};
                     {| Comparison.item_class :=
                          if Qle_bool 0 tc then "positive" else "negative";
                        Comparison.change_label := "Tasks";
                        Comparison.arrow :=
                          if Qle_bool 0 tc
                          then Comparison.Up else Comparison.Down;
                        Comparison.change_value := Num (Qabs.Qabs tc) |} ]
            |} /\
        Comparison.afterLabel (Comparison.comparison_of res) 0 0
          = Some (if Qle_bool 0 hc then Comparison.Up else Comparison.Down,
                  Num (Qabs.Qabs hc)) /\
        Comparison.afterLabel (Comparison.comparison_of res) 0 1
          = Some (if Qle_bool 0 tc then Comparison.Up else Comparison.Down,
                  Num (Qabs.Qabs tc)) /\
        (forall i j icon v,
            Comparison.afterLabel (Comparison.comparison_of res) i j
              = Some (icon, v) ->
            isFinite v = true)).
Proof.
  split; [|split].
  - intros period2 _. split; reflexivity.
  - exact percentage_change_defined.
  - intros name1 name2 year1 year2 h1 t1 h2 t2.
    destruct (percentage_change_defined h1 h2) as (hc & Hh & _).
    destruct (percentage_change_defined t1 t2) as (tc & Ht & _).
    eexists _, hc, tc. unfold Comparison.compare_periods. rewrite Hh, Ht.
    split; [reflexivity|]. split; [reflexivity|]. split; [reflexivity|].
    split; [reflexivity|]. split; [reflexivity|]. split; [reflexivity|].
    intros i j icon v. unfold Comparison.afterLabel.
    cbn [Comparison.comparison_of Comparison.habits_change
           Comparison.tasks_change].
    destruct (i =? 0); [|discriminate].
    destruct (j =? 0); intros H; injection H as _ <-; reflexivity.
Qed.

Lemma comparison_change_defined_witness :
  Comparison.change_formula 0 10 = None /\
  Comparison.percentage_change 0 10 = Some (of_Z 0).
Proof.
  destruct comparison_change_defined as [Hzero _].
  apply (Hzero 10). discriminate.
Defined.

Example comparison_0_vs_10_panel :
  (fun res =>
     Comparison.changes <$>
       Comparison.renderComparisonChart true true (Fulfilled res))
    <$> Comparison.compare_periods "May" "June" 2025 2025 0 4 10 3
  = Some (Fulfilled (Some
    [ {| Comparison.item_class := "positive";
         Comparison.change_label := "Habits";
         Comparison.arrow := Comparison.Up;
         Comparison.change_value := Num 0 |};
      {| Comparison.item_class := "negative";
         Comparison.change_label := "Tasks";
         Comparison.arrow := Comparison.Down;
         Comparison.change_value := Num (100 # 4) |} ])).
Proof. vm_compute. reflexivity. Qed.

(** The view itself does not filter: a change that is not a number is
    printed as it is. *)
Example render_change_NaN :
  Comparison.change_value (Comparison.render_change "Habits" NaN) = NaN.
Proof. reflexivity. Qed.

(** ** Streaks of an empty log *)

Lemma present_empty (d : Z) : Streaks.present ∅ d = false.
Proof. unfold Streaks.present. apply bool_decide_eq_false_2. set_solver. Qed.

Lemma run_back_empty (n : nat) (d : Z) : Streaks.run_back ∅ n d = 0.
Proof. destruct n; simpl; [|rewrite present_empty]; reflexivity. Qed.

Lemma best_streak_scan_empty (days : list Z) (best : Z) :
  fold_left (Streaks.best_streak_step ∅) days (best, 0) = (best, 0).
Proof.
  induction days as [|d days IH]; simpl; [reflexivity|].
  rewrite present_empty. exact IH.
Qed.

Lemma filter_present_empty (days : list Z) :
  List.filter (Streaks.present ∅) days = [].
Proof.
  induction days as [|d days IH]; simpl; [reflexivity|].
  rewrite present_empty. exact IH.
Qed.

Lemma present_day_count_empty (window : nat) (today : Z) :
  Streaks.present_day_count ∅ window today = 0.
Proof.
  unfold Streaks.present_day_count. rewrite filter_present_empty.
  reflexivity.
Qed.

(** C3. A habit with no logged day has completion rate 0, current streak 0
    and best streak 0, whatever the window and the elapsed days; and with
    zero elapsed days the completion rate is 0 for every log. *)
Theorem streaks_of_empty_log :
  (forall (window : nat) (today elapsed : Z),
      Streaks.completion_rate ∅ window today elapsed = 0 /\
      Streaks.current_streak ∅ window today = 0 /\
      Streaks.best_streak ∅ window today = 0) /\
  (forall (dates : gset Z) (window : nat) (today : Z),
      Streaks.completion_rate dates window today 0 = 0).
Proof.
  split.
  - intros window today elapsed. repeat split.
    + unfold Streaks.completion_rate. rewrite present_day_count_empty.
      destruct (elapsed =? 0) eqn:E; [reflexivity|].
      apply Z.eqb_neq in E. rewrite Z.mul_0_r, Z.add_0_l.
      destruct (Z.lt_ge_cases 0 elapsed) as [Hpos|Hneg].
      * apply Z.div_small. lia.
      * apply Z.div_small_iff; [lia|]. right. lia.
    + unfold Streaks.current_streak. rewrite present_empty.
      apply run_back_empty.
    + unfold Streaks.best_streak. rewrite best_streak_scan_empty.
      reflexivity.
  - intros dates window today. reflexivity.
Qed.

Example streaks_three_days :
  let dates : gset Z := {[ 8; 9; 10; 5; 4; 3; 2 ]} in
  Streaks.current_streak dates 10 10 = 3 /\
  Streaks.best_streak dates 10 10 = 4 /\
  Streaks.completion_rate dates 10 10 10 = 70.
Proof. vm_compute. repeat split. Qed.

(** ** Pearson correlation *)













(** ** Days, years and dates *)

(** A year's first day and the next year's are [DaysInYear] apart. *)
Lemma DayFromYear_succ y : DayFromYear (y + 1) = DayFromYear y + DaysInYear y.
Proof.
  unfold DayFromYear, DaysInYear.
  destruct (Z.eqb_spec (y mod 4) 0), (Z.eqb_spec (y mod 100) 0), (Z.eqb_spec (y mod 400) 0); simpl;
  Z.div_mod_to_equations; lia.
Qed.

Lemma DaysInYear_cases y : DaysInYear y = 365 \/ DaysInYear y = 366.
Proof.
  unfold DaysInYear.
  destruct (y mod 4 =? 0), (y mod 100 =? 0), (y mod 400 =? 0); simpl; auto.
Qed.

(** [YearFromDay d] is the year whose days hold [d]: with the monotonicity
    of [DayFromYear], the largest [y] such that [DayFromYear y <= d], as
    ECMA-262 defines [YearFromTime]. *)
Lemma YearFromDay_spec d :
  DayFromYear (YearFromDay d) <= d < DayFromYear (YearFromDay d + 1).
Proof.
  unfold YearFromDay.
  set (y0 := 1970 + 400 * d / 146097).
  destruct (Z.ltb_spec d (DayFromYear y0)).
  - replace (y0 - 1 + 1) with y0 by lia. split; [|lia].
    unfold DayFromYear in *. subst y0. Z.div_mod_to_equations. lia.
  - destruct (Z.leb_spec (DayFromYear (y0 + 1)) d).
    + split; [lia|]. unfold DayFromYear in *. subst y0. Z.div_mod_to_equations. lia.
    + lia.
Qed.

Lemma DayFromYear_monotone y1 y2 : y1 <= y2 -> DayFromYear y1 <= DayFromYear y2.
Proof. intros H. unfold DayFromYear. Z.div_mod_to_equations. lia. Qed.

Lemma YearFromDay_gt d year : year < YearFromDay d <-> DayFromYear (year + 1) <= d.
Proof.
  pose proof (YearFromDay_spec d) as [Hlo Hhi]. split; intros H.
  - pose proof (DayFromYear_monotone (year + 1) (YearFromDay d)). lia.
  - destruct (Z.lt_ge_cases year (YearFromDay d)) as [|Hle]; [assumption|].
    pose proof (DayFromYear_monotone (YearFromDay d + 1) (year + 1)). lia.
Qed.

Lemma YearFromDay_unique d year :
  DayFromYear year <= d < DayFromYear (year + 1) -> YearFromDay d = year.
Proof.
  intros [Hlo Hhi].
  destruct (Z.lt_trichotomy (YearFromDay d) year) as [H|[H|H]]; [|assumption|].
  - pose proof (YearFromDay_gt d (year - 1)) as [_ G].
    replace (year - 1 + 1) with year in G by lia. specialize (G Hlo). lia.
  - apply YearFromDay_gt in H. lia.
Qed.

(** Local midnights: the dates the calendar loop walks through. *)
Lemma LocalTime_midnight tza d : LocalTime tza (midnight tza d) = d * msPerDay.
Proof. unfold LocalTime, midnight, UTC, MakeDate, MakeTime. lia. Qed.

Lemma Day_days d : Day (d * msPerDay) = d.
Proof. unfold Day, msPerDay. now rewrite Z.div_mul. Qed.

Lemma TimeWithinDay_days d : TimeWithinDay (d * msPerDay) = 0.
Proof. unfold TimeWithinDay, msPerDay. now rewrite Z.mod_mul. Qed.

Lemma getDay_midnight tza d : getDay tza (midnight tza d) = (d + 4) mod 7.
Proof. unfold getDay, WeekDay. now rewrite LocalTime_midnight, Day_days. Qed.

Lemma getFullYear_midnight tza d : getFullYear tza (midnight tza d) = YearFromDay d.
Proof. unfold getFullYear, YearFromTime. now rewrite LocalTime_midnight, Day_days. Qed.

Lemma MonthFromTime_range t : 0 <= MonthFromTime t <= 11.
Proof.
  unfold MonthFromTime. cbv zeta.
  repeat (match goal with |- context [if ?b then _ else _] => destruct b end);
    lia.
Qed.

(** [setDate(getDate() + k)] moves a date by [k] days. *)
Lemma MakeDay_DateFromTime t k :
  MakeDay (YearFromTime t) (MonthFromTime t) (DateFromTime t + k) = Day t + k.
Proof.
  pose proof (MonthFromTime_range t) as Hm.
  unfold MakeDay. rewrite Z.div_small, Z.mod_small by lia.
  rewrite Z.add_0_r. fold (InLeapYear t).
  unfold DateFromTime, DayWithinYear. lia.
Qed.

Lemma setDate_midnight tza d k :
  setDate tza (midnight tza d) (getDate tza (midnight tza d) + k) = midnight tza (d + k).
Proof.
  unfold setDate, getDate. rewrite LocalTime_midnight.
  rewrite MakeDay_DateFromTime, Day_days, TimeWithinDay_days.
  reflexivity.
Qed.

Lemma Date_of_ymd_jan1 tza year :
  ~ (0 <= year <= 99) -> Date_of_ymd tza year 0 1 = midnight tza (DayFromYear year).
Proof.
  intros H. unfold Date_of_ymd.
  replace ((0 <=? year) && (year <=? 99)) with false
    by (symmetry; apply andb_false_iff; lia).
  unfold midnight. f_equal. f_equal. unfold MakeDay.
  change (0 / 12) with 0. change (0 mod 12) with 0.
  simpl monthStart. rewrite !Z.add_0_r. lia.
Qed.

Lemma Date_of_ymd_dec31 tza year :
  ~ (0 <= year <= 99) ->
  Date_of_ymd tza year 11 31 = midnight tza (DayFromYear (year + 1) - 1).
Proof.
  intros H. unfold Date_of_ymd.
  replace ((0 <=? year) && (year <=? 99)) with false
    by (symmetry; apply andb_false_iff; lia).
  unfold midnight. f_equal. f_equal. unfold MakeDay.
  rewrite DayFromYear_succ. change (11 / 12) with 0. change (11 mod 12) with 11.
  rewrite Z.add_0_r. simpl monthStart.
  destruct (DaysInYear_cases year) as [-> | ->];
    [change (365 =? 366) with false | change (366 =? 366) with true];
    cbv iota; lia.
Qed.

(** The date part of [toISOString] holds no ['T'], so [split('T')[0]] is
    that part. *)
Lemma split_T_0_app (s rest : string) :
  has_T s = false -> split_T_0 (s +:+ "T" +:+ rest) = s.
Proof.
  induction s as [|c s IH]; simpl; [reflexivity|].
  intros H. apply orb_false_iff in H as [Hc Hs].
  rewrite Hc. f_equal. now apply IH.
Qed.

Lemma has_T_app (s1 s2 : string) :
  has_T (s1 +:+ s2) = has_T s1 || has_T s2.
Proof.
  induction s1 as [|c s1 IH]; simpl; [reflexivity|].
  now rewrite IH, orb_assoc.
Qed.

Lemma digit_not_T n : Ascii.eqb (digit n) "T"%char = false.
Proof.
  unfold digit.
  assert (H : (Z.to_nat (n mod 10) < 10)%nat)
    by (pose proof (Z.mod_pos_bound n 10); lia).
  destruct (Z.to_nat (n mod 10)) as [|k]; [reflexivity|].
  do 9 (destruct k as [|k]; [reflexivity|]). lia.
Qed.

Lemma has_T_pad2 n : has_T (pad2 n) = false.
Proof. unfold pad2. cbn [has_T]. now rewrite !digit_not_T. Qed.

Lemma has_T_pad4 n : has_T (pad4 n) = false.
Proof. unfold pad4, pad3, pad2. cbn [has_T]. now rewrite !digit_not_T. Qed.

Lemma has_T_pad6 n : has_T (pad6 n) = false.
Proof. unfold pad6, pad4, pad3, pad2. cbn [has_T]. now rewrite !digit_not_T. Qed.

Lemma has_T_isoYear y : has_T (isoYear y) = false.
Proof.
  unfold isoYear. destruct ((0 <=? y) && (y <=? 9999)); [apply has_T_pad4|].
  destruct (y <? 0); cbn [has_T]; rewrite has_T_pad6; reflexivity.
Qed.

Lemma has_T_isoDatePart t : has_T (isoDatePart t) = false.
Proof.
  unfold isoDatePart. rewrite !has_T_app, has_T_isoYear, !has_T_pad2.
  reflexivity.
Qed.

Lemma split_T_0_toISOString t : split_T_0 (toISOString t) = isoDatePart t.
Proof. unfold toISOString. apply split_T_0_app, has_T_isoDatePart. Qed.

Lemma isoDatePart_Day t1 t2 : Day t1 = Day t2 -> isoDatePart t1 = isoDatePart t2.
Proof.
  intros H.
  assert (Hy : YearFromTime t1 = YearFromTime t2)
    by (unfold YearFromTime; now rewrite H).
  assert (Hl : InLeapYear t1 = InLeapYear t2)
    by (unfold InLeapYear; now rewrite Hy).
  assert (Hd : DayWithinYear t1 = DayWithinYear t2)
    by (unfold DayWithinYear; now rewrite H, Hy).
  assert (Hm : MonthFromTime t1 = MonthFromTime t2)
    by (unfold MonthFromTime; now rewrite Hd, Hl).
  unfold isoDatePart, DateFromTime. now rewrite Hy, Hm, Hd, Hl.
Qed.

(** The UTC day of a local midnight. *)
Lemma Day_midnight tza d :
  - msPerDay < tza <= msPerDay -> Day (midnight tza d) = d + utc_shift tza.
Proof.
  intros H. unfold midnight, UTC, MakeDate, MakeTime, utc_shift, Day, msPerDay in *.
  destruct (Z.ltb_spec 0 tza); Z.div_mod_to_equations; lia.
Qed.

Lemma dateStr_midnight tza d :
  - msPerDay < tza <= msPerDay ->
  split_T_0 (toISOString (midnight tza d)) = isoDate (d + utc_shift tza).
Proof.
  intros H. rewrite split_T_0_toISOString. apply isoDatePart_Day.
  now rewrite Day_midnight, Day_days.
Qed.

Lemma days_from_S s n : days_from s (S n) = s :: days_from (s + 1) n.
Proof.
  unfold days_from. simpl. rewrite Z.add_0_r. f_equal.
  rewrite <- seq_shift, map_map. apply map_ext. intros i. lia.
Qed.

Lemma days_from_app s n m :
  days_from s (n + m) = days_from s n ++ days_from (s + Z.of_nat n) m.
Proof.
  revert s. induction n as [|n IH]; intros s.
  - simpl. now rewrite Z.add_0_r.
  - change (S n + m)%nat with (S (n + m)). rewrite !days_from_S, IH.
    simpl. do 3 f_equal. lia.
Qed.

Section Grid.

Variable tza : Z.
Variable dataMap : gmap string Heatmap.entry.
Hypothesis tza_range : - msPerDay < tza <= msPerDay.

(** The loops of [renderHeatmapCalendar], run on local midnights. *)
Lemma render_cell_midnight d :
  Heatmap.render_cell dataMap (midnight tza d) = day_cell dataMap (d + utc_shift tza).
Proof.
  unfold Heatmap.render_cell, day_cell. rewrite dateStr_midnight by exact tza_range.
  destruct (dataMap !! isoDate (d + utc_shift tza)); reflexivity.
Qed.

Lemma week_midnight k d html :
  Heatmap.week tza dataMap k (midnight tza d) html =
    (midnight tza (d + Z.of_nat k),
     html ++ map (fun x => day_cell dataMap (x + utc_shift tza)) (days_from d k)).
Proof.
  revert d html. induction k as [|k IH]; intros d html.
  - simpl. now rewrite Z.add_0_r, app_nil_r.
  - cbn [Heatmap.week]. rewrite setDate_midnight, IH, days_from_S.
    rewrite render_cell_midnight. cbn [map]. rewrite <- app_assoc.
    f_equal. f_equal. lia.
Qed.

Lemma rewind_steps k : forall fuel d,
  (d + 3) mod 7 = Z.of_nat k -> (k < fuel)%nat ->
  Heatmap.rewind_to_monday tza fuel (midnight tza d) = Some (midnight tza (d - Z.of_nat k)).
Proof.
  induction k as [|k IH]; intros fuel d Hd Hfuel;
    (destruct fuel as [|fuel]; [lia|]); cbn [Heatmap.rewind_to_monday];
    rewrite getDay_midnight.
  - replace ((d + 4) mod 7) with 1 by (Z.div_mod_to_equations; lia).
    simpl. f_equal. f_equal. lia.
  - replace ((d + 4) mod 7 =? 1) with false
      by (symmetry; apply Z.eqb_neq; Z.div_mod_to_equations; lia).
    cbn [negb]. change (getDate tza (midnight tza d) - 1)
      with (getDate tza (midnight tza d) + -1).
    rewrite setDate_midnight, (IH fuel (d + -1)).
    + f_equal. f_equal. lia.
    + Z.div_mod_to_equations. lia.
    + lia.
Qed.

Lemma rewind_to_monday_midnight fuel d :
  (7 <= fuel)%nat ->
  Heatmap.rewind_to_monday tza fuel (midnight tza d)
    = Some (midnight tza (monday_on_or_before d)).
Proof.
  intros Hfuel. unfold monday_on_or_before.
  pose proof (Z.mod_pos_bound (d + 3) 7 ltac:(lia)) as Hr.
  rewrite (rewind_steps (Z.to_nat ((d + 3) mod 7))); try lia.
  f_equal. f_equal. lia.
Qed.

Variable year : Z.

Lemma weeks_midnight m : forall fuel c html wc,
  (m < fuel)%nat ->
  DayFromYear (year + 1) - 1 < c + 7 * Z.of_nat m ->
  (m <> 0%nat -> c + 7 * (Z.of_nat m - 1) <= DayFromYear (year + 1) - 1) ->
  Heatmap.weeks tza dataMap fuel year (midnight tza (DayFromYear (year + 1) - 1))
    (midnight tza c) html wc
  = Some (html ++ map (fun x => day_cell dataMap (x + utc_shift tza))
                    (days_from c (7 * m))).
Proof.
  induction m as [|m IH]; intros fuel c html wc Hfuel Hend Hlast;
    (destruct fuel as [|fuel]; [lia|]); cbn [Heatmap.weeks].
  - replace (midnight tza c <=? midnight tza (DayFromYear (year + 1) - 1))
      with false
      by (symmetry; apply Z.leb_gt; unfold midnight, UTC, MakeDate, msPerDay; lia).
    rewrite getFullYear_midnight.
    replace (YearFromDay c =? year) with false.
    + simpl. now rewrite app_nil_r.
    + symmetry. apply Z.eqb_neq.
      assert (year < YearFromDay c) by (apply YearFromDay_gt; lia). lia.
  - replace (midnight tza c <=? midnight tza (DayFromYear (year + 1) - 1))
      with true
      by (symmetry; apply Z.leb_le; unfold midnight, UTC, MakeDate, msPerDay; lia).
    cbn [orb]. rewrite (week_midnight 7 c html).
    rewrite getFullYear_midnight.
    replace (7 * S m)%nat with (7 + 7 * m)%nat by lia.
    rewrite days_from_app, map_app, app_assoc.
    destruct ((YearFromDay (c + Z.of_nat 7) >? year) && (wc + 1 >? 52)) eqn:Hbreak.
    + apply andb_true_iff in Hbreak as [Hy _].
      apply Z.gtb_lt in Hy. apply YearFromDay_gt in Hy.
      destruct m as [|m]; [|lia].
      simpl. now rewrite app_nil_r.
    + apply IH; lia.
Qed.

Lemma weeks_shown_bound : (53 <= weeks_shown year <= 54)%nat.
Proof.
  unfold weeks_shown, monday_on_or_before. rewrite DayFromYear_succ.
  pose proof (DaysInYear_cases year). Z.div_mod_to_equations. lia.
Qed.

Lemma grid_cells_midnight fuel :
  ~ (0 <= year <= 99) -> (55 <= fuel)%nat ->
  Heatmap.grid_cells tza dataMap fuel year =
    Some (map (fun x => day_cell dataMap (x + utc_shift tza))
            (days_from (monday_on_or_before (DayFromYear year))
               (7 * weeks_shown year))).
Proof.
  intros Hyear Hfuel. unfold Heatmap.grid_cells, Date_copy.
  rewrite Date_of_ymd_jan1, Date_of_ymd_dec31 by exact Hyear.
  rewrite rewind_to_monday_midnight by lia.
  pose proof weeks_shown_bound as Hb.
  rewrite (weeks_midnight (weeks_shown year)); [reflexivity|lia| |].
  - unfold weeks_shown. Z.div_mod_to_equations. lia.
  - intros _. unfold weeks_shown in *. Z.div_mod_to_equations. lia.
Qed.

End Grid.

(** The day made from a year, a month and a day of the month has these
    three as its fields, hence as its ISO date. *)
Lemma leapDay_cases y :
  (DaysInYear y = 365 /\ leapDay y = 0) \/ (DaysInYear y = 366 /\ leapDay y = 1).
Proof.
  unfold leapDay. destruct (DaysInYear_cases y) as [H|H]; rewrite H; auto.
Qed.

Lemma month_cases m :
  0 <= m <= 11 ->
  m = 0 \/ m = 1 \/ m = 2 \/ m = 3 \/ m = 4 \/ m = 5 \/ m = 6 \/ m = 7 \/
  m = 8 \/ m = 9 \/ m = 10 \/ m = 11.
Proof. lia. Qed.

Lemma MakeDay_in_year y m dd :
  0 <= m <= 11 -> 1 <= dd <= DaysInMonth y m ->
  MakeDay y m dd = DayFromYear y + monthStart m (leapDay y) + dd - 1 /\
  DayFromYear y <= MakeDay y m dd < DayFromYear (y + 1).
Proof.
  intros Hm Hd.
  assert (E : MakeDay y m dd = DayFromYear y + monthStart m (leapDay y) + dd - 1).
  { unfold MakeDay. rewrite Z.div_small, Z.mod_small by lia.
    rewrite Z.add_0_r. reflexivity. }
  split; [exact E|]. rewrite E, DayFromYear_succ.
  destruct (leapDay_cases y) as [[-> Hl]|[-> Hl]];
    destruct (month_cases m Hm) as [->|[->|[->|[->|[->|[->|[->|[->|[->|[->|[->| ->]]]]]]]]]]];
    cbn [DaysInMonth monthStart] in *; rewrite ?Hl in *; lia.
Qed.

Lemma fields_of_MakeDay y m dd :
  0 <= m <= 11 -> 1 <= dd <= DaysInMonth y m ->
  let t := MakeDay y m dd * msPerDay in
  YearFromTime t = y /\ MonthFromTime t = m /\ DateFromTime t = dd.
Proof.
  intros Hm Hd t.
  destruct (MakeDay_in_year y m dd Hm Hd) as [E Hin].
  assert (Hy : YearFromTime t = y).
  { unfold YearFromTime, t. rewrite Day_days. now apply YearFromDay_unique. }
  assert (Hl : InLeapYear t = leapDay y).
  { unfold InLeapYear, leapDay. now rewrite Hy. }
  assert (Hw : DayWithinYear t = monthStart m (leapDay y) + dd - 1).
  { unfold DayWithinYear. rewrite Hy. unfold t. rewrite Day_days. lia. }
  assert (Hmonth : MonthFromTime t = m).
  { unfold MonthFromTime. rewrite Hw, Hl.
    destruct (leapDay_cases y) as [[_ Hld]|[_ Hld]];
      destruct (month_cases m Hm) as [->|[->|[->|[->|[->|[->|[->|[->|[->|[->|[->| ->]]]]]]]]]]];
      cbn [DaysInMonth monthStart] in *; rewrite ?Hld in *; cbv zeta;
      repeat match goal with
        | |- context [?a <? ?b] =>
            destruct (Z.ltb_spec a b); try lia
        end; reflexivity. }
  split; [exact Hy|]. split; [exact Hmonth|].
  unfold DateFromTime. rewrite Hmonth, Hw, Hl. lia.
Qed.

Lemma isoDate_MakeDay y m dd :
  0 <= m <= 11 -> 1 <= dd <= DaysInMonth y m ->
  isoDate (MakeDay y m dd) = isoDate_of_ymd y m dd.
Proof.
  intros Hm Hd. destruct (fields_of_MakeDay y m dd Hm Hd) as (Hy & Hmo & Hda).
  unfold isoDate, isoDatePart, isoDate_of_ymd. now rewrite Hy, Hmo, Hda.
Qed.

(** ** The heatmap calendar *)

Lemma days_from_length s n : length (days_from s n) = n.
Proof. unfold days_from. now rewrite length_map, length_seq. Qed.

Lemma days_from_lookup s n i :
  (i < n)%nat -> days_from s n !! i = Some (s + Z.of_nat i).
Proof.
  intros Hi. unfold days_from. rewrite list_lookup_fmap.
  rewrite lookup_seq_lt by exact Hi. reflexivity.
Qed.

Lemma days_from_last s n :
  last (days_from s (S n)) = Some (s + Z.of_nat n).
Proof.
  rewrite last_lookup, days_from_length. simpl.
  apply days_from_lookup. lia.
Qed.

Lemma monday_on_or_before_spec d :
  (monday_on_or_before d + 4) mod 7 = 1 /\
  monday_on_or_before d <= d < monday_on_or_before d + 7.
Proof. unfold monday_on_or_before. Z.div_mod_to_equations. lia. Qed.

Lemma weeks_shown_spec year :
  let start := monday_on_or_before (DayFromYear year) in
  let dec31 := DayFromYear (year + 1) - 1 in
  start + 7 * Z.of_nat (weeks_shown year) - 7 <= dec31
    < start + 7 * Z.of_nat (weeks_shown year).
Proof.
  pose proof (weeks_shown_bound year) as Hb. cbv zeta.
  unfold weeks_shown in *. Z.div_mod_to_equations. lia.
Qed.

Lemma day_cell_date dataMap d :
  Heatmap.data_date (day_cell dataMap d) = isoDate d.
Proof. unfold day_cell. destruct (dataMap !! isoDate d); reflexivity. Qed.

Lemma day_cell_no_data dataMap d :
  dataMap !! isoDate d = None ->
  day_cell dataMap d =
    {| Heatmap.level := 0;
       Heatmap.data_date := isoDate d;
       Heatmap.data_tooltip := Heatmap.TooltipNoData (isoDate d) |}.
Proof. intros H. unfold day_cell. now rewrite H. Qed.

(** The grid on any host whose offset is within a day of UTC: the cells of
    the consecutive days from the Monday on or before January 1, moved by the
    UTC shift of the host, in whole weeks. *)
Lemma renderHeatmapCalendar_grid tza year fuel res :
  - msPerDay < tza <= msPerDay ->
  ~ (0 <= year <= 99) ->
  (55 <= fuel)%nat ->
  Heatmap.success res = true ->
  Heatmap.renderHeatmapCalendar fuel tza true year (Fulfilled res) =
    Some (Fulfilled (Some (Heatmap.Grid year
      (map (day_cell (Heatmap.build_dataMap (Heatmap.data res)))
         (days_from (monday_on_or_before (DayFromYear year) + utc_shift tza)
            (7 * weeks_shown year)))))).
Proof.
  intros Htza Hyear Hfuel Hsucc. unfold Heatmap.renderHeatmapCalendar.
  rewrite Hsucc. cbn [negb].
  rewrite grid_cells_midnight by assumption.
  do 4 f_equal. unfold days_from. rewrite !map_map.
  apply map_ext. intros i. f_equal. lia.
Qed.

(** ** Valid dates *)

Lemma TimeClip_valid t : Z.abs t <= maxTime -> TimeClip t = Some t.
Proof.
  intros H. unfold TimeClip.
  destruct (Z.leb_spec (Z.abs t) maxTime); [reflexivity|lia].
Qed.

Lemma DayFromYear_range y :
  -271820 <= y <= 275760 -> -99999744 <= DayFromYear y <= 99999744.
Proof. intros H. unfold DayFromYear. Z.div_mod_to_equations. lia. Qed.

(** Every local midnight of the years -271820 to 275759, and of the week
    before and the week after, is a valid time value on a host within a day
    of UTC: [TimeClip] leaves it as it is. *)
Lemma midnight_valid tza year d :
  - msPerDay <= tza <= msPerDay ->
  -271820 <= year <= 275759 ->
  DayFromYear year - 7 <= d <= DayFromYear (year + 1) + 7 ->
  TimeClip (midnight tza d) = Some (midnight tza d).
Proof.
  intros Htza Hyear Hd.
  pose proof (DayFromYear_range year ltac:(lia)) as H1.
  pose proof (DayFromYear_range (year + 1) ltac:(lia)) as H2.
  apply TimeClip_valid.
  unfold midnight, UTC, MakeDate, MakeTime, maxTime, msPerDay in *. lia.
Qed.

(** X1. The heatmap grid on a host of constant offset at or west of UTC, for
    a year from -271820 to 275759 outside 0-99: every date the loops make,
    from the Monday on or before January 1 on, is a valid one; the cells are
    those of the consecutive days from that Monday, in whole weeks that
    reach past December 31; every date of the year has its cell, dated
    YYYY-MM-DD, and a date without a fetched entry is a cell of level 0. *)
Theorem heatmap_grid_covers_year_west_of_utc
  (tza year : Z) (fuel : nat) (res : Heatmap.result) :
  - msPerDay < tza <= 0 ->
  -271820 <= year <= 275759 ->
  ~ (0 <= year <= 99) ->
  (55 <= fuel)%nat ->
  Heatmap.success res = true ->
  let dataMap := Heatmap.build_dataMap (Heatmap.data res) in
  let start := monday_on_or_before (DayFromYear year) in
  exists cells,
    Heatmap.renderHeatmapCalendar fuel tza true year (Fulfilled res)
      = Some (Fulfilled (Some (Heatmap.Grid year cells))) /\
    (forall d, start <= d <= start + 7 * Z.of_nat (weeks_shown year) ->
       TimeClip (midnight tza d) = Some (midnight tza d)) /\
    cells = map (day_cell dataMap) (days_from start (7 * weeks_shown year)) /\
    WeekDay (start * msPerDay) = 1 /\
    start <= DayFromYear year < start + 7 /\
    DayFromYear (year + 1) - 1 < start + 7 * Z.of_nat (weeks_shown year) /\
    (forall m dd,
        0 <= m <= 11 -> 1 <= dd <= DaysInMonth year m ->
        exists c,
          cells !! Z.to_nat (MakeDay year m dd - start) = Some c /\
          Heatmap.data_date c = isoDate_of_ymd year m dd /\
          (dataMap !! isoDate_of_ymd year m dd = None ->
           Heatmap.level c = 0)).
Proof.
  intros Htza Hrange Hyear Hfuel Hsucc dataMap start.
  destruct (monday_on_or_before_spec (DayFromYear year)) as [Hmon Hstart].
  destruct (weeks_shown_spec year) as [Hlast Hend].
  fold start in Hmon, Hstart, Hlast, Hend.
  eexists. split; [apply renderHeatmapCalendar_grid; try assumption; lia|].
  split; [intros d Hd; apply (midnight_valid tza year); lia|].
  assert (Hshift : utc_shift tza = 0).
  { unfold utc_shift. destruct (Z.ltb_spec 0 tza); [lia|reflexivity]. }
  rewrite Hshift, Z.add_0_r. fold start dataMap.
  split; [reflexivity|]. split.
  { unfold WeekDay. now rewrite Day_days. }
  split; [exact Hstart|]. split; [exact Hend|].
  intros m dd Hm Hdd.
  destruct (MakeDay_in_year year m dd Hm Hdd) as [_ Hin].
  exists (day_cell dataMap (MakeDay year m dd)).
  rewrite list_lookup_fmap, days_from_lookup by lia.
  rewrite day_cell_date, isoDate_MakeDay by assumption.
  split; [|split; [reflexivity|]].
  - cbn. do 2 f_equal. lia.
  - intros Hnone. rewrite <- (isoDate_MakeDay year m dd) in Hnone by assumption.
    now rewrite (day_cell_no_data _ _ Hnone).
Qed.

Lemma heatmap_grid_covers_year_west_of_utc_witness :
  exists cells,
    Heatmap.renderHeatmapCalendar 60 (-18000000) true 2024
      (Fulfilled no_heatmap_data)
      = Some (Fulfilled (Some (Heatmap.Grid 2024 cells))) /\
    length cells = 371%nat /\
    exists c,
      cells !! 59%nat = Some c /\
      Heatmap.data_date c = "2024-02-29" /\ Heatmap.level c = 0.
Proof.
  destruct (heatmap_grid_covers_year_west_of_utc (-18000000) 2024 60
              no_heatmap_data)
    as (cells & Hrender & _ & Hcells & _ & _ & _ & Hdates).
  - unfold msPerDay. lia.
  - lia.
  - lia.
  - lia.
  - reflexivity.
  - exists cells. split; [exact Hrender|]. split.
    + rewrite Hcells, length_map, days_from_length. reflexivity.
    + destruct (Hdates 1 29) as (c & Hc & Hdate & Hlevel).
      * lia.
      * vm_compute. split; discriminate.
      * exists c. split; [exact Hc|]. split; [exact Hdate|].
        apply Hlevel. reflexivity.
Defined.

(** X2. The heatmap grid on a host of constant offset east of UTC, for a
    year from -271820 to 275759 outside 0-99: every date the loops make,
    from the Monday on or before January 1 on, is a valid one, and every
    cell is dated one day early.  The first cell is the Sunday before the
    Monday on or before January 1, and in a year whose December 31 is a
    Sunday the last cell is dated December 30. *)
Theorem heatmap_grid_dated_a_day_early_east_of_utc
  (tza year : Z) (fuel : nat) (res : Heatmap.result) :
  0 < tza <= msPerDay ->
  -271820 <= year <= 275759 ->
  ~ (0 <= year <= 99) ->
  (55 <= fuel)%nat ->
  Heatmap.success res = true ->
  let dataMap := Heatmap.build_dataMap (Heatmap.data res) in
  let start := monday_on_or_before (DayFromYear year) in
  let dec31 := DayFromYear (year + 1) - 1 in
  exists cells,
    Heatmap.renderHeatmapCalendar fuel tza true year (Fulfilled res)
      = Some (Fulfilled (Some (Heatmap.Grid year cells))) /\
    (forall d, start <= d <= start + 7 * Z.of_nat (weeks_shown year) ->
       TimeClip (midnight tza d) = Some (midnight tza d)) /\
    cells = map (day_cell dataMap)
              (days_from (start - 1) (7 * weeks_shown year)) /\
    head cells = Some (day_cell dataMap (start - 1)) /\
    ((dec31 + 4) mod 7 = 0 ->
     last cells = Some (day_cell dataMap (dec31 - 1))).
Proof.
  intros Htza Hrange Hyear Hfuel Hsucc dataMap start dec31.
  destruct (weeks_shown_spec year) as [Hlo Hhi].
  destruct (monday_on_or_before_spec (DayFromYear year)) as [Hmon Hstart].
  fold start dec31 in Hlo, Hhi, Hmon, Hstart.
  pose proof (weeks_shown_bound year) as Hb.
  eexists. split; [apply renderHeatmapCalendar_grid; try assumption; lia|].
  split; [intros d Hd; apply (midnight_valid tza year); unfold dec31 in *; lia|].
  assert (Hshift : utc_shift tza = -1).
  { unfold utc_shift. destruct (Z.ltb_spec 0 tza); [reflexivity|lia]. }
  rewrite Hshift. fold start dataMap.
  change (start + -1) with (start - 1).
  split; [reflexivity|].
  destruct (weeks_shown year) as [|n] eqn:Hn; [lia|].
  replace (7 * S n)%nat with (S (7 * n + 6)) by lia.
  split.
  - rewrite days_from_S. reflexivity.
  - intros Hsunday. rewrite fmap_last, days_from_last. cbn. do 2 f_equal.
    Z.div_mod_to_equations. lia.
Qed.

Lemma heatmap_grid_dated_a_day_early_east_of_utc_witness :
  exists cells,
    Heatmap.renderHeatmapCalendar 60 utc_plus_0530 true 2023
      (Fulfilled no_heatmap_data)
      = Some (Fulfilled (Some (Heatmap.Grid 2023 cells))) /\
    Heatmap.data_date <$> last cells = Some "2023-12-30".
Proof.
  destruct (heatmap_grid_dated_a_day_early_east_of_utc utc_plus_0530 2023 60
              no_heatmap_data)
    as (cells & Hrender & _ & _ & _ & Hlast).
  - unfold utc_plus_0530, msPerDay. lia.
  - lia.
  - lia.
  - lia.
  - reflexivity.
  - exists cells. split; [exact Hrender|].
    rewrite Hlast by reflexivity. reflexivity.
Defined.


(** C2, at the year 2023 on a host at UTC+05:30.  The grid is rendered (371
    cells, 53 weeks), its first cell is dated 2022-12-25, a Sunday, its last
    cell 2023-12-30, and no cell is dated 2023-12-31: [toISOString] prints the
    UTC date of a local midnight, which east of Greenwich is the day
    before. *)
Theorem heatmap_2023_east_of_utc_misses_dec31 :
  exists cells,
    Heatmap.renderHeatmapCalendar 60 utc_plus_0530 true 2023
      (Fulfilled no_heatmap_data)
      = Some (Fulfilled (Some (Heatmap.Grid 2023 cells))) /\
    length cells = 371%nat /\
    hd_error (map Heatmap.data_date cells) = Some "2022-12-25" /\
    List.last (map Heatmap.data_date cells) "" = "2023-12-30" /\
    existsb (String.eqb "2023-12-31") (map Heatmap.data_date cells) = false.
Proof.
  eexists. split; [vm_compute; reflexivity|].
  vm_compute. repeat split.
Qed.

(** The same year on a host at UTC: the grid runs from Monday 2022-12-26 to
    Sunday 2023-12-31. *)
Example heatmap_2023_at_utc :
  exists cells,
    Heatmap.renderHeatmapCalendar 60 0 true 2023 (Fulfilled no_heatmap_data)
      = Some (Fulfilled (Some (Heatmap.Grid 2023 cells))) /\
    length cells = 371%nat /\
    hd_error (map Heatmap.data_date cells) = Some "2022-12-26" /\
    List.last (map Heatmap.data_date cells) "" = "2023-12-31".
Proof.
  eexists. split; [vm_compute; reflexivity|].
  vm_compute. repeat split.
Qed.

(** ** Printing integers *)

Lemma log2_lower (n k : Z) : 0 < k -> k <= n -> Z.log2 k <= Z.log2 n.
Proof. intros _ H. now apply Z.log2_le_mono. Qed.

Lemma String_of_int_one_digit (n : Z) :
  0 <= n <= 9 -> String_of_int n = String (digit n) "".
Proof.
  intros H. unfold String_of_int.
  destruct (Z.ltb_spec n 0); [lia|]. cbn [digits_of].
  destruct (Z.ltb_spec n 10); [reflexivity|lia].
Qed.

Lemma String_of_int_two_digits (n : Z) :
  10 <= n <= 99 -> String_of_int n = pad2 n.
Proof.
  intros H. unfold String_of_int.
  destruct (Z.ltb_spec n 0); [lia|].
  pose proof (log2_lower n 8 ltac:(lia) ltac:(lia)) as Hlog.
  change (Z.log2 8) with 3 in Hlog.
  destruct (Z.to_nat (Z.log2 n)) as [|fuel] eqn:Hf; [lia|].
  cbn [digits_of].
  destruct (Z.ltb_spec n 10); [lia|].
  destruct (Z.ltb_spec (n / 10) 10) as [_|Hge];
    [reflexivity | exfalso; Z.div_mod_to_equations; lia].
Qed.

Lemma String_of_int_four_digits (n : Z) :
  1000 <= n <= 9999 -> String_of_int n = pad4 n.
Proof.
  intros H. unfold String_of_int.
  destruct (Z.ltb_spec n 0); [lia|].
  pose proof (log2_lower n 512 ltac:(lia) ltac:(lia)) as Hlog.
  change (Z.log2 512) with 9 in Hlog.
  destruct (Z.to_nat (Z.log2 n)) as [|[|[|fuel]]] eqn:Hf; try lia.
  cbn [digits_of].
  destruct (Z.ltb_spec n 10); [lia|].
  destruct (Z.ltb_spec (n / 10) 10);
    [exfalso; Z.div_mod_to_equations; lia|].
  destruct (Z.ltb_spec (n / 10 / 10) 10);
    [exfalso; Z.div_mod_to_equations; lia|].
  destruct (Z.ltb_spec (n / 10 / 10 / 10) 10);
    [|exfalso; Z.div_mod_to_equations; lia].
  unfold pad4, pad3, pad2.
  rewrite !Z.div_div by lia. reflexivity.
Qed.

Lemma digit_small (n : Z) : 0 <= n <= 9 -> digit (n / 10) = "0"%char.
Proof.
  intros H. rewrite Z.div_small by lia. reflexivity.
Qed.

Lemma padStart_2_digits (n : Z) :
  0 <= n <= 99 -> padStart 2 "0" (String_of_int n) = pad2 n.
Proof.
  intros H. destruct (Z.le_gt_cases n 9) as [Hs|Hb].
  - rewrite String_of_int_one_digit by lia. unfold pad2.
    rewrite digit_small by lia. reflexivity.
  - rewrite String_of_int_two_digits by lia. reflexivity.
Qed.

(** ** Date utilities *)

Lemma LocalTime_Date_of_ymd tza year month date :
  ~ (0 <= year <= 99) ->
  LocalTime tza (Date_of_ymd tza year month date)
    = MakeDay year month date * msPerDay.
Proof.
  intros H. unfold Date_of_ymd, LocalTime, UTC, MakeDate, MakeTime.
  replace ((0 <=? year) && (year <=? 99)) with false
    by (symmetry; apply andb_false_iff; lia).
  lia.
Qed.

Lemma DaysInMonth_range y m : 28 <= DaysInMonth y m <= 31.
Proof.
  unfold DaysInMonth.
  destruct (leapDay_cases y) as [[_ ->]|[_ ->]];
    repeat (match goal with |- context [match ?x with _ => _ end] =>
              destruct x end); lia.
Qed.

(** The fields [DateUtils.format] prints are those of the local time. *)
Lemma format_local tza loc t fmt :
  fmt <> "display" ->
  1000 <= YearFromTime (LocalTime tza t) <= 9999 ->
  1 <= DateFromTime (LocalTime tza t) <= 31 ->
  DateUtils.format tza loc t fmt = isoDatePart (LocalTime tza t).
Proof.
  intros Hfmt Hy Hd. unfold DateUtils.format, DateUtils.getMonth, Date_copy,
    getFullYear, getDate.
  pose proof (MonthFromTime_range (LocalTime tza t)) as Hm.
  rewrite String_of_int_four_digits by exact Hy.
  rewrite !padStart_2_digits by lia.
  apply String.eqb_neq in Hfmt. rewrite Hfmt.
  unfold isoDatePart, isoYear.
  replace ((0 <=? YearFromTime (LocalTime tza t))
           && (YearFromTime (LocalTime tza t) <=? 9999)) with true
    by (symmetry; apply andb_true_iff; lia).
  destruct (String.eqb fmt "YYYY-MM-DD"); reflexivity.
Qed.

(** X4. [DateUtils.format] of the date made from a year (1000 to 9999), a
    month and a day of that month is [YYYY-MM-DD] of these three, whatever
    the time zone offset of the host, and for every format name but
    ['display']. *)
Theorem DateUtils_format_round_trip
  (tza : Z) (loc : Z -> string) (y m dd : Z) (fmt : string) :
  1000 <= y <= 9999 ->
  0 <= m <= 11 ->
  1 <= dd <= DaysInMonth y m ->
  fmt <> "display" ->
  DateUtils.format tza loc (Date_of_ymd tza y m dd) fmt
    = isoDate_of_ymd y m dd.
Proof.
  intros Hy Hm Hd Hfmt.
  destruct (fields_of_MakeDay y m dd Hm Hd) as (Fy & Fm & Fd).
  pose proof (DaysInMonth_range y m) as Hr.
  assert (Hl : LocalTime tza (Date_of_ymd tza y m dd) = MakeDay y m dd * msPerDay)
    by (apply LocalTime_Date_of_ymd; lia).
  rewrite format_local; rewrite ?Hl, ?Fy, ?Fd; try lia; try assumption.
  fold (isoDate (MakeDay y m dd)). now apply isoDate_MakeDay.
Qed.

Lemma DateUtils_format_round_trip_witness :
  DateUtils.format 19800000 (fun _ => "") (Date_of_ymd 19800000 2024 1 29)
    "YYYY-MM-DD" = "2024-02-29".
Proof.
  apply (DateUtils_format_round_trip 19800000 (fun _ => "") 2024 1 29).
  - lia.
  - lia.
  - vm_compute. split; discriminate.
  - discriminate.
Defined.

Lemma monthStart_next y m :
  0 <= m <= 10 ->
  monthStart (m + 1) (leapDay y) = monthStart m (leapDay y) + DaysInMonth y m.
Proof.
  intros Hm. unfold DaysInMonth. generalize (leapDay y) as l. intros l.
  destruct (month_cases m ltac:(lia))
    as [->|[->|[->|[->|[->|[->|[->|[->|[->|[->|[->| ->]]]]]]]]]]];
    try lia; simpl; lia.
Qed.

(** Day 0 of the next month is the last day of the month. *)
Lemma MakeDay_day_0 y m :
  0 <= m <= 11 -> MakeDay y (m + 1) 0 = MakeDay y m (DaysInMonth y m).
Proof.
  intros Hm. pose proof (DaysInMonth_range y m) as Hr.
  destruct (MakeDay_in_year y m (DaysInMonth y m) Hm ltac:(lia)) as [-> _].
  destruct (Z.eq_dec m 11) as [->|Hne].
  - unfold MakeDay. cbv zeta. change ((11 + 1) / 12) with 1.
    change ((11 + 1) mod 12) with 0. rewrite DayFromYear_succ.
    cbn [monthStart DaysInMonth].
    destruct (leapDay_cases y) as [[-> ->]|[-> ->]]; lia.
  - unfold MakeDay. cbv zeta. rewrite Z.div_small, Z.mod_small by lia.
    rewrite !Z.add_0_r. fold (leapDay y). rewrite monthStart_next by lia. lia.
Qed.

(** X5. On a host of constant offset within a day of UTC, for a year from
    -271820 to 275759 and a month from 0 to 11, the date that
    [DateUtils.getDaysInMonth(year, month)] makes is a valid one and the
    result is the number of days of the month of the year, 29 for February
    in leap years, the same for every such offset; a year from 0 to 99
    stands for 1900 + year. *)
Theorem DateUtils_getDaysInMonth_correct (tza year month : Z) :
  - msPerDay < tza < msPerDay ->
  -271820 <= year <= 275759 ->
  0 <= month <= 11 ->
  let yr := if (0 <=? year) && (year <=? 99) then 1900 + year else year in
  TimeClip (Date_of_ymd tza year (month + 1) 0)
    = Some (Date_of_ymd tza year (month + 1) 0) /\
  DateUtils.getDaysInMonth tza year month = DaysInMonth yr month /\
  28 <= DateUtils.getDaysInMonth tza year month <= 31.
Proof.
  intros Htza Hyear Hm yr. pose proof (DaysInMonth_range yr month) as Hr.
  assert (Hyr : -271820 <= yr <= 275759).
  { unfold yr. destruct ((0 <=? year) && (year <=? 99)) eqn:E; [|lia].
    apply andb_true_iff in E as [E1 E2]. lia. }
  split.
  { unfold Date_of_ymd. fold yr.
    change (UTC tza (MakeDate (MakeDay yr (month + 1) 0) (MakeTime 0 0 0 0)))
      with (midnight tza (MakeDay yr (month + 1) 0)).
    rewrite MakeDay_day_0 by lia.
    destruct (MakeDay_in_year yr month (DaysInMonth yr month) Hm
                ltac:(lia)) as [_ Hin].
    apply (midnight_valid tza yr); lia. }
  assert (E : DateUtils.getDaysInMonth tza year month = DaysInMonth yr month).
  { unfold DateUtils.getDaysInMonth, getDate, Date_of_ymd. fold yr.
    replace (LocalTime tza (UTC tza (MakeDate (MakeDay yr (month + 1) 0)
                                       (MakeTime 0 0 0 0))))
      with (MakeDay yr month (DaysInMonth yr month) * msPerDay)
      by (rewrite MakeDay_day_0 by lia;
          unfold LocalTime, UTC, MakeDate, MakeTime; lia).
    now destruct (fields_of_MakeDay yr month (DaysInMonth yr month) Hm
                    ltac:(lia)) as (_ & _ & ->). }
  rewrite E. split; [reflexivity|exact Hr].
Qed.

Lemma DateUtils_getDaysInMonth_correct_witness :
  DateUtils.getDaysInMonth (-18000000) 2024 1 = 29 /\
  DateUtils.getDaysInMonth 19800000 2023 1 = 28.
Proof.
  split.
  - apply (DateUtils_getDaysInMonth_correct (-18000000) 2024 1);
      unfold msPerDay; lia.
  - apply (DateUtils_getDaysInMonth_correct 19800000 2023 1);
      unfold msPerDay; lia.
Defined.

(** ** The CSV export *)

(** [setDate(getDate() + k)] moves any date by [k] days, on a host of
    constant offset. *)
Lemma setDate_add_days tza t k :
  setDate tza t (getDate tza t + k) = t + k * msPerDay.
Proof.
  unfold setDate, getDate. rewrite MakeDay_DateFromTime.
  unfold UTC, MakeDate, LocalTime, Day, TimeWithinDay, msPerDay.
  Z.div_mod_to_equations. lia.
Qed.

Lemma dateStr_of_time t : split_T_0 (toISOString t) = isoDate (Day t).
Proof.
  rewrite split_T_0_toISOString. apply isoDatePart_Day.
  now rewrite Day_days.
Qed.

Lemma Day_add_days t k : Day (t + k * msPerDay) = Day t + k.
Proof. unfold Day, msPerDay. now rewrite Z.div_add. Qed.

Lemma setDate_at_add_days (z : zone) t k :
  setDate_at z t (getDate_at z t + k)
    = TimeClip (UTC_at z (LocalTime_at z t + k * msPerDay)).
Proof.
  unfold setDate_at, getDate_at. rewrite MakeDay_DateFromTime.
  f_equal. unfold UTC_at. f_equal; [|f_equal];
    unfold MakeDate, Day, TimeWithinDay, msPerDay;
    Z.div_mod_to_equations; lia.
Qed.

(** X6. The range [exportToCSV] asks for, on a host whose offset from UTC
    may change (daylight saving) but stays within a day, at clock readings
    more than 32 days after the earliest time value: the end date is the
    UTC date of the first reading; the start date is the UTC date of the
    instant that shows the same local time of day 30 local days before the
    second reading, which is the UTC date 30 days before the reading when
    the offset is the same at both; a downloaded file is named after the
    end date.  On a host of constant offset this is the URL of
    [CsvExport.exportToCSV]. *)
Theorem exportToCSV_date_range
  (z : zone) (exportBtn : bool) (endNow startNow : Z)
  (fetched : settled CsvExport.result) :
  (forall t isUTC, Z.abs (z t isUTC) < msPerDay) ->
  Z.abs endNow <= maxTime ->
  - maxTime + 32 * msPerDay <= startNow <= maxTime ->
  let out := CsvExport.exportToCSV_on z exportBtn endNow startNow fetched in
  let moved := LocalTime_at z startNow - 30 * msPerDay in
  CsvExport.requested_on out =
    Some ("/api/analytics/export-data?start_date="
            +:+ isoDate (Day (UTC_at z moved))
            +:+ "&end_date=" +:+ isoDate (Day endNow)) /\
  (z moved false = z startNow true ->
   Day (UTC_at z moved) = Day startNow - 30) /\
  (forall tza, z = fixed_zone tza ->
     CsvExport.requested_on out =
       Some (CsvExport.requested
               (CsvExport.exportToCSV tza exportBtn endNow startNow
                  fetched))) /\
  (forall name csv,
      CsvExport.download_on out = Some (name, csv) ->
      name = "lifesync-export-" +:+ isoDate (Day endNow) +:+ ".csv").
Proof.
  intros Hz Hend Hstart out moved.
  assert (Hclip : setDate_at z startNow (getDate_at z startNow - 30)
                  = Some (UTC_at z moved)).
  { change (getDate_at z startNow - 30) with (getDate_at z startNow + -30).
    rewrite setDate_at_add_days.
    change (LocalTime_at z startNow + -30 * msPerDay) with moved.
    apply TimeClip_valid. unfold UTC_at, moved, LocalTime_at.
    pose proof (Hz startNow true) as H1.
    pose proof (Hz (startNow + z startNow true - 30 * msPerDay) false) as H2.
    unfold maxTime, msPerDay in *. lia. }
  assert (Hurl : CsvExport.requested_on out =
            Some ("/api/analytics/export-data?start_date="
                    +:+ isoDate (Day (UTC_at z moved))
                    +:+ "&end_date=" +:+ isoDate (Day endNow))).
  { unfold out, CsvExport.exportToCSV_on, CsvExport.export_try_on.
    rewrite Hclip, !dateStr_of_time.
    destruct fetched as [r|e]; [destruct (CsvExport.success r)|];
      reflexivity. }
  split; [exact Hurl|]. split; [|split].
  - intros Hsame. unfold UTC_at. rewrite Hsame. unfold moved, LocalTime_at.
    replace (startNow + z startNow true - 30 * msPerDay - z startNow true)
      with (startNow + -30 * msPerDay) by lia.
    rewrite Day_add_days. lia.
  - intros tza ->. rewrite Hurl. f_equal.
    unfold CsvExport.exportToCSV, CsvExport.export_try.
    change (getDate tza startNow - 30) with (getDate tza startNow + -30).
    rewrite setDate_add_days, !dateStr_of_time.
    replace (UTC_at (fixed_zone tza) moved) with (startNow + -30 * msPerDay)
      by (unfold UTC_at, moved, LocalTime_at, fixed_zone; lia).
    destruct fetched as [r|e]; [destruct (CsvExport.success r)|];
      reflexivity.
  - intros name csv. unfold out, CsvExport.exportToCSV_on,
      CsvExport.export_try_on. rewrite Hclip, !dateStr_of_time.
    destruct fetched as [r|e]; [destruct (CsvExport.success r)|]; simpl;
      intros H; try discriminate.
    now injection H as <- _.
Qed.

Lemma exportToCSV_date_range_witness :
  CsvExport.requested_on
    (CsvExport.exportToCSV_on new_york_2025 true march_20_2025_2330
       march_20_2025_2330 (Fulfilled sample_export))
  = Some "/api/analytics/export-data?start_date=2025-02-19&end_date=2025-03-20".
Proof.
  destruct (exportToCSV_date_range new_york_2025 true march_20_2025_2330
              march_20_2025_2330 (Fulfilled sample_export)) as [H _].
  - intros t isUTC. unfold new_york_2025. cbv zeta.
    destruct isUTC;
      match goal with
      | |- context [if ?c then _ else _] => destruct c
      end; vm_compute; reflexivity.
  - vm_compute. discriminate.
  - vm_compute. split; discriminate.
  - rewrite H. vm_compute. reflexivity.
Defined.

(** X7. [exportToCSV] ends with the button enabled and exactly one toast shown,
    whatever the request did: the success toast with a download when the
    response succeeded, the failure toast without a download when it did
    not, and the toast of the [catch] clause, carrying the error, when the
    request was rejected. *)
Theorem exportToCSV_always_settles
  (tza : Z) (exportBtn : bool) (endNow startNow : Z)
  (fetched : settled CsvExport.result) :
  let out := CsvExport.exportToCSV tza exportBtn endNow startNow fetched in
  CsvExport.button_disabled out = (if exportBtn then Some false else None) /\
  length (CsvExport.toasts out) = 1%nat /\
  match fetched with
  | Rejected e =>
      CsvExport.toasts out = [CsvExport.ToastExportFailed e] /\
      CsvExport.download out = None
  | Fulfilled r =>
      if CsvExport.success r then
        CsvExport.toasts out
          = [CsvExport.ToastSuccess "CSV exported successfully!"] /\
        exists name,
          CsvExport.download out = Some (name, CsvExport.build_csv r)
      else
        CsvExport.toasts out
          = [CsvExport.ToastError "Failed to export data"] /\
        CsvExport.download out = None
  end.
Proof.
  cbv zeta. unfold CsvExport.exportToCSV, CsvExport.export_try.
  destruct fetched as [r|e]; [destruct (CsvExport.success r)|]; simpl;
    destruct exportBtn; repeat split; eauto.
Qed.

Lemma string_app_nil_r (s : string) : s +:+ "" = s.
Proof.
  induction s as [|c s IH]; [reflexivity|].
  change (String c s +:+ "") with (String c (s +:+ "")). now f_equal.
Qed.

Lemma string_app_assoc (s1 s2 s3 : string) :
  s1 +:+ (s2 +:+ s3) = (s1 +:+ s2) +:+ s3.
Proof.
  induction s1 as [|c s1 IH]; [reflexivity|].
  change (String c (s1 +:+ (s2 +:+ s3)) = String c ((s1 +:+ s2) +:+ s3)).
  now f_equal.
Qed.

Lemma concat_cons (x : string) (l : list string) :
  String.concat "" (x :: l) = x +:+ String.concat "" l.
Proof.
  destruct l as [|y l]; cbn [String.concat].
  - now rewrite string_app_nil_r.
  - reflexivity.
Qed.

Lemma fold_left_append {A : Type} (f : A -> string) (l : list A) (acc : string) :
  fold_left (fun csv x => csv +:+ f x) l acc
    = acc +:+ String.concat "" (map f l).
Proof.
  revert acc. induction l as [|x l IH]; intros acc; cbn [fold_left map].
  - cbn [String.concat]. now rewrite string_app_nil_r.
  - now rewrite IH, concat_cons, string_app_assoc.
Qed.

Lemma count_char_app c s1 s2 :
  count_char c (s1 +:+ s2) = (count_char c s1 + count_char c s2)%nat.
Proof.
  induction s1 as [|a s1 IH]; [reflexivity|].
  change (String a s1 +:+ s2) with (String a (s1 +:+ s2)).
  cbn [count_char]. rewrite IH. lia.
Qed.

Lemma count_lines_concat {A : Type} (f : A -> string) (l : list A) :
  (forall x, In x l -> count_lines (f x) = 1%nat) ->
  count_lines (String.concat "" (map f l)) = length l.
Proof.
  unfold count_lines. induction l as [|x l IH]; intros H; [reflexivity|].
  cbn [map length]. rewrite concat_cons, count_char_app.
  rewrite (H x) by now left. rewrite IH; [reflexivity|].
  intros y Hy. apply H. now right.
Qed.

Lemma habit_line_one (log : CsvExport.habit_log) :
  one_line (CsvExport.log_date log) ->
  one_line (CsvExport.habit_name log) ->
  one_line (CsvExport.log_status log) ->
  count_lines (CsvExport.habit_line log) = 1%nat.
Proof.
  unfold one_line, count_lines, CsvExport.habit_line. intros H1 H2 H3.
  rewrite !count_char_app, H1, H2, H3. reflexivity.
Qed.

Lemma task_line_one (t : CsvExport.task) :
  one_line (CsvExport.task_date t) ->
  one_line (CsvExport.title t) ->
  one_line (CsvExport.task_status t) ->
  one_line (CsvExport.priority t) ->
  count_lines (CsvExport.task_line t) = 1%nat.
Proof.
  unfold one_line, count_lines, CsvExport.task_line. intros H1 H2 H3 H4.
  rewrite !count_char_app, H1, H2, H3, H4. reflexivity.
Qed.

(** X8. The exported file is the header line, then one line per habit log in
    the order of the response, then one line per task in the order of the
    response; when no field holds a line feed it has exactly one line per
    row plus the header. *)
Theorem exportToCSV_file_rows (r : CsvExport.result) :
  CsvExport.build_csv r =
    CsvExport.csv_header
      +:+ String.concat "" (map CsvExport.habit_line (CsvExport.habit_logs r))
      +:+ String.concat "" (map CsvExport.task_line (CsvExport.tasks r)) /\
  ((forall log, In log (CsvExport.habit_logs r) ->
      one_line (CsvExport.log_date log) /\
      one_line (CsvExport.habit_name log) /\
      one_line (CsvExport.log_status log)) ->
   (forall t, In t (CsvExport.tasks r) ->
      one_line (CsvExport.task_date t) /\ one_line (CsvExport.title t) /\
      one_line (CsvExport.task_status t) /\ one_line (CsvExport.priority t)) ->
   count_lines (CsvExport.build_csv r) =
     (1 + length (CsvExport.habit_logs r) + length (CsvExport.tasks r))%nat).
Proof.
  assert (E : CsvExport.build_csv r =
    CsvExport.csv_header
      +:+ String.concat "" (map CsvExport.habit_line (CsvExport.habit_logs r))
      +:+ String.concat "" (map CsvExport.task_line (CsvExport.tasks r))).
  { unfold CsvExport.build_csv. now rewrite !fold_left_append. }
  split; [exact E|]. intros Hlogs Htasks. rewrite E.
  unfold count_lines. rewrite !count_char_app.
  fold (count_lines (String.concat ""
          (map CsvExport.habit_line (CsvExport.habit_logs r)))).
  fold (count_lines (String.concat ""
          (map CsvExport.task_line (CsvExport.tasks r)))).
  rewrite !count_lines_concat.
  - reflexivity.
  - intros t Ht. destruct (Htasks t Ht) as (H1 & H2 & H3 & H4).
    now apply task_line_one.
  - intros log Hl. destruct (Hlogs log Hl) as (H1 & H2 & H3).
    now apply habit_line_one.
Qed.

Lemma exportToCSV_file_rows_witness :
  count_lines (CsvExport.build_csv sample_export) = 4%nat.
Proof.
  apply (proj2 (exportToCSV_file_rows sample_export)).
  - intros log Hlog. repeat (destruct Hlog as [<-|Hlog]; [repeat split|]).
    destruct Hlog.
  - intros t Ht. repeat (destruct Ht as [<-|Ht]; [repeat split|]).
    destruct Ht.
Defined.

(** ** The habit strength list *)

Lemma fold_left_snoc_map {A B : Type} (f : A -> B) (l : list A) (acc : list B) :
  fold_left (fun html x => html ++ [f x]) l acc = acc ++ map f l.
Proof.
  revert acc. induction l as [|x l IH]; intros acc; simpl.
  - now rewrite app_nil_r.
  - rewrite IH, <- app_assoc. reflexivity.
Qed.

Lemma scoreColor_finite (q : Q) :
  ((70 <= q)%Q /\ HabitStrength.scoreColor (Num q) = "success") \/
  ((q < 70)%Q /\ (40 <= q)%Q /\ HabitStrength.scoreColor (Num q) = "warning") \/
  ((q < 40)%Q /\ HabitStrength.scoreColor (Num q) = "error").
Proof.
  unfold HabitStrength.scoreColor, num_ge, of_Z.
  destruct (num_le_Num_cases (inject_Z 70) q) as [[-> H1]|[-> H1]];
    [left; split; [exact H1|reflexivity]|].
  destruct (num_le_Num_cases (inject_Z 40) q) as [[-> H2]|[-> H2]];
    [right; left; repeat split; assumption|].
  right; right. split; [assumption|reflexivity].
Qed.

(** X9. For a successful response with at least one habit,
    [renderHabitStrength] shows one item per habit, all of them and in the
    order of the response, each with the habit's own numbers; the badge is
    [success] from a score of 70, [warning] from 40 to below 70 and [error]
    below 40 (and for a score that is not a number). *)
Theorem habit_strength_lists_every_habit :
  (forall res : HabitStrength.result,
      HabitStrength.success res = true ->
      HabitStrength.habits res <> [] ->
      exists items,
        HabitStrength.renderHabitStrength true (Fulfilled res)
          = Fulfilled (Some (HabitStrength.StrengthList items)) /\
        length items = length (HabitStrength.habits res) /\
        (forall i,
            items !! i =
              HabitStrength.render_item <$> (HabitStrength.habits res !! i)))
  /\
  (forall q : Q,
      ((70 <= q)%Q -> HabitStrength.scoreColor (Num q) = "success") /\
      ((40 <= q)%Q /\ (q < 70)%Q ->
       HabitStrength.scoreColor (Num q) = "warning") /\
      ((q < 40)%Q -> HabitStrength.scoreColor (Num q) = "error")) /\
  HabitStrength.scoreColor NaN = "error".
Proof.
  split; [|split; [|reflexivity]].
  - intros res Hs Hne.
    exists (map HabitStrength.render_item (HabitStrength.habits res)).
    unfold HabitStrength.renderHabitStrength. rewrite Hs. cbn [negb].
    destruct (HabitStrength.habits res) as [|h rest] eqn:Hh; [contradiction|].
    cbn [length Nat.eqb]. rewrite fold_left_snoc_map. cbn [app].
    split; [reflexivity|]. split; [now rewrite length_map|].
    intros i. now rewrite list_lookup_fmap.
  - intros q.
    destruct (scoreColor_finite q) as [[H ->]|[[H1 [H2 ->]]|[H ->]]];
      repeat split; intros; try reflexivity; exfalso; qlra.
Qed.

Lemma habit_strength_lists_every_habit_witness :
  exists items,
    HabitStrength.renderHabitStrength true (Fulfilled sample_habits)
      = Fulfilled (Some (HabitStrength.StrengthList items)) /\
    HabitStrength.badge <$> items = ["success"; "error"].
Proof.
  destruct (proj1 habit_strength_lists_every_habit sample_habits)
    as (items & Hr & _ & _).
  - reflexivity.
  - discriminate.
  - exists items. split; [exact Hr|].
    vm_compute in Hr. injection Hr as <-. reflexivity.
Defined.

(** ** Authentication helpers *)

Lemma check_of_request (fetched : settled API.response) :
  Auth.check fetched =
    match snd (API.request fetched) with
    | Rejected e => Rejected e
    | Fulfilled result => API.get_prop result "authenticated"
    end.
Proof. reflexivity. Qed.

Lemma request_json_ok (r : API.response) (ct : string) (data : json) :
  API.content_type r = Some ct ->
  ct <> "" ->
  API.indexOf ct "application/json" <> -1 ->
  API.json_body r = Some data ->
  API.ok r = true ->
  API.request (Fulfilled r) = ([], Fulfilled data).
Proof.
  intros Hct Hne Hidx Hbody Hok.
  unfold API.request, API.request_try. rewrite Hct, Hbody, Hok.
  apply String.eqb_neq in Hne. rewrite Hne.
  apply Z.eqb_neq in Hidx. rewrite Hidx. reflexivity.
Qed.

(** X10. [Auth.requireAuth] sends the visitor to ['/'] only when the check
    was answered: an ok JSON answer gives [true] without navigation when its
    [authenticated] is truthy, and [false] with a navigation to ['/']
    otherwise.  When the request fails - [fetch] fails, the answer is not
    JSON, or it is not ok and carries no truthy [success] - the promise
    rejects and the window is left as it is. *)
Theorem requireAuth_redirects_only_on_answer :
  (forall (r : API.response) (ct : string) (fields : list (string * json))
          (w : Auth.window),
      API.content_type r = Some ct ->
      ct <> "" ->
      API.indexOf ct "application/json" <> -1 ->
      API.json_body r = Some (JObject fields) ->
      API.ok r = true ->
      Auth.requireAuth (Fulfilled r) w =
        if API.truthy (API.lookup_field "authenticated" fields)
        then (w, Fulfilled true)
        else (Auth.navigate "/" w, Fulfilled false)) /\
  (forall (r : API.response) (w : Auth.window),
      (API.content_type r = None \/
       (exists ct, API.content_type r = Some ct /\
                   API.indexOf ct "application/json" = -1)) \/
      (API.ok r = false /\
       (forall data, API.json_body r = Some data ->
                     API.truthy (API.success_of data) = false)) ->
      exists e, Auth.requireAuth (Fulfilled r) w = (w, Rejected e)) /\
  (forall (e : js_error) (w : Auth.window),
      Auth.requireAuth (Rejected e) w = (w, Rejected e)).
Proof.
  split; [|split].
  - intros r ct fields w Hct Hne Hidx Hbody Hok.
    unfold Auth.requireAuth. rewrite check_of_request.
    rewrite (request_json_ok r ct (JObject fields)) by assumption.
    cbn [snd API.get_prop].
    destruct (API.truthy (API.lookup_field "authenticated" fields));
      reflexivity.
  - intros r w H.
    assert (Hrej : exists e, snd (API.request (Fulfilled r)) = Rejected e).
    { destruct H as [Hct|[Hok Hsucc]].
      - eexists. apply request_rethrows. now apply request_try_not_json.
      - destruct (request_try_json_failure r Hok Hsucc) as [e He].
        exists e. now apply request_rethrows. }
    destruct Hrej as [e He]. exists e.
    unfold Auth.requireAuth. rewrite check_of_request, He. reflexivity.
  - intros e w. reflexivity.
Qed.

Lemma requireAuth_redirects_only_on_answer_witness :
  Auth.requireAuth
    (Fulfilled (json_response true
                  (JObject [("authenticated", JBool false)])))
    signed_in_window
  = (Auth.navigate "/" signed_in_window, Fulfilled false) /\
  exists e,
    Auth.requireAuth
      (Fulfilled (json_response false
                    (JObject [("authenticated", JBool false)])))
      signed_in_window
    = (signed_in_window, Rejected e).
Proof.
  destruct requireAuth_redirects_only_on_answer as (Hok & Hfail & _).
  split.
  - apply (Hok _ "application/json" [("authenticated", JBool false)]);
      reflexivity || discriminate.
  - apply Hfail. right. split; [reflexivity|].
    intros data Hd. injection Hd as <-. reflexivity.
Defined.

(** X11. [Auth.logout] clears the session only when the logout request
    succeeded: then the ['user'] entry of [localStorage] and the
    ['introShown'] entry of [sessionStorage] are gone, every other entry is
    kept, and the window is at ['/'].  When the request is rejected the
    promise rejects with that error and the window is left as it is, the
    user entry included. *)
Theorem logout_clears_session_on_success
  (fetched : settled API.response) (w : Auth.window) :
  (forall data,
      snd (API.request fetched) = Fulfilled data ->
      let w' := fst (Auth.logout fetched w) in
      snd (Auth.logout fetched w) = Fulfilled tt /\
      Auth.localStorage w' !! "user" = None /\
      Auth.sessionStorage w' !! "introShown" = None /\
      Auth.location_href w' = "/" /\
      (forall k, k <> "user" ->
         Auth.localStorage w' !! k = Auth.localStorage w !! k) /\
      (forall k, k <> "introShown" ->
         Auth.sessionStorage w' !! k = Auth.sessionStorage w !! k)) /\
  (forall e,
      snd (API.request fetched) = Rejected e ->
      Auth.logout fetched w = (w, Rejected e)).
Proof.
  split.
  - intros data H. cbv zeta. unfold Auth.logout. rewrite H. cbn.
    repeat split.
    + apply lookup_delete_eq.
    + apply lookup_delete_eq.
    + intros k Hk. now apply lookup_delete_ne.
    + intros k Hk. now apply lookup_delete_ne.
  - intros e H. unfold Auth.logout. now rewrite H.
Qed.

Lemma logout_clears_session_on_success_witness :
  Auth.localStorage
    (fst (Auth.logout (Fulfilled json_success) signed_in_window)) !! "user"
    = None /\
  Auth.localStorage
    (fst (Auth.logout (Fulfilled json_success) signed_in_window))
      !! "lifesync-theme" = Some "light" /\
  Auth.logout (Fulfilled html_error_page) signed_in_window
    = (signed_in_window,
       Rejected (Error "Server error: Received non-JSON response")).
Proof.
  destruct (logout_clears_session_on_success (Fulfilled json_success)
              signed_in_window) as [Hok _].
  destruct (Hok _ eq_refl) as (_ & Huser & _ & _ & Hkeep & _).
  split; [exact Huser|]. split.
  - rewrite Hkeep by discriminate. reflexivity.
  - apply (proj2 (logout_clears_session_on_success
                    (Fulfilled html_error_page) signed_in_window)).
    reflexivity.
Defined.

(** ** More of the theme *)

Lemma or_else_not_empty (v : option string) (fallback : string) :
  fallback <> "" -> or_else v fallback <> "".
Proof.
  intros Hf. unfold or_else. destruct v as [s|]; [|exact Hf].
  destruct (String.eqb_spec s ""); assumption.
Qed.

(** X12. [Theme.init] applies the saved theme, or ['dark'] when none (or an
    empty one) is saved, and stores it; so a theme set with [Theme.apply]
    is the theme of the next page that shares the storage. *)
Theorem theme_init_restores_saved :
  (forall b : Theme.browser,
      Theme.get (Theme.init b)
        = or_else (Theme.localStorage b !! Theme.storageKey) "dark" /\
      Theme.localStorage (Theme.init b) !! Theme.storageKey
        = Some (Theme.get (Theme.init b))) /\
  (forall (t : string) (b next : Theme.browser),
      t <> "" ->
      Theme.localStorage next = Theme.localStorage (Theme.apply t b) ->
      Theme.get (Theme.init next) = t).
Proof.
  assert (Hget : forall b, Theme.get (Theme.init b)
            = or_else (Theme.localStorage b !! Theme.storageKey) "dark").
  { intros b. unfold Theme.init. apply get_apply.
    apply or_else_not_empty. discriminate. }
  split.
  - intros b. split; [apply Hget|]. rewrite Hget.
    unfold Theme.init, Theme.apply. cbn. apply lookup_insert_eq.
  - intros t b next Ht Hnext. rewrite Hget, Hnext.
    unfold Theme.apply. cbn. rewrite lookup_insert_eq.
    now apply or_else_nonempty.
Qed.

Lemma theme_init_restores_saved_witness :
  Theme.get (Theme.init (Theme.apply "light" fresh_browser)) = "light".
Proof.
  apply (proj2 theme_init_restores_saved "light" fresh_browser).
  - discriminate.
  - reflexivity.
Defined.

(** X13. [Theme.apply] sends the preference to the server exactly when a
    truthy ['user'] entry is stored - one update, carrying the theme - and
    changes no entry of [localStorage] but the theme's own. *)
Theorem theme_apply_syncs_when_signed_in (t : string) (b : Theme.browser) :
  Theme.api_puts (Theme.apply t b) =
    (if truthy_string (Theme.localStorage b !! "user")
     then Theme.api_puts b ++ [("/api/auth/preferences", t)]
     else Theme.api_puts b) /\
  (forall k, k <> Theme.storageKey ->
     Theme.localStorage (Theme.apply t b) !! k = Theme.localStorage b !! k).
Proof.
  unfold Theme.apply. cbn. split.
  - rewrite lookup_insert_ne by discriminate. reflexivity.
  - intros k Hk. apply lookup_insert_ne. congruence.
Qed.

(** X14. After a logout that succeeded, applying a theme sends nothing to
    the server, and the theme saved before the logout is still the one
    [Theme.init] restores. *)
Theorem theme_after_logout
  (fetched : settled API.response) (w : Auth.window) (data : json)
  (b : Theme.browser) (t : string) :
  snd (API.request fetched) = Fulfilled data ->
  Theme.localStorage b = Auth.localStorage (fst (Auth.logout fetched w)) ->
  Theme.api_puts (Theme.apply t b) = Theme.api_puts b /\
  Theme.get (Theme.init b)
    = or_else (Auth.localStorage w !! Theme.storageKey) "dark".
Proof.
  intros Hreq Hb.
  assert (Hs : Theme.localStorage b = delete "user" (Auth.localStorage w)).
  { rewrite Hb. unfold Auth.logout. rewrite Hreq. reflexivity. }
  split.
  - unfold Theme.apply. cbn. rewrite lookup_insert_ne by discriminate.
    rewrite Hs, lookup_delete_eq. reflexivity.
  - unfold Theme.init. rewrite get_apply
      by (apply or_else_not_empty; discriminate).
    rewrite Hs, lookup_delete_ne by discriminate. reflexivity.
Qed.

Lemma theme_after_logout_witness :
  let b :=
    {| Theme.data_theme := None;
       Theme.localStorage :=
         Auth.localStorage
           (fst (Auth.logout (Fulfilled json_success) signed_in_window));
       Theme.body_classList := [];
       Theme.api_puts := [];
       Theme.timers := [] |} in
  Theme.api_puts (Theme.apply "dark" b) = [] /\
  Theme.get (Theme.init b) = "light".
Proof.
  cbv zeta.
  apply (theme_after_logout (Fulfilled json_success) signed_in_window
           (JObject [("success", JBool true)])); reflexivity.
Defined.

Lemma fire_fields (a : Theme.timer_action) (b : Theme.browser) :
  Theme.data_theme (ThemeTimers.fire a b) = Theme.data_theme b /\
  Theme.localStorage (ThemeTimers.fire a b) = Theme.localStorage b /\
  Theme.api_puts (ThemeTimers.fire a b) = Theme.api_puts b.
Proof. destruct a. repeat split. Qed.

Lemma classList_remove_idempotent (name : string) (classes : list string) :
  Theme.classList_remove name (Theme.classList_remove name classes)
    = Theme.classList_remove name classes.
Proof.
  unfold Theme.classList_remove.
  induction classes as [|c classes IH]; [reflexivity|].
  cbn [List.filter]. destruct (negb (String.eqb name c)) eqn:E.
  - cbn [List.filter]. rewrite E. now f_equal.
  - exact IH.
Qed.

Lemma classList_remove_In (name c : string) (classes : list string) :
  In c (Theme.classList_remove name classes) <-> In c classes /\ c <> name.
Proof.
  unfold Theme.classList_remove. rewrite filter_In, negb_true_iff.
  split; intros [H1 H2]; (split; [exact H1|]).
  - apply String.eqb_neq in H2. congruence.
  - apply String.eqb_neq. congruence.
Qed.

Lemma fold_fire_same (name : string) (ts : list (Theme.timer_action * Z))
  (b : Theme.browser) :
  Forall (fun t => fst t = Theme.RemoveBodyClass name) ts ->
  ts <> [] ->
  Theme.body_classList (fold_left (fun b t => ThemeTimers.fire (fst t) b) ts b)
    = Theme.classList_remove name (Theme.body_classList b) /\
  Theme.data_theme (fold_left (fun b t => ThemeTimers.fire (fst t) b) ts b)
    = Theme.data_theme b.
Proof.
  intros Hall. revert b. induction Hall as [|t ts Ht Hall IH]; intros b Hne;
    [contradiction|].
  cbn [fold_left]. rewrite Ht. destruct ts as [|t' ts].
  - split; reflexivity.
  - destruct (IH (ThemeTimers.fire (Theme.RemoveBodyClass name) b)
                ltac:(discriminate)) as [-> ->].
    cbn. split; [apply classList_remove_idempotent|reflexivity].
Qed.

Lemma classList_add_In (name c : string) (classes : list string) :
  In c (Theme.classList_add name classes) <-> In c classes \/ c = name.
Proof.
  unfold Theme.classList_add.
  destruct (existsb (String.eqb name) classes) eqn:E.
  - split; [now left|]. intros [H| ->]; [exact H|].
    apply existsb_exists in E as (x & Hx & Heq).
    apply String.eqb_eq in Heq. now subst.
  - rewrite in_app_iff. cbn. intuition congruence.
Qed.

(** X15. [Theme.toggle] puts the class [theme-transitioning] on the body and
    sets a timer of 300 ms that takes it off: once the pending timers have
    run, the class is gone, every other class of the body is as before, and
    the theme is the toggled one. *)
Theorem theme_toggle_transition_ends (b : Theme.browser) :
  Forall (fun t => fst t = Theme.RemoveBodyClass "theme-transitioning")
    (Theme.timers b) ->
  In "theme-transitioning" (Theme.body_classList (Theme.toggle b)) /\
  Theme.timers (Theme.toggle b)
    = Theme.timers b
        ++ [(Theme.RemoveBodyClass "theme-transitioning", 300)] /\
  let after := ThemeTimers.run_timers (Theme.toggle b) in
  ~ In "theme-transitioning" (Theme.body_classList after) /\
  (forall c, c <> "theme-transitioning" ->
     (In c (Theme.body_classList after) <-> In c (Theme.body_classList b))) /\
  Theme.timers after = [] /\
  Theme.get after = Theme.get (Theme.toggle b).
Proof.
  intros Hall.
  assert (Hclasses : Theme.body_classList (Theme.toggle b)
            = Theme.classList_add "theme-transitioning"
                (Theme.body_classList b)) by reflexivity.
  assert (Htimers : Theme.timers (Theme.toggle b)
            = Theme.timers b
                ++ [(Theme.RemoveBodyClass "theme-transitioning", 300)])
    by reflexivity.
  split; [rewrite Hclasses; apply classList_add_In; now right|].
  split; [exact Htimers|]. cbv zeta.
  destruct (fold_fire_same "theme-transitioning"
              (Theme.timers (Theme.toggle b)) (Theme.toggle b))
    as [Hc Ht].
  { rewrite Htimers. apply Forall_app. split; [exact Hall|].
    now repeat constructor. }
  { rewrite Htimers. now destruct (Theme.timers b). }
  unfold ThemeTimers.run_timers, Theme.get. cbn [Theme.body_classList
    Theme.timers Theme.data_theme]. rewrite Hc, Ht, Hclasses.
  split; [|split; [|split; reflexivity]].
  - rewrite classList_remove_In. tauto.
  - intros c Hne. rewrite classList_remove_In, classList_add_In. tauto.
Qed.

Lemma theme_toggle_transition_ends_witness :
  In "theme-transitioning" (Theme.body_classList (Theme.toggle fresh_browser))
  /\ Theme.timers (ThemeTimers.run_timers (Theme.toggle fresh_browser)) = [].
Proof.
  destruct (theme_toggle_transition_ends fresh_browser)
    as (H1 & _ & _ & _ & H2 & _).
  - constructor.
  - split; [exact H1|exact H2].
Defined.

(** ** The command palette *)

Module PaletteFacts.

Import CommandPalette.

Lemma render_items_lookup (cmds : list command) (i : nat) :
  render_items cmds !! i =
    (fun cmd => {| item_command := cmd; active := (i =? 0)%nat;
                   data_index := i; shortcut := (i <? 9)%nat |})
      <$> cmds !! i.
Proof. unfold render_items. now rewrite list_lookup_imap. Qed.

Lemma render_items_length (cmds : list command) :
  length (render_items cmds) = length cmds.
Proof. unfold render_items. apply length_imap. Qed.

Lemma renderList_consistent (cmds : list command) (p : palette) :
  consistent (renderList cmds p).
Proof.
  unfold renderList, consistent.
  destruct (Nat.eqb_spec (length cmds) 0) as [E|E]; cbn; intros items H;
    [discriminate|].
  injection H as <-. exists cmds. rewrite render_items_length.
  split; [reflexivity|]. split; [reflexivity|]. split; [|split; [lia|]].
  - intros i it Hi. rewrite render_items_lookup in Hi.
    destruct (cmds !! i); [|discriminate]. now injection Hi as <-.
  - intros _ i it Hi. rewrite render_items_lookup in Hi.
    destruct (cmds !! i); [|discriminate]. injection Hi as <-. cbn.
    destruct i; reflexivity.
Qed.

Lemma filter_consistent (query : string) (p : palette) :
  consistent (filter query p).
Proof. apply renderList_consistent. Qed.

Lemma close_consistent (p : palette) : consistent p -> consistent (close p).
Proof.
  intros H items Hi. destruct (H items Hi) as (cmds & H1 & H2 & H3 & H4 & _).
  exists cmds. cbn. repeat split; try assumption; try lia; try discriminate.
Qed.

Lemma toggle_consistent (p : palette) : consistent p -> consistent (toggle p).
Proof.
  intros H. unfold toggle. destruct (isOpen p).
  - now apply close_consistent.
  - apply filter_consistent.
Qed.

Lemma at_index_Some {A : Type} (l : list A) (i : Z) :
  0 <= i < Z.of_nat (length l) -> exists x, at_index l i = Some x.
Proof.
  intros H. unfold at_index. destruct (Z.ltb_spec i 0); [lia|].
  apply lookup_lt_is_Some_2. lia.
Qed.

Lemma set_active_length i v items :
  length (set_active i v items) = length items.
Proof. unfold set_active. apply length_alter. Qed.

Lemma set_active_lookup i v items j it :
  set_active i v items !! j = Some it ->
  exists it0,
    items !! j = Some it0 /\
    item_command it = item_command it0 /\
    active it = (if decide (i = j) then v else active it0).
Proof.
  unfold set_active. destruct (decide (i = j)) as [->|Hne].
  - rewrite list_lookup_alter_eq. destruct (items !! j) as [it0|];
      [|discriminate].
    cbn. intros H. injection H as <-. exists it0. now repeat split.
  - rewrite list_lookup_alter_ne by exact Hne. intros H. exists it.
    now repeat split.
Qed.

(** [navigate] on a consistent palette, one step down or up. *)
Lemma navigate_consistent (dir : Z) (p : palette) :
  consistent p -> dir = 1 \/ dir = -1 ->
  snd (navigate dir p) = Fulfilled tt /\
  consistent (fst (navigate dir p)) /\
  isOpen (fst (navigate dir p)) = isOpen p /\
  ran (fst (navigate dir p)) = ran p /\
  currentItems (fst (navigate dir p)) = currentItems p /\
  length (query_items (fst (navigate dir p))) = length (query_items p) /\
  (query_items p <> [] ->
   activeIndex (fst (navigate dir p))
     = (activeIndex p + dir) mod Z.of_nat (length (query_items p))).
Proof.
  intros Hc Hdir. unfold navigate.
  destruct (Nat.eqb_spec (length (query_items p)) 0) as [E|E].
  - cbn. repeat split; try assumption.
    intros Hne. destruct (query_items p); [contradiction|discriminate].
  - unfold query_items in *. destruct (cmdList p) as [| |items] eqn:Hl;
      try (cbn in E; lia).
    destruct (Hc items Hl) as (cmds & Hcur & Hlen & Hcmds & Hrange & Hact).
    destruct (at_index_Some items (activeIndex p) Hrange) as [it0 ->].
    set (n := Z.of_nat (length items)) in *.
    set (index := Z.rem (activeIndex p + dir + n) n).
    assert (Hindex : index = (activeIndex p + dir) mod n /\ 0 <= index < n).
    { unfold index. rewrite Z.rem_mod_nonneg by lia.
      replace (activeIndex p + dir + n) with (activeIndex p + dir + 1 * n)
        by lia.
      rewrite Z.mod_add by lia. split; [reflexivity|].
      apply Z.mod_pos_bound. lia. }
    destruct Hindex as [Hmod Hin].
    destruct (at_index_Some
                (set_active (Z.to_nat (activeIndex p)) false items) index)
      as [it1 ->]; [rewrite set_active_length; exact Hin|].
    cbn [fst snd with_items isOpen ran currentItems cmdList activeIndex].
    rewrite !set_active_length.
    split; [reflexivity|]. split; [|repeat split; auto].
    intros items' H'. injection H' as <-. exists cmds.
    rewrite !set_active_length. cbn.
    split; [exact Hcur|]. split; [exact Hlen|]. split; [|split; [exact Hin|]].
    + intros i it Hi.
      apply set_active_lookup in Hi as (it' & Hi & -> & _).
      apply set_active_lookup in Hi as (it'' & Hi & -> & _).
      now apply Hcmds.
    + intros Hopen i it Hi.
      apply set_active_lookup in Hi as (it' & Hi & _ & ->).
      apply set_active_lookup in Hi as (it'' & Hi & _ & Ha).
      specialize (Hact Hopen i it'' Hi).
      destruct (decide (Z.to_nat index = i)) as [<-|Hne].
      * symmetry. apply Z.eqb_eq. lia.
      * rewrite Ha. destruct (decide (Z.to_nat (activeIndex p) = i)) as [<-|Hne'].
        -- symmetry. apply Z.eqb_neq. lia.
        -- rewrite Hact. destruct (Z.eqb_spec (Z.of_nat i) (activeIndex p));
             [lia|]. symmetry. apply Z.eqb_neq. lia.
Qed.

Lemma execute_found (p : palette) (items : list cmd_item) :
  consistent p -> cmdList p = CmdItems items ->
  exists it,
    at_index items (activeIndex p) = Some it /\
    execute p =
      close
        {| isOpen := isOpen p; activeIndex := activeIndex p;
           currentItems := currentItems p; overlay_open := overlay_open p;
           input_value := input_value p; cmdList := cmdList p;
           ran := ran p ++ [run (item_command it)] |}.
Proof.
  intros Hc Hl.
  destruct (Hc items Hl) as (cmds & Hcur & Hlen & Hcmds & Hrange & _).
  destruct (at_index_Some items (activeIndex p) Hrange) as [it Hit].
  exists it. split; [exact Hit|]. unfold execute. rewrite Hcur.
  unfold at_index in *. destruct (Z.ltb_spec (activeIndex p) 0); [lia|].
  now rewrite (Hcmds _ _ Hit).
Qed.

Lemma execute_consistent (p : palette) : consistent p -> consistent (execute p).
Proof.
  intros Hc. unfold execute.
  destruct (currentItems p) as [cmds|] eqn:Hcur; [|exact Hc].
  destruct (at_index cmds (activeIndex p)); [|exact Hc].
  apply close_consistent. intros items Hi. cbn in Hi.
  destruct (Hc items Hi) as (cmds' & H1 & H2 & H3 & H4 & H5).
  exists cmds'. cbn. rewrite <- H1, Hcur. now repeat split.
Qed.

Lemma executeIndex_consistent (index : nat) (p : palette) :
  consistent p -> (index < length (query_items p))%nat ->
  consistent (executeIndex (Z.of_nat index) p).
Proof.
  intros Hc Hi. unfold query_items in Hi.
  destruct (cmdList p) as [| |items] eqn:Hl; try (cbn in Hi; lia).
  destruct (Hc items Hl) as (cmds & Hcur & Hlen & Hcmds & Hrange & _).
  unfold executeIndex, execute. cbn [currentItems activeIndex]. rewrite Hcur.
  destruct (at_index_Some cmds (Z.of_nat index) ltac:(lia)) as [c ->].
  intros items' H'. cbn in H'. rewrite Hl in H'. injection H' as <-.
  exists cmds. cbn. repeat split; try assumption; try lia; try discriminate.
Qed.

Lemma on_keydown_consistent (ctrl : bool) (key : string) (p : palette) :
  consistent p ->
  snd (on_keydown ctrl key p) = Fulfilled tt /\
  consistent (fst (on_keydown ctrl key p)).
Proof.
  intros Hc. unfold on_keydown.
  set (p1 := if ctrl && String.eqb key "k" then toggle p else p).
  assert (H1 : consistent p1).
  { unfold p1. destruct (ctrl && String.eqb key "k"); [|exact Hc].
    now apply toggle_consistent. }
  destruct (isOpen p1); cbn [negb]; [|now split].
  set (p2 := if String.eqb key "Escape" then close p1 else p1).
  assert (H2 : consistent p2).
  { unfold p2. destruct (String.eqb key "Escape"); [|exact H1].
    now apply close_consistent. }
  destruct (String.eqb key "ArrowDown").
  - destruct (navigate_consistent 1 p2 H2 ltac:(now left))
      as (Hs & Hc3 & _).
    destruct (navigate 1 p2) as [p3 r3]. cbn in Hs, Hc3. subst r3.
    destruct (String.eqb key "ArrowUp").
    + destruct (navigate_consistent (-1) p3 Hc3 ltac:(now right))
        as (Hs & Hc4 & _).
      destruct (navigate (-1) p3) as [p4 r4]. cbn in Hs, Hc4. subst r4.
      split; [reflexivity|]. cbn.
      destruct (String.eqb key "Enter"); [now apply execute_consistent|exact Hc4].
    + split; [reflexivity|]. cbn.
      destruct (String.eqb key "Enter"); [now apply execute_consistent|exact Hc3].
  - destruct (String.eqb key "ArrowUp").
    + destruct (navigate_consistent (-1) p2 H2 ltac:(now right))
        as (Hs & Hc4 & _).
      destruct (navigate (-1) p2) as [p4 r4]. cbn in Hs, Hc4. subst r4.
      split; [reflexivity|]. cbn.
      destruct (String.eqb key "Enter"); [now apply execute_consistent|exact Hc4].
    + split; [reflexivity|]. cbn.
      destruct (String.eqb key "Enter"); [now apply execute_consistent|exact H2].
Qed.

Lemma step_consistent (e : event) (p : palette) :
  consistent p -> possible e p ->
  snd (step e p) = Fulfilled tt /\ consistent (fst (step e p)).
Proof.
  intros Hc Hp. destruct e as [ctrl key|value| |index]; cbn [step fst snd].
  - now apply on_keydown_consistent.
  - split; [reflexivity|]. apply filter_consistent.
  - split; [reflexivity|]. now apply close_consistent.
  - split; [reflexivity|]. now apply executeIndex_consistent.
Qed.

Lemma reachable_consistent (p : palette) : reachable p -> consistent p.
Proof.
  induction 1 as [|e p Hr IH Hp].
  - intros items H. discriminate.
  - now apply step_consistent.
Qed.

(** X16. No event of the palette throws: from the initial palette, after
    any keys, inputs and clicks (a click on an item being one of the items
    shown), the handler of the next event returns, and while the list shows
    items [activeIndex] is the index of one of them. *)
Theorem palette_never_throws (p : palette) (e : event) :
  reachable p -> possible e p ->
  snd (step e p) = Fulfilled tt /\
  (query_items (fst (step e p)) <> [] ->
   0 <= activeIndex (fst (step e p))
     < Z.of_nat (length (query_items (fst (step e p))))).
Proof.
  intros Hr Hp.
  destruct (step_consistent e p (reachable_consistent p Hr) Hp) as [Hs Hc].
  split; [exact Hs|]. intros Hne. unfold query_items in *.
  destruct (cmdList (fst (step e p))) as [| |items] eqn:Hl;
    try contradiction.
  destruct (Hc items Hl) as (_ & _ & _ & _ & Hrange & _). exact Hrange.
Qed.

Lemma opened_reachable : reachable palette_opened.
Proof. apply reachable_step; [apply reachable_initial|exact I]. Qed.

Lemma palette_never_throws_witness :
  snd (step (KeyDown false "ArrowUp") palette_opened) = Fulfilled tt /\
  snd (step (ClickItem 7) palette_opened) = Fulfilled tt.
Proof.
  split.
  - apply (palette_never_throws palette_opened (KeyDown false "ArrowUp")).
    + exact opened_reachable.
    + exact I.
  - apply (palette_never_throws palette_opened (ClickItem 7)).
    + exact opened_reachable.
    + vm_compute. lia.
Defined.

(** X17. [navigate] goes round the list: with [n] items shown, one step
    down moves [activeIndex] to the next index modulo [n], one step up to
    the previous one modulo [n] - from the last item down to the first,
    from the first up to the last - and a step down followed by a step up,
    or up followed by down, comes back to the same index. *)
Theorem palette_navigation_wraps (p : palette) (items : list cmd_item) :
  reachable p ->
  cmdList p = CmdItems items ->
  let n := Z.of_nat (length items) in
  let down := fst (navigate 1 p) in
  let up := fst (navigate (-1) p) in
  activeIndex down = (activeIndex p + 1) mod n /\
  activeIndex up = (activeIndex p - 1) mod n /\
  activeIndex (fst (navigate (-1) down)) = activeIndex p /\
  activeIndex (fst (navigate 1 up)) = activeIndex p.
Proof.
  intros Hr Hl n down up.
  pose proof (reachable_consistent p Hr) as Hc.
  destruct (Hc items Hl) as (_ & _ & _ & _ & Hrange & _).
  assert (Hq : query_items p = items) by (unfold query_items; now rewrite Hl).
  assert (Hne : query_items p <> [])
    by (rewrite Hq; destruct items; [cbn in Hrange; lia|discriminate]).
  destruct (navigate_consistent 1 p Hc ltac:(now left))
    as (_ & Hcd & _ & _ & _ & Hld & Hd).
  destruct (navigate_consistent (-1) p Hc ltac:(now right))
    as (_ & Hcu & _ & _ & _ & Hlu & Hu).
  specialize (Hd Hne). specialize (Hu Hne). rewrite Hq in Hd, Hu, Hld, Hlu.
  fold n in Hd, Hu. fold down in Hd, Hld, Hcd. fold up in Hu, Hlu, Hcu.
  destruct (navigate_consistent (-1) down Hcd ltac:(now right))
    as (_ & _ & _ & _ & _ & _ & Hdu).
  destruct (navigate_consistent 1 up Hcu ltac:(now left))
    as (_ & _ & _ & _ & _ & _ & Hud).
  assert (Hned : query_items down <> [])
    by (intros E; rewrite E in Hld; destruct items; [now apply Hne; rewrite Hq|discriminate]).
  assert (Hneu : query_items up <> [])
    by (intros E; rewrite E in Hlu; destruct items; [now apply Hne; rewrite Hq|discriminate]).
  specialize (Hdu Hned). specialize (Hud Hneu).
  rewrite Hld in Hdu. rewrite Hlu in Hud. fold n in Hdu, Hud, Hrange.
  split; [exact Hd|]. split; [exact Hu|]. split.
  - rewrite Hdu, Hd. rewrite Zplus_mod_idemp_l.
    replace (activeIndex p + 1 + -1) with (activeIndex p) by lia.
    apply Z.mod_small. exact Hrange.
  - rewrite Hud, Hu. rewrite Zplus_mod_idemp_l.
    replace (activeIndex p + -1 + 1) with (activeIndex p) by lia.
    apply Z.mod_small. exact Hrange.
Qed.

Lemma palette_navigation_wraps_witness :
  activeIndex (fst (navigate (-1) palette_opened)) = 7 /\
  activeIndex (fst (navigate 1 (fst (navigate (-1) palette_opened)))) = 0.
Proof.
  destruct (palette_navigation_wraps palette_opened (render_items commands)
              opened_reachable eq_refl) as (_ & Hup & _ & Hback).
  split; [exact Hup|exact Hback].
Defined.

(** X18. Enter runs the highlighted command: while the palette is open and
    its list shows items, exactly one item has the class [active], the one
    at [activeIndex]; Enter runs the action of that item and closes the
    palette. *)
Theorem palette_enter_runs_highlighted (p : palette) (items : list cmd_item) :
  reachable p ->
  isOpen p = true ->
  cmdList p = CmdItems items ->
  exists it,
    at_index items (activeIndex p) = Some it /\
    active it = true /\
    (forall j other,
        items !! j = Some other -> Z.of_nat j <> activeIndex p ->
        active other = false) /\
    ran (fst (step (KeyDown false "Enter") p))
      = ran p ++ [run (item_command it)] /\
    isOpen (fst (step (KeyDown false "Enter") p)) = false.
Proof.
  intros Hr Hopen Hl. pose proof (reachable_consistent p Hr) as Hc.
  destruct (execute_found p items Hc Hl) as (it & Hit & Hex).
  destruct (Hc items Hl) as (_ & _ & _ & _ & Hrange & Hact).
  specialize (Hact Hopen).
  exists it. split; [exact Hit|]. split; [|split].
  - unfold at_index in Hit. destruct (Z.ltb_spec (activeIndex p) 0); [lia|].
    rewrite (Hact _ _ Hit). apply Z.eqb_eq. lia.
  - intros j other Hj Hne. rewrite (Hact _ _ Hj). now apply Z.eqb_neq.
  - cbn [step]. unfold on_keydown. cbn [andb]. rewrite Hopen. cbn.
    rewrite Hex. cbn. split; reflexivity.
Qed.

Lemma palette_enter_runs_highlighted_witness :
  ran (fst (step (KeyDown false "Enter")
              (fst (step (KeyDown false "ArrowDown") palette_opened))))
    = [GoTo "/dashboard"].
Proof.
  assert (Hr : reachable (fst (step (KeyDown false "ArrowDown") palette_opened)))
    by (apply reachable_step; [exact opened_reachable|exact I]).
  destruct (palette_enter_runs_highlighted _ _ Hr eq_refl eq_refl)
    as (it & Hit & _ & _ & Hran & _).
  rewrite Hran. vm_compute in Hit. injection Hit as <-. reflexivity.
Defined.

(** X19. A query of ASCII characters that matches no command replaces the
    list by the text [No commands found] but leaves [currentItems] and
    [activeIndex] as they were: Enter then still runs the command that was
    selected before, and closes the palette. *)
Theorem palette_enter_after_no_match
  (p : palette) (cmds : list command) (c : command) (query : string) :
  is_ascii query = true ->
  isOpen p = true ->
  currentItems p = Some cmds ->
  at_index cmds (activeIndex p) = Some c ->
  List.filter
    (fun cmd => includes (toLowerCase (title cmd)) (toLowerCase query))
    commands = [] ->
  let p1 := fst (step (Input query) p) in
  cmdList p1 = NoCommandsFound /\
  currentItems p1 = Some cmds /\
  activeIndex p1 = activeIndex p /\
  ran (fst (step (KeyDown false "Enter") p1)) = ran p ++ [run c] /\
  isOpen (fst (step (KeyDown false "Enter") p1)) = false.
Proof.
  intros _ Hopen Hcur Hc Hnone. cbv zeta. cbn [step fst].
  unfold on_input, filter. rewrite Hnone. cbn [renderList length Nat.eqb].
  cbn [cmdList currentItems activeIndex].
  split; [reflexivity|]. split; [exact Hcur|]. split; [reflexivity|].
  unfold on_keydown. cbn [andb isOpen negb]. rewrite Hopen. cbn.
  unfold execute. cbn. rewrite Hcur, Hc. cbn. split; reflexivity.
Qed.

Lemma palette_enter_after_no_match_witness :
  cmdList (fst (step (Input "zzz") palette_opened)) = NoCommandsFound /\
  ran (fst (step (KeyDown false "Enter") (fst (step (Input "zzz") palette_opened))))
    = [GoTo "/home"].
Proof.
  destruct (palette_enter_after_no_match palette_opened commands
              {| id := "home"; title := "Go to Home"; icon := "🏠";
                 run := GoTo "/home" |} "zzz")
    as (Hlist & _ & _ & Hran & _); try reflexivity.
  split; [exact Hlist|exact Hran].
Defined.

(** X20. Opening the palette clears the input and lists all the commands, in
    their order, the first one highlighted, whatever the palette showed
    before; Ctrl+K opens a closed palette and closes an open one. *)
Theorem palette_open_lists_all (p : palette) :
  isOpen (open p) = true /\
  overlay_open (open p) = true /\
  input_value (open p) = "" /\
  currentItems (open p) = Some commands /\
  activeIndex (open p) = 0 /\
  cmdList (open p) = CmdItems (render_items commands) /\
  item_command <$> render_items commands = commands /\
  active <$> render_items commands
    = [true; false; false; false; false; false; false; false] /\
  fst (step (KeyDown true "k") p) = (if isOpen p then close p else open p).
Proof.
  repeat split.
  cbn [step]. unfold on_keydown. cbn [andb String.eqb].
  change (String.eqb "k" "k") with true. cbv iota. unfold toggle.
  destruct (isOpen p) eqn:E.
  - cbn. reflexivity.
  - change (isOpen (open p)) with true. cbn [negb].
    change (String.eqb "k" "Escape") with false.
    change (String.eqb "k" "ArrowDown") with false.
    change (String.eqb "k" "ArrowUp") with false.
    change (String.eqb "k" "Enter") with false. reflexivity.
Qed.

End PaletteFacts.

(** ** The sign-in page *)

Lemma AuthPage_init_cases (fetched : settled API.response) (w : Auth.window) :
  fst (Auth.AuthPage_init fetched w) = w \/
  (includes (Auth.location_pathname w) "dashboard" = false /\
   fst (Auth.AuthPage_init fetched w) = Auth.navigate "/dashboard" w).
Proof.
  unfold Auth.AuthPage_init. destruct (Auth.check fetched) as [isAuth|e];
    [|now left].
  destruct (API.truthy isAuth); [|now left]. cbn [andb].
  destruct (includes (Auth.location_pathname w) "dashboard");
    [now left|right; now split].
Qed.

(** X21. [AuthPage.init] navigates to ['/dashboard'] and nowhere else, never
    from a path that holds ['dashboard'], and never when the check is
    rejected; so on the page it has sent the visitor to, it does not
    navigate a second time. *)
Theorem authpage_init_redirects_once
  (first second : settled API.response) (w : Auth.window) :
  let w1 := fst (Auth.AuthPage_init first w) in
  (w1 = w \/ w1 = Auth.navigate "/dashboard" w) /\
  (includes (Auth.location_pathname w) "dashboard" = true -> w1 = w) /\
  (forall e, snd (API.request first) = Rejected e ->
     Auth.AuthPage_init first w = (w, Rejected e)) /\
  (w1 = Auth.navigate "/dashboard" w ->
   fst (Auth.AuthPage_init second w1) = w1).
Proof.
  cbv zeta. split; [|split; [|split]].
  - destruct (AuthPage_init_cases first w) as [H|[_ H]]; auto.
  - intros Hd. destruct (AuthPage_init_cases first w) as [H|[H _]];
      [exact H|congruence].
  - intros e He. unfold Auth.AuthPage_init. rewrite check_of_request, He.
    reflexivity.
  - intros ->. destruct (AuthPage_init_cases second
                           (Auth.navigate "/dashboard" w)) as [H|[H _]];
      [exact H|discriminate H].
Qed.

Lemma authpage_init_redirects_once_witness :
  let signed_in :=
    Fulfilled (json_response true (JObject [("authenticated", JBool true)])) in
  let landing :=
    {| Auth.location_href := "/"; Auth.location_pathname := "/";
       Auth.localStorage := ∅; Auth.sessionStorage := ∅ |} in
  fst (Auth.AuthPage_init signed_in
         (fst (Auth.AuthPage_init signed_in landing)))
    = Auth.navigate "/dashboard" landing.
Proof.
  cbv zeta.
  destruct (authpage_init_redirects_once
              (Fulfilled (json_response true
                            (JObject [("authenticated", JBool true)])))
              (Fulfilled (json_response true
                            (JObject [("authenticated", JBool true)])))
              {| Auth.location_href := "/"; Auth.location_pathname := "/";
                 Auth.localStorage := ∅; Auth.sessionStorage := ∅ |})
    as (_ & _ & _ & Honce).
  rewrite Honce; reflexivity.
Defined.

(** ** The productivity chart *)

Module ChartFacts.

Import ProductivityChart.

Lemma destroy_lookup (i j : nat) (cs : list instance) (c : instance) :
  destroy i cs !! j = Some c ->
  exists c0, cs !! j = Some c0 /\
    destroyed c = (if decide (i = j) then true else destroyed c0).
Proof.
  unfold destroy. destruct (decide (i = j)) as [->|Hne].
  - rewrite list_lookup_alter_eq. destruct (cs !! j) as [c0|]; [|discriminate].
    cbn. intros H. injection H as <-. now exists c0.
  - rewrite list_lookup_alter_ne by exact Hne. intros H. now exists c.
Qed.

Lemma render_one_live tza parse canvas period fetched (p : page) :
  one_live p ->
  one_live (fst (renderProductivityChart tza parse canvas period fetched p)).
Proof.
  intros [Hin Hlive]. unfold renderProductivityChart.
  destruct canvas; cbn [negb]; [|now split].
  destruct fetched as [r|e]; [|now split].
  destruct (success r); cbn [negb]; [|now split].
  cbn [fst]. set (cs1 := match productivityChart p with
                         | Some i => destroy i (instances p)
                         | None => instances p end).
  assert (Hlen : length cs1 = length (instances p)).
  { unfold cs1. destruct (productivityChart p); [apply length_alter|reflexivity]. }
  assert (Hdead : forall j c, cs1 !! j = Some c -> destroyed c = true).
  { intros j c Hj. unfold cs1 in Hj.
    destruct (productivityChart p) as [i|] eqn:Hg.
    - apply destroy_lookup in Hj as (c0 & Hc0 & ->).
      destruct (decide (i = j)) as [_|Hne]; [reflexivity|].
      destruct (destroyed c0) eqn:Hd; [reflexivity|].
      apply (Hlive j c0 Hc0) in Hd. congruence.
    - destruct (destroyed c) eqn:Hd; [reflexivity|].
      apply (Hlive j c Hj) in Hd. discriminate. }
  split; cbn [productivityChart instances].
  - intros i H. injection H as <-. rewrite length_app. cbn. lia.
  - intros j c Hj. apply lookup_app_Some in Hj as [Hj1|[Hge Hj2]].
    + rewrite (Hdead j c Hj1). pose proof (lookup_lt_Some _ _ _ Hj1).
      split; [discriminate|]. intros Heq. injection Heq as Heq. lia.
    + destruct (j - length cs1)%nat as [|k] eqn:Hk; [|discriminate].
      cbn in Hj2. injection Hj2 as <-. cbn.
      split; [|reflexivity]. intros _. f_equal. lia.
Qed.

(** X22. After any run of calls of [renderProductivityChart], with any
    responses, at most one chart is live on the canvas: an instance has not
    been destroyed exactly when it is the one the global
    [productivityChart] holds. *)
Theorem productivity_chart_single_instance
  (tza : Z) (parse : string -> Z) (calls : list call) :
  let p := run_calls tza parse calls initial in
  forall i c,
    instances p !! i = Some c ->
    (destroyed c = false <-> productivityChart p = Some i).
Proof.
  cbv zeta.
  assert (H : forall p, one_live p -> one_live (run_calls tza parse calls p)).
  { unfold run_calls. induction calls as [|c calls IH]; intros p Hp;
      [exact Hp|].
    cbn [fold_left]. apply IH. now apply render_one_live. }
  apply H. split.
  - intros i Hi. discriminate.
  - intros i c Hi. discriminate.
Qed.

Lemma productivity_chart_single_instance_witness :
  let redraw :=
    {| canvas := true; period := "month";
       fetched := Fulfilled {| success := true; scores := [june_first] |} |} in
  let p := run_calls 0 parse_june_first [redraw; redraw] initial in
  length (instances p) = 2%nat /\ productivityChart p = Some 1%nat.
Proof.
  cbv zeta. split; [reflexivity|].
  pose proof (productivity_chart_single_instance 0 parse_june_first
    [ {| canvas := true; period := "month";
         fetched := Fulfilled {| success := true; scores := [june_first] |} |};
      {| canvas := true; period := "month";
         fetched := Fulfilled {| success := true; scores := [june_first] |} |} ]
    1%nat
    {| drawn := chart_of 0 parse_june_first "month" [june_first];
       destroyed := false |}) as H.
  cbv zeta in H. apply H; reflexivity.
Defined.

Lemma date_fields_Day (t1 t2 : Z) :
  Day t1 = Day t2 ->
  MonthFromTime t1 = MonthFromTime t2 /\ DateFromTime t1 = DateFromTime t2.
Proof.
  intros H.
  assert (Hy : YearFromTime t1 = YearFromTime t2)
    by (unfold YearFromTime; now rewrite H).
  assert (Hl : InLeapYear t1 = InLeapYear t2)
    by (unfold InLeapYear; now rewrite Hy).
  assert (Hd : DayWithinYear t1 = DayWithinYear t2)
    by (unfold DayWithinYear; now rewrite H, Hy).
  assert (Hm : MonthFromTime t1 = MonthFromTime t2)
    by (unfold MonthFromTime; now rewrite Hd, Hl).
  split; [exact Hm|]. unfold DateFromTime. now rewrite Hm, Hd, Hl.
Qed.

Lemma label_month_day tza parse period (pt : point) (y m d : Z) :
  period <> "week" ->
  0 <= m <= 11 -> 1 <= d <= DaysInMonth y m ->
  Day (LocalTime tza (parse (date pt))) = MakeDay y m d ->
  label_of tza parse period pt = month_short m +:+ " " +:+ String_of_int d.
Proof.
  intros Hp Hm Hd HDay. unfold label_of, getDate.
  apply String.eqb_neq in Hp. rewrite Hp.
  destruct (date_fields_Day (LocalTime tza (parse (date pt)))
              (MakeDay y m d * msPerDay)) as [-> ->];
    [now rewrite Day_days|].
  destruct (fields_of_MakeDay y m d Hm Hd) as (_ & -> & ->). reflexivity.
Qed.

(** X23. The labels of the chart follow the local date of midnight UTC, on
    a host of constant offset: for a point whose date parses to midnight
    UTC of a day (of a year from -271820 to 275759), the label (for a
    period other than ['week']) is the month and the day of that day on a
    host at or east of UTC, and the month and the day of the day before on
    a host west of UTC - the last day of the month before for the first of
    a month, December 31 for January 1. *)
Theorem productivity_chart_labels
  (tza : Z) (parse : string -> Z) (period : string) (pt : point)
  (y m d : Z) :
  period <> "week" ->
  -271820 <= y <= 275759 ->
  0 <= m <= 11 ->
  1 <= d <= DaysInMonth y m ->
  parse (date pt) = MakeDay y m d * msPerDay ->
  (0 <= tza < msPerDay ->
   label_of tza parse period pt
     = month_short m +:+ " " +:+ String_of_int d) /\
  (- msPerDay <= tza < 0 -> 2 <= d ->
   label_of tza parse period pt
     = month_short m +:+ " " +:+ String_of_int (d - 1)) /\
  (- msPerDay <= tza < 0 -> d = 1 -> 1 <= m ->
   label_of tza parse period pt
     = month_short (m - 1) +:+ " "
         +:+ String_of_int (DaysInMonth y (m - 1))) /\
  (- msPerDay <= tza < 0 -> d = 1 -> m = 0 ->
   label_of tza parse period pt = "Dec 31").
Proof.
  intros Hp _ Hm Hd Hparse.
  pose proof (DaysInMonth_range y m) as Hr.
  pose proof (DaysInMonth_range y (m - 1)) as Hr'.
  destruct (MakeDay_in_year y m d Hm Hd) as [E _].
  split; [|split; [|split]].
  - intros Htza. apply (label_month_day tza parse period pt y m d);
      try assumption.
    rewrite Hparse. unfold LocalTime, Day, msPerDay in *.
    Z.div_mod_to_equations. lia.
  - intros Htza Hd2.
    apply (label_month_day tza parse period pt y m (d - 1));
      try assumption; try lia.
    destruct (MakeDay_in_year y m (d - 1) Hm ltac:(lia)) as [E' _].
    rewrite Hparse. unfold LocalTime, Day, msPerDay in *.
    Z.div_mod_to_equations. lia.
  - intros Htza Hd1 Hm1. subst d.
    apply (label_month_day tza parse period pt y (m - 1)
             (DaysInMonth y (m - 1))); try assumption; try lia.
    destruct (MakeDay_in_year y (m - 1) (DaysInMonth y (m - 1))
                ltac:(lia) ltac:(lia)) as [E' _].
    pose proof (monthStart_next y (m - 1) ltac:(lia)) as Hnext.
    replace (m - 1 + 1) with m in Hnext by lia.
    rewrite Hparse. unfold LocalTime, Day, msPerDay in *.
    Z.div_mod_to_equations. lia.
  - intros Htza Hd1 Hm0. subst d m.
    change "Dec 31" with (month_short 11 +:+ " " +:+ String_of_int 31).
    apply (label_month_day tza parse period pt (y - 1) 11 31);
      [assumption|lia|cbn; lia|].
    destruct (MakeDay_in_year (y - 1) 11 31 ltac:(lia) ltac:(cbn; lia))
      as [E' _].
    pose proof (DayFromYear_succ (y - 1)) as Hs.
    replace (y - 1 + 1) with y in Hs by lia.
    rewrite Hparse, E', E. cbn [monthStart].
    destruct (leapDay_cases (y - 1)) as [[Hdy Hl]|[Hdy Hl]];
      rewrite Hl; rewrite Hdy in Hs;
      unfold LocalTime, Day, msPerDay in *;
      Z.div_mod_to_equations; lia.
Qed.

Lemma productivity_chart_labels_witness :
  label_of 19800000 parse_june_first "month" june_first = "Jun 1" /\
  label_of (-18000000) parse_june_first "month" june_first = "May 31".
Proof.
  split.
  - apply (proj1 (productivity_chart_labels 19800000 parse_june_first
                    "month" june_first 2025 5 1 ltac:(discriminate)
                    ltac:(lia) ltac:(lia)
                    ltac:(vm_compute; split; discriminate) eq_refl)).
    unfold msPerDay. lia.
  - apply (proj1 (proj2 (proj2 (productivity_chart_labels (-18000000)
                    parse_june_first "month" june_first 2025 5 1
                    ltac:(discriminate) ltac:(lia) ltac:(lia)
                    ltac:(vm_compute; split; discriminate) eq_refl)))).
    + unfold msPerDay. lia.
    + reflexivity.
    + lia.
Defined.

End ChartFacts.

(** ** Toast notifications *)

Module ToastFacts.

Import Toast.

Lemma pick_earliest_perm (ts : list (Z * callback)) t rest :
  pick_earliest ts = Some (t, rest) -> Permutation ts (t :: rest).
Proof.
  revert t rest. induction ts as [|a ts IH]; intros t rest H; [discriminate|].
  cbn [pick_earliest] in H.
  destruct (pick_earliest ts) as [[t' rest']|] eqn:E.
  - specialize (IH t' rest' eq_refl).
    destruct (fst a <=? fst t'); injection H as <- <-.
    + reflexivity.
    + rewrite IH. apply perm_swap.
  - injection H as <- <-. destruct ts as [|b ts]; [reflexivity|].
    cbn in E. destruct (pick_earliest ts) as [[? ?]|];
      [destruct (fst b <=? fst p)|]; discriminate.
Qed.

Lemma pick_earliest_None (ts : list (Z * callback)) :
  pick_earliest ts = None -> ts = [].
Proof.
  destruct ts as [|a ts]; [reflexivity|]. cbn.
  destruct (pick_earliest ts) as [[t' rest']|];
    [destruct (fst a <=? fst t')|]; discriminate.
Qed.

Lemma weight_perm (ts ts' : list (Z * callback)) :
  Permutation ts ts' -> weight ts = weight ts'.
Proof.
  unfold weight. induction 1; cbn; try lia.
Qed.

Lemma weight_app (ts ts' : list (Z * callback)) :
  weight (ts ++ ts') = (weight ts + weight ts')%nat.
Proof. unfold weight. induction ts as [|t ts IH]; cbn; [reflexivity|]. lia. Qed.

Lemma weight_bound (ts : list (Z * callback)) :
  (weight ts <= 2 * length ts)%nat.
Proof.
  unfold weight. induction ts as [|[due cb] ts IH]; cbn; [lia|].
  destruct cb; lia.
Qed.

Lemma weight_0 (ts : list (Z * callback)) : weight ts = O -> ts = [].
Proof.
  destruct ts as [|[due cb] ts]; [reflexivity|]. unfold weight. cbn.
  destruct cb; lia.
Qed.

Lemma fire_next_weight (p : page) :
  timers p <> [] -> (weight (timers (fire_next p)) < weight (timers p))%nat.
Proof.
  intros Hne. unfold fire_next.
  destruct (pick_earliest (timers p)) as [[[due cb] rest]|] eqn:E.
  - rewrite (weight_perm _ _ (pick_earliest_perm _ _ _ E)).
    destruct cb; cbn; [rewrite weight_app|]; unfold weight; cbn; lia.
  - apply pick_earliest_None in E. contradiction.
Qed.

Lemma fire_next_containers (p : page) :
  containers_in_body (fire_next p) = containers_in_body p.
Proof.
  unfold fire_next.
  destruct (pick_earliest (timers p)) as [[[due cb] rest]|]; [|reflexivity].
  destruct cb; reflexivity.
Qed.

Lemma map_nil_inv {A B : Type} (f : A -> B) (l : list A) :
  map f l = [] -> l = [].
Proof. destruct l; [reflexivity|discriminate]. Qed.

Lemma ids_empty {A : Type} (l : list A) (l' : list nat) (f : A -> nat) :
  (forall id, In id (map f l) <-> In id l') -> l' = [] -> l = [].
Proof.
  intros H ->. destruct l as [|a l]; [reflexivity|].
  exfalso. apply (H (f a)). now left.
Qed.

Lemma NoDup_snoc {A : Type} (l : list A) (x : A) :
  List.NoDup l -> ~ In x l -> List.NoDup (l ++ [x]).
Proof.
  induction l as [|a l IH]; cbn; intros Hnd Hx.
  - apply List.NoDup_cons_iff. split; [intros []|apply List.NoDup_nil].
  - apply List.NoDup_cons_iff in Hnd as [Ha Hnd].
    apply List.NoDup_cons_iff. split.
    + rewrite in_app_iff. cbn. intuition congruence.
    + apply IH; [exact Hnd|]. intuition.
Qed.

Lemma timer_ids_app (a b : list (Z * callback)) :
  timer_ids (a ++ b) = timer_ids a ++ timer_ids b.
Proof. unfold timer_ids. apply map_app. Qed.

Lemma show_timed (message type : string) (duration : Z) (p : page) :
  timed p -> timed (show message type duration p).
Proof.
  intros (Hnd & Hndt & Hiff & Hlt & Hc). unfold timed, show, init.
  assert (Hfresh : ~ In (created p) (map toast_id (default [] (container p)))).
  { intros H. apply Hlt in H. lia. }
  assert (Hfresh' : ~ In (created p) (timer_ids (timers p))).
  { intros H. apply Hiff in H. contradiction. }
  destruct (container p) as [ts|] eqn:Ect; cbn in *; rewrite ?Ect; cbn.
  - rewrite map_app. cbn.
    split; [now apply NoDup_snoc|].
    unfold timer_ids in *. rewrite map_app. cbn.
    split; [now apply NoDup_snoc|].
    split; [|split; [|exact Hc]].
    + intros id. rewrite !in_app_iff, Hiff. reflexivity.
    + intros id. rewrite in_app_iff. intros [H|[<-|[]]]; [|lia].
      apply Hlt in H. lia.
  - assert (Ht : timers p = []).
    { apply map_nil_inv with (f := fun t => callback_id (snd t)).
      fold (timer_ids (timers p)).
      destruct (timer_ids (timers p)) as [|x l] eqn:E; [reflexivity|].
      exfalso. apply (Hiff x). now left. }
    rewrite Ht, Hc. cbn.
    split; [apply (NoDup_snoc []); [constructor|intros []]|].
    split; [apply (NoDup_snoc []); [constructor|intros []]|].
    split; [tauto|]. split; [|reflexivity].
    intros id [<-|[]]. lia.
Qed.

Lemma In_filter_ids (id x : nat) (ts : list toast_el) :
  In x (map toast_id (List.filter (fun t => negb (toast_id t =? id)%nat) ts))
  <-> In x (map toast_id ts) /\ x <> id.
Proof.
  rewrite !in_map_iff. split.
  - intros (t & <- & Ht). apply filter_In in Ht as [Ht Hne].
    apply negb_true_iff, Nat.eqb_neq in Hne. split; [now exists t|exact Hne].
  - intros [(t & <- & Ht) Hne]. exists t. split; [reflexivity|].
    apply filter_In. split; [exact Ht|].
    now apply negb_true_iff, Nat.eqb_neq.
Qed.

Lemma NoDup_filter_ids (id : nat) (ts : list toast_el) :
  List.NoDup (map toast_id ts) ->
  List.NoDup (map toast_id
           (List.filter (fun t => negb (toast_id t =? id)%nat) ts)).
Proof.
  induction ts as [|t ts IH]; cbn; [intros; constructor|].
  intros H. apply List.NoDup_cons_iff in H as [Hnotin Hnd].
  destruct (negb (toast_id t =? id)%nat); [|now apply IH].
  cbn. apply List.NoDup_cons_iff. split; [|now apply IH].
  intros Hin. apply In_filter_ids in Hin as [Hin _]. contradiction.
Qed.

Lemma map_fade_ids (id : nat) (ts : list toast_el) :
  map toast_id
    (map (fun t =>
            if (toast_id t =? id)%nat
            then {| toast_id := toast_id t; icon := icon t; color := color t;
                    message := message t; fading := true |}
            else t) ts)
  = map toast_id ts.
Proof.
  rewrite map_map. apply map_ext. intros t.
  destruct (toast_id t =? id)%nat; reflexivity.
Qed.

Lemma fire_next_timed (p : page) : timed p -> timed (fire_next p).
Proof.
  intros Ht. unfold fire_next.
  destruct (pick_earliest (timers p)) as [[[due cb] rest]|] eqn:E;
    [|exact Ht].
  destruct Ht as (Hnd & Hndt & Hiff & Hlt & Hc).
  pose proof (pick_earliest_perm _ _ _ E) as Hperm.
  assert (Hpi : Permutation (timer_ids (timers p))
                  (callback_id cb :: timer_ids rest)).
  { unfold timer_ids.
    exact (Permutation_map (fun t => callback_id (snd t)) Hperm). }
  assert (Hndt' : List.NoDup (callback_id cb :: timer_ids rest))
    by (exact (Permutation_NoDup Hpi Hndt)).
  apply List.NoDup_cons_iff in Hndt' as [Hnotin Hndrest].
  assert (Hiff' : forall id, In id (map toast_id (default [] (container p)))
                    <-> id = callback_id cb \/ In id (timer_ids rest)).
  { intros id. rewrite Hiff. split.
    - intros H. apply (Permutation_in _ Hpi) in H. cbn in H.
      intuition congruence.
    - intros H. apply (Permutation_in _ (Permutation_sym Hpi)). cbn.
      intuition congruence. }
  unfold timed. destruct cb as [id|id]; cbn [run_callback container timers
    created containers_in_body callback_id] in *.
  - assert (Hts : map toast_id
              (default [] (option_map (map (fun t =>
                 if (toast_id t =? id)%nat
                 then {| toast_id := toast_id t; icon := icon t;
                         color := color t; message := message t;
                         fading := true |}
                 else t)) (container p)))
              = map toast_id (default [] (container p))).
    { destruct (container p); cbn; [apply map_fade_ids|reflexivity]. }
    rewrite Hts, timer_ids_app. cbn.
    split; [exact Hnd|]. split; [|split; [|split; [exact Hlt|]]].
    + now apply NoDup_snoc.
    + intros x. rewrite Hiff', in_app_iff. cbn. intuition congruence.
    + destruct (container p); exact Hc.
  - assert (Hts : forall x,
              In x (map toast_id (default [] (option_map
                      (List.filter (fun t => negb (toast_id t =? id)%nat))
                      (container p))))
              <-> In x (map toast_id (default [] (container p))) /\ x <> id).
    { intros x. destruct (container p); cbn; [apply In_filter_ids|tauto]. }
    split; [|split; [exact Hndrest|split; [|split]]].
    + destruct (container p); cbn; [now apply NoDup_filter_ids|constructor].
    + intros x. rewrite Hts, Hiff'. split.
      * intros [[->|H] Hne]; [contradiction|exact H].
      * intros H. split; [now right|]. intros ->. contradiction.
    + intros x Hx. apply Hts in Hx as [Hx _]. now apply Hlt.
    + destruct (container p); exact Hc.
Qed.

Lemma reachable_timed (p : page) : reachable p -> timed p.
Proof.
  induction 1 as [|message type duration p _ IH|d p _ IH|p _ IH].
  - unfold timed. cbn.
    split; [apply List.NoDup_nil|]. split; [apply List.NoDup_nil|].
    split; [tauto|]. split; [intros id []|reflexivity].
  - now apply show_timed.
  - exact IH.
  - now apply fire_next_timed.
Qed.

Lemma run_timers_all (n : nat) : forall p,
  timed p -> (weight (timers p) <= n)%nat ->
  timers (run_timers n p) = [] /\
  timed (run_timers n p) /\
  containers_in_body (run_timers n p) = containers_in_body p.
Proof.
  induction n as [|n IH]; intros p Ht Hw.
  - cbn. split; [apply weight_0; lia|]. now split.
  - cbn [run_timers]. destruct (timers p) as [|t ts] eqn:E;
      [split; [exact E|split; [exact Ht|reflexivity]]|].
    assert (Hne : timers p <> []) by (rewrite E; discriminate).
    pose proof (fire_next_weight p Hne) as Hlt. rewrite E in Hlt.
    destruct (IH (fire_next p) (fire_next_timed p Ht) ltac:(lia))
      as (H1 & H2 & H3).
    rewrite fire_next_containers in H3.
    split; [exact H1|split; [exact H2|exact H3]].
Qed.

(** X24. Toasts do not pile up: from the initial page, after any calls of
    [Toast.show], with time passing and timers firing in between, the body
    holds at most one toast container, and once the pending timers have all
    fired (two per toast at most) no toast is left in it and no timer is
    pending. *)
Theorem toast_timers_clear (p : page) :
  reachable p ->
  (containers_in_body p <= 1)%nat /\
  let p' := run_timers (2 * length (timers p)) p in
  timers p' = [] /\
  default [] (container p') = [] /\
  containers_in_body p' = containers_in_body p.
Proof.
  intros Hr. pose proof (reachable_timed p Hr) as Ht.
  split.
  - destruct Ht as (_ & _ & _ & _ & Hc). destruct (container p); lia.
  - cbv zeta.
    destruct (run_timers_all (2 * length (timers p)) p Ht
                (weight_bound (timers p))) as (H1 & H2 & H3).
    split; [exact H1|]. split; [|exact H3].
    destruct H2 as (_ & _ & Hiff & _).
    apply (ids_empty _ _ toast_id Hiff). now rewrite H1.
Qed.

Lemma toast_timers_clear_witness :
  let p := success "Saved" (error "Failed" initial) in
  length (default [] (container p)) = 2%nat /\
  default [] (container (run_timers (2 * length (timers p)) p)) = [].
Proof.
  cbv zeta. split; [reflexivity|].
  apply (toast_timers_clear (success "Saved" (error "Failed" initial))).
  apply reachable_show, reachable_show, reachable_initial.
Defined.

End ToastFacts.

(** ** The comparison panel and the chart's tooltip *)

(** X25. The panel of changes and the tooltip of the comparison chart tell
    the same story: the item of rank [j] in the panel (habits, then tasks)
    carries the arrow and the number that the tooltip shows on bar [j] of
    the first dataset, its class is [positive] exactly when its arrow
    points up, and on no other dataset does the tooltip add a line. *)
Theorem comparison_panel_agrees_with_tooltip
  (c : Comparison.comparison) (j : nat) (item : Comparison.change_item) :
  Comparison.render_changes c !! j = Some item ->
  Comparison.afterLabel c 0 (Z.of_nat j)
    = Some (Comparison.arrow item, Comparison.change_value item) /\
  (Comparison.item_class item = "positive"
   <-> Comparison.arrow item = Comparison.Up) /\
  (forall k, k <> 0 -> Comparison.afterLabel c k (Z.of_nat j) = None).
Proof.
  intros Hj.
  assert (Hitem : (j = 0%nat /\
                   item = Comparison.render_change "Habits"
                            (Comparison.habits_change c)) \/
                  (j = 1%nat /\
                   item = Comparison.render_change "Tasks"
                            (Comparison.tasks_change c))).
  { destruct j as [|[|j]]; cbn in Hj; [left|right|discriminate];
      injection Hj as <-; split; reflexivity. }
  split; [|split].
  - destruct Hitem as [[-> ->]|[-> ->]]; reflexivity.
  - destruct Hitem as [[_ ->]|[_ ->]];
      unfold Comparison.render_change;
      cbn [Comparison.item_class Comparison.arrow];
      match goal with
      | |- context [JsNumber.num_ge ?a ?b] => destruct (JsNumber.num_ge a b)
      end; split; intros H; try reflexivity; discriminate H.
  - intros k Hk. unfold Comparison.afterLabel.
    destruct (Z.eqb_spec k 0) as [E|E]; [contradiction|reflexivity].
Qed.

Lemma comparison_panel_agrees_with_tooltip_witness :
  Comparison.afterLabel
    {| Comparison.habits_change := JsNumber.of_Z (-20);
       Comparison.tasks_change := JsNumber.of_Z 50 |} 0 0
  = Some (Comparison.Down, JsNumber.of_Z 20).
Proof.
  apply (comparison_panel_agrees_with_tooltip
           {| Comparison.habits_change := JsNumber.of_Z (-20);
              Comparison.tasks_change := JsNumber.of_Z 50 |} 0
           (Comparison.render_change "Habits" (JsNumber.of_Z (-20)))).
  reflexivity.
Defined.
